(** * OCR transaction-extraction service: a shallow embedding of the server

    The server (second server file bundled in [src/public/admin.js], from
    line 642 on) is an Express application over three MongoDB collections
    with a rate limiter and a three-call pipeline around a generative model.

    Conventions of the embedding:
    - strings are sequences of code units below 256 (Latin-1), so the
      character classes of the string built-ins are written out for that
      range;
    - [handle] runs one request as one step (the three writes of a
      submission, which other requests can come between, are taken apart
      in [advance] and [move]); the clock, the model's replies,
      the random key, the fresh object id and the mail relay's outcome are
      the request's environment [Env]; a request is what the body parser
      and the upload middleware make of it;
    - the primitives of the host and of the libraries that the source only
      calls (number parsing and printing, [JSON.parse], the schema casts of
      the database driver, date parsing) are fields of the classes
      [JsNumber] and [Host]; every statement holds for all their
      implementations, and a small reference instance runs the examples;
    - database operations on the in-memory store do not fail by themselves
      (the collaborators are assumed reliable); failures that the data
      cause (casts, required fields, unique indexes) are modelled. *)

From Stdlib Require Import ZArith Ascii String List Lia.
From stdpp Require Import gmap strings list fin_maps sorting pretty.

Open Scope Z_scope.

(** ** String built-ins *)

Module Str.

Definition code (c : ascii) : Z := Z.of_N (N_of_ascii c).

Definition between (lo hi : Z) (c : ascii) : bool :=
  (lo <=? code c) && (code c <=? hi).

(** [\d] *)
Definition isDigit (c : ascii) : bool := between 48 57 c.

(** [\w]: letters, digits and the underscore. *)
Definition isWordChar (c : ascii) : bool :=
  isDigit c || between 65 90 c || between 97 122 c || (code c =? 95).

(** White space removed by [String.prototype.trim] and skipped by
    [parseInt]: TAB, LF, VT, FF, CR, SPACE, NBSP. *)
Definition isSpace (c : ascii) : bool :=
  between 9 13 c || (code c =? 32) || (code c =? 160).

Definition isEmpty (s : string) : bool :=
  match s with EmptyString => true | String _ _ => false end.

Fixpoint trimStart (s : string) : string :=
  match s with
  | String c r => if isSpace c then trimStart r else s
  | EmptyString => EmptyString
  end.

Fixpoint trimEnd (s : string) : string :=
  match s with
  | String c r =>
      let r' := trimEnd r in
      if isSpace c && isEmpty r' then EmptyString else String c r'
  | EmptyString => EmptyString
  end.

Definition trim (s : string) : string := trimEnd (trimStart s).

Definition lowerChar (c : ascii) : ascii :=
  if between 65 90 c || (between 192 222 c && negb (code c =? 215))
  then ascii_of_N (N_of_ascii c + 32)
  else c.

Fixpoint toLowerCase (s : string) : string :=
  match s with
  | String c r => String (lowerChar c) (toLowerCase r)
  | EmptyString => EmptyString
  end.

Fixpoint startsWith (p s : string) : bool :=
  match p, s with
  | EmptyString, _ => true
  | String a p', String b s' => Ascii.eqb a b && startsWith p' s'
  | String _ _, EmptyString => false
  end.

Definition len (s : string) : Z := Z.of_nat (String.length s).

(** [s.indexOf(p)]: first index at which [p] occurs, [-1] when absent. *)
Fixpoint indexOfFrom (i : Z) (p s : string) : Z :=
  if startsWith p s then i
  else match s with
       | String _ r => indexOfFrom (i + 1) p r
       | EmptyString => -1
       end.

Definition indexOf (p s : string) : Z := indexOfFrom 0 p s.

(** [s.slice(a, b)] for arguments that are not negative. *)
Definition slice (a b : Z) (s : string) : string :=
  substring (Z.to_nat a) (Z.to_nat (b - a)) s.

(** [s.replace(/,/g, '')] *)
Fixpoint removeCommas (s : string) : string :=
  match s with
  | String c r => if Ascii.eqb c "," then removeCommas r else String c (removeCommas r)
  | EmptyString => EmptyString
  end.

(** The part of [s] up to and including its last ["}"], if it has one. *)
Fixpoint throughLastBrace (s : string) : option string :=
  match s with
  | String c r =>
      match throughLastBrace r with
      | Some t => Some (String c t)
      | None => if Ascii.eqb c "}" then Some (String c EmptyString) else None
      end
  | EmptyString => None
  end.

(** [s.match(/\{[\s\S]*\}/)]: from the first ["{"] to the last ["}"]
    that follows it ([None] is the [null] of a failed match). *)
Fixpoint matchBraces (s : string) : option string :=
  match s with
  | String c r =>
      if Ascii.eqb c "{"
      then option_map (String c) (throughLastBrace r)
      else matchBraces r
  | EmptyString => None
  end.

(** *** The regular expression [/\b\d{12}\b/g] *)

(** [k] digits at the front of [s], and what follows them. *)
Fixpoint digitsPrefix (k : nat) (s : string) : option (string * string) :=
  match k with
  | O => Some (EmptyString, s)
  | S k' =>
      match s with
      | String c r =>
          if isDigit c
          then match digitsPrefix k' r with
               | Some (d, rest) => Some (String c d, rest)
               | None => None
               end
          else None
      | EmptyString => None
      end
  end.

(** A match that starts at the front of [s]; [prevWord] tells whether the
    character before [s] is a word character. A digit is a word character,
    so the leading [\b] holds exactly when [prevWord] is false, and the
    trailing one when the twelve digits end the text or a non-word
    character follows. *)
Definition matchAt (prevWord : bool) (s : string) : option string :=
  if prevWord then None
  else match digitsPrefix 12 s with
       | Some (d, String c _) => if isWordChar c then None else Some d
       | Some (d, EmptyString) => Some d
       | None => None
       end.

(** The left-to-right scan of a global match: after a match the scan
    resumes behind it ([skip] counts the characters still to pass). *)
Fixpoint scan (prevWord : bool) (skip : nat) (s : string) : list string :=
  match s with
  | String c r =>
      match skip with
      | S k => scan (isWordChar c) k r
      | O =>
          match matchAt prevWord s with
          | Some d => d :: scan (isWordChar c) 11 r
          | None => scan (isWordChar c) 0 r
          end
      end
  | EmptyString => []
  end.

(** [rawText.match(twelveDigitRegex) || []] *)
Definition matchTwelveDigits (s : string) : list string := scan false 0 s.

(** *** [parseInt(s)] without a radix

    [None] is [NaN]. The value is exact; the host's doubles agree with it
    below 2^53. *)

Definition digitValue (radix : Z) (c : ascii) : option Z :=
  let v :=
    if isDigit c then code c - 48
    else if between 97 122 c then code c - 87
    else if between 65 90 c then code c - 55
    else 99 in
  if v <? radix then Some v else None.

Fixpoint readDigits (radix : Z) (acc : option Z) (s : string) : option Z :=
  match s with
  | String c r =>
      match digitValue radix c with
      | Some v => readDigits radix (Some (radix * default 0 acc + v)) r
      | None => acc
      end
  | EmptyString => acc
  end.

Definition readUnsigned (s : string) : option Z :=
  if startsWith "0x" s || startsWith "0X" s
  then readDigits 16 None (slice 2 (len s) s)
  else readDigits 10 None s.

Definition parseInt (s : string) : option Z :=
  match trimStart s with
  | String "-" r => Z.opp <$> readUnsigned r
  | String "+" r => readUnsigned r
  | t => readUnsigned t
  end.

End Str.


(** ** JavaScript values *)

(** The host's Number type and the primitives the server calls on it.
    [numOfZ] gives the numeric literals of the source. *)
Class JsNumber := {
  Num : Type;
  numOfZ : Z -> Num;
  parseFloat : string -> Num;
  isNaN : Num -> bool;
  numGt : Num -> Num -> bool;          (* [a > b] *)
  numEq : Num -> Num -> bool;          (* [a === b] *)
  numTruthy : Num -> bool;             (* false for 0 and NaN *)
  toFixed2 : Num -> string;            (* [a.toFixed(2)] *)
  numToString : Num -> string;         (* [`${a}`] *)
  numGt_isNaN : forall a b, numGt a b = true -> isNaN a = false
}.

#[warnings="-register-all"] Inductive JsValue {JN : JsNumber} : Type :=
| JUndefined
| JNull
| JBool (b : bool)
| JNum (n : Num)
| JStr (s : string)
| JArr (items : list JsValue)
| JObj (fields : gmap string JsValue).

Abbreviation JsObject := (gmap string JsValue).

Definition dq : string := String (ascii_of_N 34) EmptyString.

Section Values.
Context {JN : JsNumber}.

Definition truthy (v : JsValue) : bool :=
  match v with
  | JUndefined | JNull => false
  | JBool b => b
  | JNum n => numTruthy n
  | JStr s => negb (Str.isEmpty s)
  | JArr _ | JObj _ => true
  end.

(** [o.k]: [undefined] for a property the object lacks. *)
Definition prop (k : string) (o : JsObject) : JsValue := default JUndefined (o !! k).

(** [a || b] *)
Definition jsOr (a b : JsValue) : JsValue := if truthy a then a else b.

(** [l.includes(v)] on an array of strings. *)
Definition includes (l : list string) (v : JsValue) : bool :=
  match v with
  | JStr s => bool_decide (s ∈ l)
  | _ => false
  end.

(** [v.length === n] for a truthy [v]. *)
Definition lengthIs (n : Z) (v : JsValue) : bool :=
  match v with
  | JStr s => Str.len s =? n
  | JArr l => Z.of_nat (length l) =? n
  | JObj o => match o !! "length"%string with
              | Some (JNum m) => numEq m (numOfZ n)
              | _ => false
              end
  | _ => false
  end.

End Values.

(** ** Host and library primitives *)

(** [JSON_parse_object] is [JSON.parse] on a text that starts with an
    opening and ends with a closing brace: it throws ([None]) or returns an
    object. [castString] and [castBoolean] are the casts of the database
    driver for schema types [String] and [Boolean] ([None]: the cast fails
    and the save is rejected). [parseDate] is [new Date(s)] ([None]: an
    invalid date), [addLocalDay] is [d.setDate(d.getDate() + 1)], times are
    milliseconds since the epoch. *)
Class Host {JN : JsNumber} := {
  JSON_parse_object : string -> option JsObject;
  castString : JsValue -> option JsValue;
  castBoolean : JsValue -> option JsValue;
  parseDate : string -> option Z;
  addLocalDay : Z -> Z;
  toISOString : Z -> string;
  castString_str : forall s, castString (JStr s) = Some (JStr s);
  castString_undefined : castString JUndefined = Some JUndefined;
  castBoolean_bool : forall b, castBoolean (JBool b) = Some (JBool b)
}.

(** ** The generative model and the request environment *)

Definition ObjectId := N.

(** A call of [model.generateContent]: the image with its prompt, or a
    text prompt. The image bytes stand for their base64 form. *)
Inductive GenRequest :=
| ImageRequest (data : string) (text : string)
| TextRequest (text : string).

(** What one request reads from outside the server: the clock, the model
    ([None]: the call fails), [crypto.randomBytes(16).toString('hex')],
    the object id the driver gives a created user, whether the mail relay
    accepts the message, and the state of the database connection. *)
Record Env := {
  now : Z;
  generateContent : GenRequest -> option string;
  randomHex : string;
  freshId : ObjectId;
  mailAccepted : bool;
  dbConnected : bool
}.

Definition rawTextPrompt : string :=
  "
      Analyze the provided image and extract ALL text visible in it.
      Include any numbers, dates, transaction details, and any other relevant information.
      Provide the extracted text as a single, unformatted string.
    ".

Definition dataExtractionPrompt : string :=
  "
      Extract the following details from the given text:
      - Date
      - 12-digit numeric code (UTR number)
      - Amount in INR (remove commas but keep decimal point)
      - Check for signs of image editing
      
      Rules:
      - For UTR, prefer 12-digit numbers starting with 4
      - If multiple 12-digit numbers found, list them all
      - Remove commas from amount and keep decimal point
      - Check carefully for signs of editing
      
      Return ONLY a JSON object in this format:
      {
        " +:+ dq +:+ "date" +:+ dq +:+ ": " +:+ dq +:+ "[extracted_date]" +:+ dq +:+ ",
        " +:+ dq +:+ "utr" +:+ dq +:+ ": " +:+ dq +:+ "[12-digit_utr]" +:+ dq +:+ ",
        " +:+ dq +:+ "amount_in_inr" +:+ dq +:+ ": " +:+ dq +:+ "[formatted_amount]" +:+ dq +:+ ",
        " +:+ dq +:+ "is_edited" +:+ dq +:+ ": [true/false]
      }
    ".

Definition amountVerificationPrompt (amount surroundingText : string) : string :=
  "
          The extracted amount is "
  +:+ amount +:+
  ". Considering the surrounding text, is this amount correct, or is it off by a factor of 10 (too high or too low)? If incorrect, what is the correct amount?

          Surrounding Text:
          ```
          "
  +:+ surroundingText +:+
  "
          ```

          Return ONLY a number or " +:+ dq +:+ "correct" +:+ dq +:+ " if the amount is accurate. If the extracted amount is not found in the surrounding text, return " +:+ dq +:+ "not found" +:+ dq +:+ ".
        ".

(** Computations of the pipeline: they may throw ([None]) and they record
    the calls made to the model. *)
Definition Gen (A : Type) : Type := list GenRequest -> option A * list GenRequest.

#[export] Instance Gen_ret : MRet Gen := fun A (a : A) calls => (Some a, calls).

#[export] Instance Gen_bind : MBind Gen := fun A B (k : A -> Gen B) (m : Gen A) calls =>
  match m calls with
  | (Some a, calls') => k a calls'
  | (None, calls') => (None, calls')
  end.

Definition throw {A : Type} : Gen A := fun calls => (None, calls).

Definition callModel (env : Env) (req : GenRequest) : Gen string :=
  fun calls => (generateContent env req, calls ++ [req]).

Definition ofOption {A : Type} (o : option A) : Gen A :=
  match o with Some a => mret a | None => throw end.

(** ** The extraction pipeline: [processImage] *)

Section Pipeline.
Context {JN : JsNumber} {HO : Host}.

(** [rawText.slice(Math.max(0, i - 50), Math.min(rawText.length, i + a.length + 50))]
    with [i = rawText.indexOf(a)]. *)
Definition surroundingText (rawText a : string) : string :=
  let i := Str.indexOf a rawText in
  Str.slice (Z.max 0 (i - 50)) (Z.min (Str.len rawText) (i + Str.len a + 50)) rawText.

(** The model's reply to the verification prompt, read as an amount. *)
Definition verifiedAmount (amount : Num) (verifiedAmountText : string) : Num :=
  if String.eqb (Str.toLowerCase verifiedAmountText) "correct" then amount
  else if String.eqb (Str.toLowerCase verifiedAmountText) "not found" then amount
  else parseFloat verifiedAmountText.

(** Lines 883-924: the check of an amount above the threshold. A truthy
    amount that is not a string has no [replace] method: the call throws. *)
Definition verifyAmount (env : Env) (rawText : string) (extractedData : JsObject)
  : Gen JsObject :=
  if truthy (prop "amount_in_inr" extractedData) then
    match prop "amount_in_inr" extractedData with
    | JStr a =>
        let amount := parseFloat (Str.removeCommas a) in
        if numGt amount (numOfZ 100000) then
          reply ← callModel env
            (TextRequest (amountVerificationPrompt (numToString amount)
                                                    (surroundingText rawText a)));
          let verified := verifiedAmount amount (Str.trim reply) in
          if negb (isNaN verified)
          then mret (<["amount_in_inr"%string := JStr (toFixed2 verified)]> extractedData)
          else mret extractedData
        else mret extractedData
    | _ => throw
    end
  else mret extractedData.

(** Lines 926-934: the twelve-digit sequences of the raw text against the
    model's answer. [find] returns the first sequence that starts with 4. *)
Definition utrWith4 (utrMatches : list string) : option string :=
  List.find (Str.startsWith "4") utrMatches.

Definition chooseUtr (utrMatches : list string) (extractedData : JsObject) : JsObject :=
  match utrMatches with
  | [] => extractedData
  | first :: _ =>
      if negb (truthy (prop "utr" extractedData))
         || negb (includes utrMatches (prop "utr" extractedData))
      then
        let utr := default first (utrWith4 utrMatches) in
        let d := <["utr"%string := JStr utr]> extractedData in
        match utrMatches with
        | _ :: _ :: _ =>
            <["utr_alternatives"%string :=
                JArr (JStr <$> filter (fun u => u ≠ utr) utrMatches)]> d
        | _ => d
        end
      else extractedData
  end.

(** Lines 878-881: the first brace-delimited part of the model's answer,
    parsed ([None]: [JSON.parse] throws); an answer without one gives an
    error object. *)
Definition parseAnswer (extractedDataText : string) : option JsObject :=
  match Str.matchBraces extractedDataText with
  | Some json => JSON_parse_object json
  | None => Some {[ "error"%string :=
                      JStr "Failed to extract structured data from the text." ]}
  end.

(** The text of the second call. *)
Definition extractionRequest (rawText : string) : GenRequest :=
  TextRequest (dataExtractionPrompt
               +:+ String (ascii_of_N 10) (String (ascii_of_N 10) "Text to analyze:")
               +:+ String (ascii_of_N 10) rawText).

(** The body of the [try] block. *)
Definition processImageTry (env : Env) (imageBuffer : string) : Gen JsObject :=
  response ← callModel env (ImageRequest imageBuffer rawTextPrompt);
  let rawText := Str.trim response in
  let utrMatches := Str.matchTwelveDigits rawText in
  extractedDataText ← callModel env (extractionRequest rawText);
  extractedData ← ofOption (parseAnswer extractedDataText);
  extractedData ← verifyAmount env rawText extractedData;
  mret (chooseUtr utrMatches extractedData).

(** [processImage]: the extracted data, or the error object of the
    [catch] block; with it, the calls made to the model. *)
Definition processImage (env : Env) (imageBuffer : string) : JsObject * list GenRequest :=
  match processImageTry env imageBuffer [] with
  | (Some extractedData, calls) => (extractedData, calls)
  | (None, calls) =>
      ({[ "error"%string := JStr "An error occurred while processing the image." ]}, calls)
  end.

End Pipeline.

(** ** The document store *)

(** A user document; its [_id] is its key in the collection. *)
Record UserProfile := {
  apiKey : string;
  name : string;
  email : string;
  isAdmin : bool;
  requestCount : Z;
  createdAt : Z
}.

Record Transaction {JN : JsNumber} := {
  t_userId : ObjectId;
  t_date : JsValue;
  t_utr : JsValue;
  t_amount_in_inr : JsValue;
  t_createdAt : Z
}.

Record ProcessingData {JN : JsNumber} := {
  date : JsValue;
  utr : JsValue;
  amount_in_inr : JsValue;
  is_edited : JsValue
}.

Record Log {JN : JsNumber} := {
  l_userId : ObjectId;
  timestamp : Z;
  processingData : ProcessingData
}.

Record Store {JN : JsNumber} := {
  users : gmap ObjectId UserProfile;
  transactions : list Transaction;
  logs : list Log
}.

(** The retention of the index on [timestamp]: [expires: 864000] seconds. *)
Definition logRetentionMs : Z := 864000 * 1000.

(** One pass of the database's expiry monitor at time [t]. *)
Definition expireLogs {JN : JsNumber} (t : Z) (st : Store) : Store :=
  {| users := users st;
     transactions := transactions st;
     logs := filter (fun l => t < timestamp l + logRetentionMs) (logs st) |}.

(** ** The rate limiter *)

(** One counting window of a key. *)
Record Window := { hits : Z; resetTime : Z }.

(** The options the source passes to [rateLimit] (lines 729-730). *)
Definition windowMs : Z := 60 * 1000.
Definition maxRequests : Z := 20.

(** Modelled from the spec: the store of the [rateLimit] middleware of the
    express-rate-limit package, which the repository only configures. It is
    a fixed-window counter per key: a hit outside a running window opens a
    window of [windowMs] with count 1, a hit inside it adds one. *)
Definition hit (t : Z) (key : ObjectId) (counters : gmap ObjectId Window) : Window :=
  match counters !! key with
  | Some w =>
      if t <? resetTime w
      then {| hits := hits w + 1; resetTime := resetTime w |}
      else {| hits := 1; resetTime := t + windowMs |}
  | None => {| hits := 1; resetTime := t + windowMs |}
  end.

(** ** Requests and responses *)

Inductive Route :=
| PostAdminUsers      (* POST /api/admin/users *)
| GetAdminUsers       (* GET /api/admin/users *)
| PostProcessImage    (* POST /api/process-image *)
| GetLogs             (* GET /api/logs *)
| GetHealth.          (* GET /health *)

(** What the upload middleware leaves in the request: no file, the file
    held in memory, or an error (a file above the 5MB limit, an unexpected
    field) that goes to the error-handling middleware. *)
Inductive Upload :=
| NoFile
| File (buffer : string)
| UploadError.

(** What [express.json()] makes of the body: it rejects it (malformed
    JSON, or too large) and hands the error to the error-handling
    middleware, or it leaves the parsed body in the request, of which the
    server reads [name] and [email] ([undefined] when there is none). *)
Inductive JsonBody {JN : JsNumber} :=
| BodyRejected
| BodyParsed (name email : JsValue).

(** A request: the [x-api-key] header, the body, the upload, and the query
    parameters (each a single string). *)
Record Request {JN : JsNumber} := {
  route : Route;
  xApiKey : option string;
  jsonBody : JsonBody;
  upload : Upload;
  q_startDate : option string;
  q_endDate : option string;
  q_page : option string;
  q_limit : option string
}.

Record UserView := {
  uv_id : ObjectId;
  uv_name : string;
  uv_email : string;
  uv_apiKey : string;
  uv_requestCount : Z;
  uv_createdAt : Z
}.

(** A formatted log; [lv_timestamp] is the time that [toLocaleString]
    renders. *)
Record LogView {JN : JsNumber} := {
  lv_timestamp : Z;
  lv_username : string;
  lv_data : ProcessingData
}.

(** The JSON bodies the server sends. A date is given by its time value,
    [pages] is [None] when the quotient is not finite. *)
Inductive Body {JN : JsNumber} :=
| BError (error : JsValue)
| BTooManyRequests (error : string) (requestsRemaining : Z) (resetsAt : Z)
| BUnexpected (error : string)
| BUserCreated (message : string) (id : ObjectId) (uname uemail ukey : string)
| BUsers (data : list UserView)
| BProcessed (data : JsObject) (remaining : Z) (resetsAt : Z)
| BLogs (entries : list LogView) (total : Z) (page : Z) (pages : option Z)
| BHealth (time : Z) (mongodb : string).

(** The [rateLimit] property the [send] wrapper looks for on the response;
    its fields, when present, hold numbers, as the wrapper expects. *)
Record RateLimitInfo := { rl_remaining : option Z; rl_resetTime : option Z }.

Record Response {JN : JsNumber} := {
  status : Z;
  headers : gmap string string;
  body : Body
}.

(** The state of the server: the database and the limiter's counters. *)
Record Server {JN : JsNumber} := {
  store : Store;
  counters : gmap ObjectId Window
}.

(** The outcome of a middleware: it answers, or it passes a value on. *)
Inductive Step {JN : JsNumber} (A : Type) :=
| Respond (code : Z) (b : Body)
| Next (a : A).
Arguments Respond {JN A} code b.
Arguments Next {JN A} a.

(** ** Middleware and handlers *)

Section Handlers.
Context {JN : JsNumber} {HO : Host}.

Definition errorBody (msg : string) : Body := BError (JStr msg).

(** *** The [send] wrapper (lines 744-766) *)

(** The largest time value of a valid date; [toISOString] throws beyond. *)
Definition maxTime : Z := 8640000000000000.

(** The headers after the wrapper ran: the three [setHeader] calls in the
    order of the source; when [toISOString] throws, the [catch] block
    sends the body with the headers set so far. *)
Definition rateLimitHeaders (env : Env) (rateLimit : option RateLimitInfo)
    (h : gmap string string) : gmap string string :=
  match rateLimit with
  | Some info =>
      let remaining := Z.max 0 (default 0 (rl_remaining info)) in
      let resetTime :=
        now env + match rl_resetTime info with
                  | Some 0 | None => 60000
                  | Some r => r
                  end in
      let h := <["X-RateLimit-Limit"%string := "30"%string]> h in
      let h := <["X-RateLimit-Remaining"%string := pretty remaining]> h in
      if Z.abs resetTime <=? maxTime
      then <["X-RateLimit-Reset"%string := toISOString resetTime]> h
      else h
  | None => h
  end.

Definition send (env : Env) (rateLimit : option RateLimitInfo) (code : Z) (b : Body)
  : Response :=
  {| status := code; headers := rateLimitHeaders env rateLimit ∅; body := b |}.

(** *** [authenticateUser] (lines 768-785) *)

(** [UserProfile.findOne({ apiKey })] *)
Definition findOneByApiKey (key : string) (us : gmap ObjectId UserProfile)
  : option (ObjectId * UserProfile) :=
  head (filter (fun p => apiKey p.2 = key) (map_to_list us)).

Definition authenticateUser (req : Request) (st : Store) : Step (ObjectId * UserProfile) :=
  match xApiKey req with
  | None => Respond 401 (errorBody "Unauthorized: API key required")
  | Some key =>
      if Str.isEmpty key
      then Respond 401 (errorBody "Unauthorized: API key required")
      else match findOneByApiKey key (users st) with
           | None => Respond 401 (errorBody "Unauthorized: Invalid API key")
           | Some user => Next user
           end
  end.

(** *** [requireAdmin] (lines 788-798) *)

Definition requireAdmin (id : ObjectId) (st : Store) : Step unit :=
  match users st !! id with
  | Some user =>
      if isAdmin user then Next tt
      else Respond 403 (errorBody "Forbidden: Admin access required")
  | None => Respond 403 (errorBody "Forbidden: Admin access required")
  end.

(** *** [createUserRateLimiter] (lines 728-741) *)

(** The middleware as configured: skipped for an admin, keyed by the
    user's id, the 429 answer of [handler] above [maxRequests] hits. A
    request that passes carries the remaining quota in [req.rateLimit]. *)
Definition createUserRateLimiter (env : Env) (id : ObjectId) (user : UserProfile)
    (cs : gmap ObjectId Window) : Step (option Z) * gmap ObjectId Window :=
  if isAdmin user then (Next None, cs)
  else
    let w := hit (now env) id cs in
    let cs' := <[id := w]> cs in
    if maxRequests <? hits w
    then (Respond 429 (BTooManyRequests "Too many requests, please try again in a minute."
                         0 (now env + 60 * 1000)), cs')
    else (Next (Some (maxRequests - hits w)), cs').

(** *** POST /api/admin/users (lines 943-984) *)

Definition generateApiKey (env : Env) : string := "key_" +:+ randomHex env.

(** A [required] path of type [String]: the cast value, not empty. *)
Definition requiredString (v : JsValue) : option string :=
  match castString v with
  | Some (JStr s) => if Str.isEmpty s then None else Some s
  | _ => None
  end.

(** [newUser.save()]: rejected when the id, the key or the email is
    taken (the unique indexes of the schema). *)
Definition insertUser (id : ObjectId) (u : UserProfile) (us : gmap ObjectId UserProfile)
  : option (gmap ObjectId UserProfile) :=
  if decide (us !! id = None
             ∧ map_Forall (fun _ v => apiKey v ≠ apiKey u ∧ email v ≠ email u) us)
  then Some (<[id := u]> us)
  else None.

Definition withUsers (us : gmap ObjectId UserProfile) (st : Store) : Store :=
  {| users := us; transactions := transactions st; logs := logs st |}.

Definition b_name (req : Request) : JsValue :=
  match jsonBody req with BodyParsed n _ => n | BodyRejected => JUndefined end.

Definition b_email (req : Request) : JsValue :=
  match jsonBody req with BodyParsed _ e => e | BodyRejected => JUndefined end.

Definition createUser (env : Env) (req : Request) (st : Store) : Z * Body * Store :=
  match requiredString (b_name req), requiredString (b_email req) with
  | Some n, Some e =>
      let newUser := {| apiKey := generateApiKey env; name := n; email := e;
                        isAdmin := false; requestCount := 0; createdAt := now env |} in
      match insertUser (freshId env) newUser (users st) with
      | Some us =>
          if mailAccepted env
          then (200, BUserCreated "User created and email sent"
                       (freshId env) n e (generateApiKey env), withUsers us st)
          else (500, errorBody "Error creating user", withUsers us st)
      | None => (500, errorBody "Error creating user", st)
      end
  | _, _ => (500, errorBody "Error creating user", st)
  end.

(** *** GET /api/admin/users (lines 986-1009) *)

(** [Log.countDocuments({ userId })] *)
Definition countLogs (id : ObjectId) (st : Store) : Z :=
  Z.of_nat (length (filter (fun l => l_userId l = id) (logs st))).

Definition userView (st : Store) (p : ObjectId * UserProfile) : UserView :=
  {| uv_id := p.1; uv_name := name p.2; uv_email := email p.2;
     uv_apiKey := apiKey p.2; uv_requestCount := countLogs p.1 st;
     uv_createdAt := createdAt p.2 |}.

Definition newestUserFirst (a b : ObjectId * UserProfile) : Prop :=
  createdAt b.2 ≤ createdAt a.2.

#[export] Instance newestUserFirst_dec a b : Decision (newestUserFirst a b).
Proof. unfold newestUserFirst; apply _. Defined.

(** [UserProfile.find({ isAdmin: false }).sort('-createdAt')] *)
Definition nonAdminUsers (st : Store) : list (ObjectId * UserProfile) :=
  merge_sort newestUserFirst
    (filter (fun p => isAdmin p.2 = false) (map_to_list (users st))).

Definition listUsers (st : Store) : Z * Body * Store :=
  (200, BUsers (userView st <$> nonAdminUsers st), st).

(** *** POST /api/process-image (lines 1012-1074) *)

(** Lines 1031-1033. *)
Definition normalizeUtr (extractedData : JsObject) : JsObject :=
  if truthy (prop "utr" extractedData) && negb (lengthIs 12 (prop "utr" extractedData))
  then <["utr"%string := JStr "N/A"]> extractedData
  else extractedData.

(** [new Transaction({...})], cast to the schema. *)
Definition newTransaction (env : Env) (id : ObjectId) (d : JsObject) : option Transaction :=
  dt ← castString (prop "date" d);
  u ← castString (prop "utr" d);
  a ← castString (prop "amount_in_inr" d);
  Some {| t_userId := id; t_date := dt; t_utr := u; t_amount_in_inr := a;
          t_createdAt := now env |}.

(** [new Log({...})], cast to the schema. *)
Definition newLog (env : Env) (id : ObjectId) (d : JsObject) : option Log :=
  dt ← castString (jsOr (prop "date" d) (JStr "N/A"));
  u ← castString (jsOr (prop "utr" d) (JStr "N/A"));
  a ← castString (jsOr (prop "amount_in_inr" d) (JStr "N/A"));
  e ← castBoolean (jsOr (prop "is_edited" d) (JBool false));
  Some {| l_userId := id; timestamp := now env;
          processingData := {| date := dt; utr := u; amount_in_inr := a; is_edited := e |} |}.

(** [$inc: { requestCount: 1 }] *)
Definition incRequestCount (u : UserProfile) : UserProfile :=
  {| apiKey := apiKey u; name := name u; email := email u; isAdmin := isAdmin u;
     requestCount := requestCount u + 1; createdAt := createdAt u |}.

Definition genericError : Body := errorBody "An error occurred while processing the image.".

Definition processImageHandler (env : Env) (id : ObjectId) (remaining : option Z)
    (req : Request) (st : Store) : Z * Body * Store :=
  match upload req with
  | UploadError => (500, BUnexpected "An unexpected error occurred", st)
  | NoFile => (400, errorBody "No image file uploaded", st)
  | File imageBuffer =>
      let extractedData := (processImage env imageBuffer).1 in
      if truthy (prop "error" extractedData)
      then (500, BError (prop "error" extractedData), st)
      else
        let extractedData := normalizeUtr extractedData in
        match newTransaction env id extractedData with
        | None => (500, genericError, st)
        | Some transaction =>
            let st1 := {| users := users st;
                          transactions := transactions st ++ [transaction];
                          logs := logs st |} in
            match newLog env id extractedData with
            | None => (500, genericError, st1)
            | Some log =>
                (200,
                 BProcessed extractedData (Z.max 0 (default 0 remaining)) (now env + 60000),
                 {| users := alter incRequestCount id (users st1);
                    transactions := transactions st1;
                    logs := logs st1 ++ [log] |})
            end
        end
  end.

(** *** GET /api/logs (lines 1077-1135) *)

(** A query parameter that is present and not empty. *)
Definition given (o : option string) : option string :=
  match o with
  | Some s => if Str.isEmpty s then None else Some s
  | None => None
  end.

(** A bound of the [timestamp] condition: absent, a time, or ([None]) an
    invalid date, which the query rejects. *)
Definition dateBound (adjust : Z -> Z) (o : option string) : option (option Z) :=
  match given o with
  | Some s => match parseDate s with
              | Some t => Some (Some (adjust t))
              | None => None
              end
  | None => Some None
  end.

Record LogQuery := { forUser : ObjectId; gte : option Z; lte : option Z }.

Definition buildQuery (id : ObjectId) (req : Request) : option LogQuery :=
  lo ← dateBound (fun t => t) (q_startDate req);
  hi ← dateBound addLocalDay (q_endDate req);
  Some {| forUser := id; gte := lo; lte := hi |}.

Definition matchesQuery (q : LogQuery) (l : Log) : Prop :=
  l_userId l = forUser q
  ∧ from_option (fun t => t ≤ timestamp l) True (gte q)
  ∧ from_option (fun t => timestamp l ≤ t) True (lte q).

#[export] Instance matchesQuery_dec q l : Decision (matchesQuery q l).
Proof. unfold matchesQuery; destruct (gte q), (lte q); simpl; apply _. Defined.

Definition newestFirst (a b : Log) : Prop := timestamp b ≤ timestamp a.

#[export] Instance newestFirst_dec a b : Decision (newestFirst a b).
Proof. unfold newestFirst; apply _. Defined.

(** [Log.find(query).sort({ timestamp: -1 })] *)
Definition findLogs (q : LogQuery) (st : Store) : list Log :=
  merge_sort newestFirst (filter (matchesQuery q) (logs st)).

(** [skip] and [limit] of the database driver's cursor, as the driver
    documents them: a negative skip is rejected; a limit of 0 is no limit,
    and a negative limit counts as its absolute value. *)
Definition cursorSkip {A : Type} (k : Z) (l : list A) : option (list A) :=
  if k <? 0 then None else Some (drop (Z.to_nat k) l).

Definition cursorLimit {A : Type} (n : Z) (l : list A) : list A :=
  if n =? 0 then l else take (Z.to_nat (Z.abs n)) l.

(** [page = 1] and [limit = 10] when the parameter is absent. *)
Definition pageOf (req : Request) : option Z :=
  match q_page req with Some s => Str.parseInt s | None => Some 1 end.

Definition limitOf (req : Request) : option Z :=
  match q_limit req with Some s => Str.parseInt s | None => Some 10 end.

(** [populate('userId', 'name')] and [log.userId?.name || 'Unknown User'] *)
Definition usernameOf (st : Store) (l : Log) : string :=
  match users st !! l_userId l with
  | Some u => if Str.isEmpty (name u) then "Unknown User" else name u
  | None => "Unknown User"
  end.

Definition formatLog (st : Store) (l : Log) : LogView :=
  {| lv_timestamp := timestamp l; lv_username := usernameOf st l;
     lv_data := processingData l |}.

(** The page of logs the handler reads. The query is rejected when a date
    is invalid, when [page] or [limit] is not a number, or when the skip is
    negative. *)
Definition selectLogs (id : ObjectId) (req : Request) (st : Store) : option (list Log) :=
  q ← buildQuery id req;
  p ← pageOf req;
  n ← limitOf req;
  cursorLimit n <$> cursorSkip ((p - 1) * n) (findLogs q st).

Definition logsError : Body := errorBody "An error occurred while retrieving logs.".

Definition getLogs (id : ObjectId) (req : Request) (st : Store) : Z * Body * Store :=
  match selectLogs id req st, buildQuery id req, pageOf req, limitOf req with
  | Some selected, Some q, Some p, Some n =>
      let total := Z.of_nat (length (filter (matchesQuery q) (logs st))) in
      (200,
       BLogs (formatLog st <$> selected) total p
             (if n =? 0 then None else Some (- (- total / n))),
       st)
  | _, _, _, _ => (500, logsError, st)
  end.

(** *** GET /health (lines 1138-1146) *)

Definition health (env : Env) : Body :=
  BHealth (now env) (if dbConnected env then "healthy" else "unhealthy").

(** *** The application *)

Definition withStore (sv : Server) (r : Z * Body * Store) : Z * Body * Server :=
  (r.1.1, r.1.2, {| store := r.2; counters := counters sv |}).

(** The middleware chain of each route. *)
Definition routes (env : Env) (req : Request) (sv : Server) : Z * Body * Server :=
  match route req with
  | GetHealth => (200, health env, sv)
  | r =>
      match authenticateUser req (store sv) with
      | Respond code b => (code, b, sv)
      | Next (id, user) =>
          match r with
          | PostProcessImage =>
              match createUserRateLimiter env id user (counters sv) with
              | (Respond code b, cs) => (code, b, {| store := store sv; counters := cs |})
              | (Next remaining, cs) =>
                  withStore {| store := store sv; counters := cs |}
                            (processImageHandler env id remaining req (store sv))
              end
          | GetLogs => withStore sv (getLogs id req (store sv))
          | _ =>
              match requireAdmin id (store sv) with
              | Respond code b => (code, b, sv)
              | Next _ =>
                  match r with
                  | PostAdminUsers => withStore sv (createUser env req (store sv))
                  | _ => withStore sv (listUsers (store sv))
                  end
              end
          end
      end
  end.

(** The error-handling middleware (lines 1168-1174). *)
Definition unexpectedError : Body := BUnexpected "An unexpected error occurred".

(** [express.json()] runs before every route (line 653); the error of a
    body it rejects goes past the routes to the error-handling middleware. *)
Definition dispatch (env : Env) (req : Request) (sv : Server) : Z * Body * Server :=
  match jsonBody req with
  | BodyRejected => (500, unexpectedError, sv)
  | BodyParsed _ _ => routes env req sv
  end.

(** Nothing in the source gives the response a [rateLimit] property, so
    every answer passes the [send] wrapper without one. *)
Definition handle (env : Env) (req : Request) (sv : Server) : Response * Server :=
  let r := dispatch env req sv in
  (send env None r.1.1 r.1.2, r.2).

(** *** [createDefaultAdmin] (lines 1149-1165) *)

Definition createDefaultAdmin (env : Env) (smtpFrom : string) (st : Store) : Store :=
  if decide (map_Forall (fun _ u => isAdmin u = false) (users st))
  then
    let adminUser := {| apiKey := generateApiKey env; name := "Admin"; email := smtpFrom;
                        isAdmin := true; requestCount := 0; createdAt := now env |} in
    if Str.isEmpty smtpFrom then st
    else match insertUser (freshId env) adminUser (users st) with
         | Some us => withUsers us st
         | None => st
         end
  else st.

End Handlers.

(** ** A reference host

    An executable instance of [JsNumber] and [Host] for running the server
    on concrete requests. It agrees with the real host on the inputs of the
    examples below: decimal numerals without exponent and with at most two
    fractional digits (a number is held in hundredths, [None] is [NaN]),
    flat JSON objects whose values are strings without escapes or one of
    [true], [false], [null], dates of the form YYYY-MM-DD read as UTC, and
    a local time zone equal to UTC. *)

Module Ref.

Fixpoint spanDigits (s : string) : string * string :=
  match s with
  | String c r =>
      if Str.isDigit c then let p := spanDigits r in (String c p.1, p.2)
      else (EmptyString, s)
  | EmptyString => (EmptyString, EmptyString)
  end.

Definition digitsValue (s : string) : Z := default 0 (Str.readDigits 10 None s).

Definition readHundredths (s : string) : option Z :=
  let ip := spanDigits s in
  let fp := match ip.2 with
            | String "." r => (spanDigits r).1
            | _ => EmptyString
            end in
  if Str.isEmpty ip.1 && Str.isEmpty fp then None
  else Some (100 * digitsValue ip.1
             + digitsValue (substring 0 2 (fp +:+ "00"))).

Definition parse_float (s : string) : option Z :=
  match Str.trimStart s with
  | String "-" r => Z.opp <$> readHundredths r
  | String "+" r => readHundredths r
  | t => readHundredths t
  end.

Definition twoDigits (n : Z) : string :=
  (if n <? 10 then "0" else EmptyString) +:+ pretty n.

Definition to_fixed2 (a : option Z) : string :=
  match a with
  | Some c => (if c <? 0 then "-" else EmptyString) +:+ pretty (Z.abs c / 100)
              +:+ "." +:+ twoDigits (Z.abs c mod 100)
  | None => "NaN"
  end.

Definition num_to_string (a : option Z) : string :=
  match a with
  | Some c =>
      let f := Z.abs c mod 100 in
      (if c <? 0 then "-" else EmptyString) +:+ pretty (Z.abs c / 100)
      +:+ (if f =? 0 then EmptyString
           else if f mod 10 =? 0 then "." +:+ pretty (f / 10)
           else "." +:+ twoDigits f)
  | None => "NaN"
  end.

#[export] Instance number : JsNumber := {|
  Num := option Z;
  numOfZ := fun z => Some (100 * z);
  parseFloat := parse_float;
  isNaN := fun a => match a with None => true | Some _ => false end;
  numGt := fun a b => match a, b with Some x, Some y => y <? x | _, _ => false end;
  numEq := fun a b => match a, b with Some x, Some y => x =? y | _, _ => false end;
  numTruthy := fun a => match a with Some x => negb (x =? 0) | None => false end;
  toFixed2 := to_fixed2;
  numToString := num_to_string;
  numGt_isNaN := ltac:(intros [x|] [y|]; simpl; congruence)
|}.

(** *** Flat JSON objects *)

Inductive PState :=
| ExpectKeyOrClose
| ExpectKey
| InKey (acc : string)
| ExpectColon (key : string)
| ExpectValue (key : string)
| InString (key acc : string)
| InLiteral (key acc : string)
| AfterValue
| Done.

Definition snoc (s : string) (c : ascii) : string := s +:+ String c EmptyString.

Definition literal (acc : string) : option JsValue :=
  if String.eqb acc "true" then Some (JBool true)
  else if String.eqb acc "false" then Some (JBool false)
  else if String.eqb acc "null" then Some JNull
  else None.

Definition afterValue (c : ascii) : option PState :=
  if Str.isSpace c then Some AfterValue
  else if Ascii.eqb c "," then Some ExpectKey
  else if Ascii.eqb c "}" then Some Done
  else None.

Fixpoint parseFlat (st : PState) (obj : JsObject) (s : string) : option JsObject :=
  match s with
  | EmptyString => match st with Done => Some obj | _ => None end
  | String c r =>
      match st with
      | ExpectKeyOrClose =>
          if Str.isSpace c then parseFlat st obj r
          else if Ascii.eqb c (ascii_of_N 34) then parseFlat (InKey EmptyString) obj r
          else if Ascii.eqb c "}" then parseFlat Done obj r
          else None
      | ExpectKey =>
          if Str.isSpace c then parseFlat st obj r
          else if Ascii.eqb c (ascii_of_N 34) then parseFlat (InKey EmptyString) obj r
          else None
      | InKey acc =>
          if Ascii.eqb c (ascii_of_N 34) then parseFlat (ExpectColon acc) obj r
          else if Ascii.eqb c "\" then None
          else parseFlat (InKey (snoc acc c)) obj r
      | ExpectColon key =>
          if Str.isSpace c then parseFlat st obj r
          else if Ascii.eqb c ":" then parseFlat (ExpectValue key) obj r
          else None
      | ExpectValue key =>
          if Str.isSpace c then parseFlat st obj r
          else if Ascii.eqb c (ascii_of_N 34) then parseFlat (InString key EmptyString) obj r
          else if Str.between 97 122 c then parseFlat (InLiteral key (String c EmptyString)) obj r
          else None
      | InString key acc =>
          if Ascii.eqb c (ascii_of_N 34) then parseFlat AfterValue (<[key := JStr acc]> obj) r
          else if Ascii.eqb c "\" then None
          else parseFlat (InString key (snoc acc c)) obj r
      | InLiteral key acc =>
          if Str.between 97 122 c then parseFlat (InLiteral key (snoc acc c)) obj r
          else match literal acc, afterValue c with
               | Some v, Some st' => parseFlat st' (<[key := v]> obj) r
               | _, _ => None
               end
      | AfterValue =>
          match afterValue c with
          | Some st' => parseFlat st' obj r
          | None => None
          end
      | Done => if Str.isSpace c then parseFlat Done obj r else None
      end
  end.

Definition parse_json (s : string) : option JsObject :=
  match s with
  | String "{" r => parseFlat ExpectKeyOrClose ∅ r
  | _ => None
  end.

(** *** Schema casts *)

Definition cast_string (v : JsValue) : option JsValue :=
  match v with
  | JUndefined | JNull | JStr _ => Some v
  | JNum n => Some (JStr (num_to_string n))
  | JBool b => Some (JStr (if b then "true" else "false"))
  | JArr _ => None
  | JObj o => match o !! "_id"%string with
              | Some (JStr s) => if Str.isEmpty s then None else Some (JStr s)
              | _ => None
              end
  end.

Definition cast_boolean (v : JsValue) : option JsValue :=
  match v with
  | JUndefined | JNull | JBool _ => Some v
  | JStr s =>
      if String.eqb s "true" || String.eqb s "1" || String.eqb s "yes"
      then Some (JBool true)
      else if String.eqb s "false" || String.eqb s "0" || String.eqb s "no"
      then Some (JBool false)
      else None
  | JNum (Some 100) => Some (JBool true)
  | JNum (Some 0) => Some (JBool false)
  | _ => None
  end.

(** *** Dates *)

Definition msPerDay : Z := 86400000.

Definition daysFromCivil (y m d : Z) : Z :=
  let y' := if m <=? 2 then y - 1 else y in
  let era := y' / 400 in
  let yoe := y' - era * 400 in
  let doy := (153 * ((m + 9) mod 12) + 2) / 5 + d - 1 in
  era * 146097 + (yoe * 365 + yoe / 4 - yoe / 100 + doy) - 719468.

Definition civilFromDays (days : Z) : Z * Z * Z :=
  let z := days + 719468 in
  let era := z / 146097 in
  let doe := z - era * 146097 in
  let yoe := (doe - doe / 1460 + doe / 36524 - doe / 146096) / 365 in
  let doy := doe - (365 * yoe + yoe / 4 - yoe / 100) in
  let mp := (5 * doy + 2) / 153 in
  let d := doy - (153 * mp + 2) / 5 + 1 in
  let m := if mp <? 10 then mp + 3 else mp - 9 in
  (yoe + era * 400 + (if m <=? 2 then 1 else 0), m, d).

Definition allDigits (s : string) : bool := Str.isEmpty (spanDigits s).2.

Definition parse_date (s : string) : option Z :=
  let y := substring 0 4 s in
  let m := substring 5 2 s in
  let d := substring 8 2 s in
  if (String.length s =? 10)%nat
     && String.eqb (substring 4 1 s) "-" && String.eqb (substring 7 1 s) "-"
     && allDigits y && allDigits m && allDigits d
  then
    let days := daysFromCivil (digitsValue y) (digitsValue m) (digitsValue d) in
    if bool_decide (civilFromDays days = (digitsValue y, digitsValue m, digitsValue d))
    then Some (days * msPerDay)
    else None
  else None.

Definition pad (w : nat) (n : Z) : string :=
  let s := pretty n in
  String.concat EmptyString (replicate (w - String.length s) "0"%string) +:+ s.

Definition to_iso_string (t : Z) : string :=
  let '(y, m, d) := civilFromDays (t / msPerDay) in
  let r := t mod msPerDay in
  pad 4 y +:+ "-" +:+ pad 2 m +:+ "-" +:+ pad 2 d +:+ "T"
  +:+ pad 2 (r / 3600000) +:+ ":" +:+ pad 2 (r / 60000 mod 60) +:+ ":"
  +:+ pad 2 (r / 1000 mod 60) +:+ "." +:+ pad 3 (r mod 1000) +:+ "Z".

#[export] Instance host : Host := {|
  JSON_parse_object := parse_json;
  castString := cast_string;
  castBoolean := cast_boolean;
  parseDate := parse_date;
  addLocalDay := fun t => t + msPerDay;
  toISOString := to_iso_string;
  castString_str := fun s => eq_refl;
  castString_undefined := eq_refl;
  castBoolean_bool := fun b => eq_refl
|}.

End Ref.

(** ** Statement vocabulary and example runs *)

(** Of the two sequences [a] and [b], exactly one starts with the digit 4,
    and it is [u4]. *)
Definition exactlyOneWith4 (a b u4 : string) : Prop :=
  (Str.startsWith "4" a = true ∧ Str.startsWith "4" b = false ∧ u4 = a)
  ∨ (Str.startsWith "4" a = false ∧ Str.startsWith "4" b = true ∧ u4 = b).

Section Vocabulary.
Context {JN : JsNumber} {HO : Host}.

(** The text of the third call of the pipeline. *)
Definition verificationRequest (rawText a : string) : GenRequest :=
  TextRequest (amountVerificationPrompt (numToString (parseFloat (Str.removeCommas a)))
                                        (surroundingText rawText a)).

(** The amount [a] after the model answered [reply] to the third call: the
    parsed amount on "correct" and "not found", the number of the reply
    when it parses as one, and [a] itself otherwise. *)
Definition amountAfter (a reply : string) : string :=
  let amount := parseFloat (Str.removeCommas a) in
  let text := Str.toLowerCase (Str.trim reply) in
  if String.eqb text "correct" || String.eqb text "not found" then toFixed2 amount
  else if isNaN (parseFloat (Str.trim reply)) then a
  else toFixed2 (parseFloat (Str.trim reply)).

(** The request passed the JSON body parser. *)
Definition bodyAccepted (req : Request) : Prop := jsonBody req ≠ BodyRejected.

End Vocabulary.

Definition quoted (s : string) : string := dq +:+ s +:+ dq.

(** The model reads two sequences from the image and answers with the one
    that does not start with 4. *)
Definition answerOther : string :=
  "{" +:+ quoted "date" +:+ ": " +:+ quoted "12 Jun 2024" +:+ ", "
  +:+ quoted "utr" +:+ ": " +:+ quoted "123456789012" +:+ ", "
  +:+ quoted "amount_in_inr" +:+ ": " +:+ quoted "2500.00" +:+ ", "
  +:+ quoted "is_edited" +:+ ": false}".

Definition modelOther (r : GenRequest) : option string :=
  match r with
  | ImageRequest _ _ => Some "Paid to shop UPI Ref 412345678901 Txn 123456789012 Rs 2500.00"%string
  | TextRequest _ => Some answerOther
  end.

Definition envOther : Env :=
  {| now := 1718150400000; generateContent := modelOther; randomHex := "00";
     freshId := 1%N; mailAccepted := true; dbConnected := true |}.

(** The model proposes a sequence that the raw text does not contain. *)
Definition answerAbsent : string :=
  "{" +:+ quoted "utr" +:+ ": " +:+ quoted "999999999999" +:+ "}".

Definition envAbsent : Env :=
  {| now := 0;
     generateContent := fun r =>
       match r with
       | ImageRequest _ _ => Some " Ref 123456789012 / 412345678901 "%string
       | TextRequest _ => Some answerAbsent
       end;
     randomHex := "00"; freshId := 1%N; mailAccepted := true; dbConnected := true |}.

(** The model reads an amount above the threshold and confirms it. *)
Definition answerLarge : string :=
  "Here is the JSON: {" +:+ quoted "date" +:+ ": " +:+ quoted "12 Jun 2024" +:+ ", "
  +:+ quoted "utr" +:+ ": " +:+ quoted "412345678901" +:+ ", "
  +:+ quoted "amount_in_inr" +:+ ": " +:+ quoted "1,50,000.5" +:+ ", "
  +:+ quoted "is_edited" +:+ ": false}".

Definition rawLarge : string := " Paid Rs 1,50,000.5 UTR 412345678901 ".

Definition envLarge : Env :=
  {| now := 1718150400000;
     generateContent := fun r =>
       match r with
       | ImageRequest _ _ => Some rawLarge
       | TextRequest t =>
           if Str.startsWith dataExtractionPrompt t then Some answerLarge
           else Some " Correct "%string
       end;
     randomHex := "00"; freshId := 1%N; mailAccepted := true; dbConnected := true |}.

(** A server with an admin and two users, and requests to it. *)
Section ExampleData.
#[local] Existing Instances Ref.number Ref.host.

Definition admin : UserProfile :=
  {| apiKey := "key_admin"; name := "Admin"; email := "admin@example.com";
     isAdmin := true; requestCount := 0; createdAt := 1000 |}.

Definition alice : UserProfile :=
  {| apiKey := "key_alice"; name := "Alice"; email := "alice@example.com";
     isAdmin := false; requestCount := 3; createdAt := 2000 |}.

Definition bob : UserProfile :=
  {| apiKey := "key_bob"; name := "Bob"; email := "bob@example.com";
     isAdmin := false; requestCount := 1; createdAt := 3000 |}.

Definition logOf (id : ObjectId) (t : Z) (u : string) : Log :=
  {| l_userId := id; timestamp := t;
     processingData := {| date := JStr "12 Jun 2024"; utr := JStr u;
                          amount_in_inr := JStr "2500.00"; is_edited := JBool false |} |}.

Definition exampleStore : Store :=
  {| users := {[ 1%N := admin; 2%N := alice; 3%N := bob ]};
     transactions := [];
     logs := [logOf 2%N 5000 "411111111111"; logOf 3%N 6000 "422222222222";
              logOf 2%N 7000 "433333333333"; logOf 2%N 6500 "444444444444"] |}.

Definition exampleServer : Server := {| store := exampleStore; counters := ∅ |}.

Definition request (r : Route) (key : option string) (up : Upload) : Request :=
  {| route := r; xApiKey := key;
     jsonBody := BodyParsed (JStr "Carol") (JStr "carol@example.com");
     upload := up; q_startDate := None; q_endDate := None;
     q_page := None; q_limit := None |}.

(** A request without a key whose body the JSON parser rejects. *)
Definition malformedRequest (r : Route) : Request :=
  {| route := r; xApiKey := None; jsonBody := BodyRejected; upload := NoFile;
     q_startDate := None; q_endDate := None; q_page := None; q_limit := None |}.

Definition logsRequest (key : string) (page limit : string) : Request :=
  {| route := GetLogs; xApiKey := Some key; jsonBody := BodyParsed JUndefined JUndefined;
     upload := NoFile; q_startDate := None; q_endDate := None;
     q_page := Some page; q_limit := Some limit |}.

(** The model finds no reference number and answers with an empty UTR. *)
Definition answerEmptyUtr : string :=
  "{" +:+ quoted "date" +:+ ": " +:+ quoted "12 Jun 2024" +:+ ", "
  +:+ quoted "utr" +:+ ": " +:+ quoted EmptyString +:+ ", "
  +:+ quoted "amount_in_inr" +:+ ": " +:+ quoted "2500.00" +:+ ", "
  +:+ quoted "is_edited" +:+ ": false}".

Definition envEmptyUtr : Env :=
  {| now := 1718150400000;
     generateContent := fun r =>
       match r with
       | ImageRequest _ _ => Some "Payment of Rs 2500.00 received"%string
       | TextRequest _ => Some answerEmptyUtr
       end;
     randomHex := "00"; freshId := 9%N; mailAccepted := true; dbConnected := true |}.

End ExampleData.

(** A burst of requests of one user through the limiter: each request has
    its own clock reading; the answers of the limiter are listed in order. *)
Section Bursts.
Context {JN : JsNumber}.

Fixpoint runLimiter (id : ObjectId) (user : UserProfile) (envs : list Env)
    (cs : gmap ObjectId Window) : list (Step (option Z)) * gmap ObjectId Window :=
  match envs with
  | [] => ([], cs)
  | e :: rest =>
      let r := createUserRateLimiter e id user cs in
      let rs := runLimiter id user rest r.2 in
      (r.1 :: rs.1, rs.2)
  end.

(** The limiter's answer to the request that brings the count to [c]. *)
Definition decisionAt (e : Env) (c : Z) : Step (option Z) :=
  if 20 <? c
  then Respond 429 (BTooManyRequests "Too many requests, please try again in a minute."
                      0 (now e + 60000))
  else Next (Some (20 - c)).

End Bursts.

(** Clock readings; [burst] is twenty-one requests shortly after time 1000. *)
Definition envAt (t : Z) : Env :=
  {| now := t; generateContent := fun _ => None; randomHex := "00";
     freshId := 9%N; mailAccepted := true; dbConnected := true |}.

Definition burst : list Env := envAt <$> seqZ 1001 21.

(** ** Further vocabulary *)

(** A string of decimal digits. *)
Fixpoint onlyDigits (s : string) : bool :=
  match s with
  | String c r => Str.isDigit c && onlyDigits r
  | EmptyString => true
  end.

(** The model's structured answer gives no amount the pipeline can read:
    the property is truthy and not a string. *)
Definition unreadableAmount {JN : JsNumber} (answer : JsObject) : Prop :=
  truthy (prop "amount_in_inr" answer) = true
  ∧ forall a, prop "amount_in_inr" answer ≠ JStr a.

Section PipelineVocabulary.
Context {JN : JsNumber} {HO : Host}.

(** The object the [catch] block of [processImage] returns (line 938). *)
Definition pipelineError : JsObject :=
  {[ "error"%string := JStr "An error occurred while processing the image." ]}.

(** The ways in which the [try] block of [processImage] throws: a call to
    the model fails, [JSON.parse] rejects the answer, or the amount of the
    answer is truthy without being a string. *)
Inductive PipelineFails (env : Env) (img : string) : Prop :=
| FirstCallFails :
    generateContent env (ImageRequest img rawTextPrompt) = None ->
    PipelineFails env img
| SecondCallFails raw :
    generateContent env (ImageRequest img rawTextPrompt) = Some raw ->
    generateContent env (extractionRequest (Str.trim raw)) = None ->
    PipelineFails env img
| ParseFails raw reply :
    generateContent env (ImageRequest img rawTextPrompt) = Some raw ->
    generateContent env (extractionRequest (Str.trim raw)) = Some reply ->
    parseAnswer reply = None ->
    PipelineFails env img
| AmountUnreadable raw reply answer :
    generateContent env (ImageRequest img rawTextPrompt) = Some raw ->
    generateContent env (extractionRequest (Str.trim raw)) = Some reply ->
    parseAnswer reply = Some answer ->
    unreadableAmount answer ->
    PipelineFails env img
| ThirdCallFails raw reply answer a :
    generateContent env (ImageRequest img rawTextPrompt) = Some raw ->
    generateContent env (extractionRequest (Str.trim raw)) = Some reply ->
    parseAnswer reply = Some answer ->
    prop "amount_in_inr" answer = JStr a ->
    a ≠ EmptyString ->
    numGt (parseFloat (Str.removeCommas a)) (numOfZ 100000) = true ->
    generateContent env (verificationRequest (Str.trim raw) a) = None ->
    PipelineFails env img.

(** The case in which the pipeline asks the model a third time (lines
    883-886): the answer's amount is a string, not empty, whose number
    after the commas are removed is above 100000. *)
Definition aboveThreshold (answer : JsObject) (a : string) : Prop :=
  prop "amount_in_inr" answer = JStr a
  ∧ a ≠ EmptyString
  ∧ numGt (parseFloat (Str.removeCommas a)) (numOfZ 100000) = true.

(** An authenticated request to POST /api/process-image that the limiter
    lets pass with the counters [cs] and that carries the file [buf]. *)
Definition submits (env : Env) (req : Request) (sv : Server) (id : ObjectId)
    (buf : string) (cs : gmap ObjectId Window) : Prop :=
  bodyAccepted req
  ∧ route req = PostProcessImage
  ∧ (exists user remaining,
       authenticateUser req (store sv) = Next (id, user)
       ∧ createUserRateLimiter env id user (counters sv) = (Next remaining, cs))
  ∧ upload req = File buf.

End PipelineVocabulary.

(** The object [processImage] builds from an answer without braces
    (line 881). *)
Definition extractionError {JN : JsNumber} : JsObject :=
  {[ "error"%string := JStr "Failed to extract structured data from the text." ]}.

(** *** The store over time *)

Section StoreVocabulary.
Context {JN : JsNumber} {HO : Host}.

(** No two user documents share an API key or an email (the two unique
    indexes of the schema, lines 677 and 679). *)
Definition uniqueUsers (us : gmap ObjectId UserProfile) : Prop :=
  map_Forall (fun i u =>
    map_Forall (fun j v => apiKey u = apiKey v ∨ email u = email v -> i = j) us) us.

(** The number of transactions that carry a user's id. *)
Definition countTransactions (id : ObjectId) (st : Store) : Z :=
  Z.of_nat (length (filter (fun t => t_userId t = id) (transactions st))).

(** Every transaction and every log carries the id of a stored user, and
    for every user the number of logs is at most the stored counter, which
    is at most the number of transactions. *)
Definition consistent (st : Store) : Prop :=
  Forall (fun t => is_Some (users st !! t_userId t)) (transactions st)
  ∧ Forall (fun l => is_Some (users st !! l_userId l)) (logs st)
  ∧ map_Forall (fun id u => countLogs id st ≤ requestCount u ≤ countTransactions id st)
               (users st).

(** What happens to a server: a request is handled, or the database's
    expiry monitor passes. *)
Inductive Event :=
| Handled (env : Env) (req : Request)
| Expired (t : Z).

Definition after (e : Event) (sv : Server) : Server :=
  match e with
  | Handled env req => (handle env req sv).2
  | Expired t => {| store := expireLogs t (store sv); counters := counters sv |}
  end.

Definition run (events : list Event) (sv : Server) : Server :=
  foldl (fun s e => after e s) sv events.

(** The store with which the server starts when the database is empty:
    [createDefaultAdmin] on no documents at all. *)
Definition emptyStore : Store := {| users := ∅; transactions := []; logs := [] |}.

Definition bootstrap (env : Env) (smtpFrom : string) : Server :=
  {| store := createDefaultAdmin env smtpFrom emptyStore; counters := ∅ |}.

(** The changes one request can make to the store. *)
Inductive StoreStep (st st' : Store) : Prop :=
| StepNone :
    st' = st -> StoreStep st st'
| StepUser id u :
    users st !! id = None ->
    isAdmin u = false -> requestCount u = 0 ->
    map_Forall (fun _ v => apiKey v ≠ apiKey u ∧ email v ≠ email u) (users st) ->
    st' = withUsers (<[id := u]> (users st)) st ->
    StoreStep st st'
| StepTransaction id caller t :
    users st !! id = Some caller -> t_userId t = id ->
    st' = {| users := users st; transactions := transactions st ++ [t]; logs := logs st |} ->
    StoreStep st st'
| StepSubmission id caller t l :
    users st !! id = Some caller -> t_userId t = id -> l_userId l = id ->
    st' = {| users := <[id := incRequestCount caller]> (users st);
             transactions := transactions st ++ [t];
             logs := logs st ++ [l] |} ->
    StoreStep st st'.

End StoreVocabulary.

(** *** The stages of a submission

    [handle] runs a request as one step. The handler of POST
    /api/process-image waits for three writes in turn, the transaction
    (line 1041), the log (line 1053) and the counter (line 1056), with no
    database transaction around them, and the server handles other
    requests while it waits. Here a submission is taken apart into its
    stages, and the stages of several submissions interleave. The other
    routes write once at most, so they stay one step; what a request
    needs before its write (a stored user, the admin flag) does not change
    between its reads and its write, since no user document is removed
    and none of its fields but [requestCount] is changed. *)

Section Interleaving.
Context {JN : JsNumber} {HO : Host}.

(** A submission under way and what its handler holds: let in by
    [authenticateUser] and the limiter; with its transaction saved; with
    its log saved. *)
Inductive Submission :=
| LetIn (env : Env) (id : ObjectId) (remaining : option Z) (req : Request)
| TransactionSaved (env : Env) (id : ObjectId) (remaining : option Z)
    (extractedData : JsObject)
| LogSaved (env : Env) (id : ObjectId) (remaining : option Z) (extractedData : JsObject).

(** The middleware before the handler (lines 1013-1014), for a request
    that they let pass. *)
Definition letIn (env : Env) (req : Request) (sv : Server) : option (Submission * Server) :=
  match jsonBody req, route req with
  | BodyParsed _ _, PostProcessImage =>
      match authenticateUser req (store sv) with
      | Next (id, user) =>
          match createUserRateLimiter env id user (counters sv) with
          | (Next remaining, cs) =>
              Some (LetIn env id remaining req, {| store := store sv; counters := cs |})
          | (Respond _ _, _) => None
          end
      | Respond _ _ => None
      end
  | _, _ => None
  end.

(** One stage of the handler (lines 1016-1073): up to the first write,
    the second write, the third write. A stage ends in the next stage or
    in the answer. *)
Definition advance (s : Submission) (st : Store) : Store * (Submission + Z * Body) :=
  match s with
  | LetIn env id remaining req =>
      match upload req with
      | UploadError => (st, inr (500, BUnexpected "An unexpected error occurred"))
      | NoFile => (st, inr (400, errorBody "No image file uploaded"))
      | File imageBuffer =>
          let extractedData := (processImage env imageBuffer).1 in
          if truthy (prop "error" extractedData)
          then (st, inr (500, BError (prop "error" extractedData)))
          else
            let extractedData := normalizeUtr extractedData in
            match newTransaction env id extractedData with
            | None => (st, inr (500, genericError))
            | Some transaction =>
                ({| users := users st;
                    transactions := transactions st ++ [transaction];
                    logs := logs st |},
                 inl (TransactionSaved env id remaining extractedData))
            end
      end
  | TransactionSaved env id remaining extractedData =>
      match newLog env id extractedData with
      | None => (st, inr (500, genericError))
      | Some log =>
          ({| users := users st;
              transactions := transactions st;
              logs := logs st ++ [log] |},
           inl (LogSaved env id remaining extractedData))
      end
  | LogSaved env id remaining extractedData =>
      ({| users := alter incRequestCount id (users st);
          transactions := transactions st;
          logs := logs st |},
       inr (200, BProcessed extractedData (Z.max 0 (default 0 remaining)) (now env + 60000)))
  end.

(** A submission that nothing interrupts: its stages one after the other,
    at most [n] of them. *)
Fixpoint complete (n : nat) (s : Submission) (st : Store) : option (Z * Body * Store) :=
  match n with
  | O => None
  | S n =>
      match advance s st with
      | (st', inr answer) => Some (answer.1, answer.2, st')
      | (st', inl s') => complete n s' st'
      end
  end.

(** The server with the submissions that are under way. *)
Record System := { server : Server; underWay : list Submission }.

(** What happens next: a request arrives, and is handled to its end
    unless it is a submission that is let in; the [k]-th submission
    under way goes through its next stage; the expiry monitor passes. *)
Inductive Move :=
| Arrive (env : Env) (req : Request)
| Advance (k : nat)
| Expire (t : Z).

Definition move (m : Move) (sys : System) : System :=
  match m with
  | Arrive env req =>
      match letIn env req (server sys) with
      | Some (s, sv) => {| server := sv; underWay := underWay sys ++ [s] |}
      | None => {| server := (handle env req (server sys)).2; underWay := underWay sys |}
      end
  | Advance k =>
      match underWay sys !! k with
      | Some s =>
          let r := advance s (store (server sys)) in
          {| server := {| store := r.1; counters := counters (server sys) |};
             underWay := match r.2 with
                         | inl s' => <[k := s']> (underWay sys)
                         | inr _ => delete k (underWay sys)
                         end |}
      | None => sys
      end
  | Expire t =>
      {| server := {| store := expireLogs t (store (server sys));
                      counters := counters (server sys) |};
         underWay := underWay sys |}
  end.

Definition play (moves : list Move) (sys : System) : System :=
  foldl (fun s m => move m s) sys moves.

(** The user of a submission, and the writes it still has to make. *)
Definition submitter (s : Submission) : ObjectId :=
  match s with
  | LetIn _ id _ _ | TransactionSaved _ id _ _ | LogSaved _ id _ _ => id
  end.

Definition awaitsLog (id : ObjectId) (s : Submission) : bool :=
  match s with TransactionSaved _ i _ _ => bool_decide (i = id) | _ => false end.

Definition awaitsCount (id : ObjectId) (s : Submission) : bool :=
  match s with LogSaved _ i _ _ => bool_decide (i = id) | _ => false end.

Definition betweenWrites (s : Submission) : bool :=
  match s with LetIn _ _ _ _ => false | _ => true end.

Definition waiting (f : Submission -> bool) (l : list Submission) : Z :=
  Z.of_nat (length (List.filter f l)).

(** The accounts of a system: every transaction, every log and every
    submission under way carries the id of a stored user, and for every
    user the logs are at most the counter plus the submissions that wait
    for the counter, and the counter plus the submissions that wait for
    the log or the counter is at most the transactions. *)
Definition accounted (st : Store) (l : list Submission) : Prop :=
  Forall (fun t => is_Some (users st !! t_userId t)) (transactions st)
  ∧ Forall (fun g => is_Some (users st !! l_userId g)) (logs st)
  ∧ Forall (fun s => is_Some (users st !! submitter s)) l
  ∧ map_Forall (fun id u =>
      countLogs id st ≤ requestCount u + waiting (awaitsCount id) l
      ∧ requestCount u + waiting (awaitsCount id) l + waiting (awaitsLog id) l
        ≤ countTransactions id st) (users st).

End Interleaving.

Section AccountVocabulary.
Context {JN : JsNumber} {HO : Host}.

(** The user document that POST /api/admin/users saves (lines 948-952,
    with the defaults of the schema). *)
Definition newUser (env : Env) (n e : string) : UserProfile :=
  {| apiKey := generateApiKey env; name := n; email := e;
     isAdmin := false; requestCount := 0; createdAt := now env |}.

(** The user document that [createDefaultAdmin] saves (lines 1153-1158). *)
Definition defaultAdmin (env : Env) (smtpFrom : string) : UserProfile :=
  {| apiKey := generateApiKey env; name := "Admin"; email := smtpFrom;
     isAdmin := true; requestCount := 0; createdAt := now env |}.

(** A request to an admin route that reaches its handler: the body parser
    accepts it and its key is that of the admin [id]. *)
Definition asAdmin (req : Request) (sv : Server) (id : ObjectId) : Prop :=
  bodyAccepted req
  ∧ exists user, authenticateUser req (store sv) = Next (id, user) ∧ isAdmin user = true.

End AccountVocabulary.

(** The entries of a page of logs. *)
Definition entriesOf {JN : JsNumber} (b : Body) : list LogView :=
  match b with BLogs entries _ _ _ => entries | _ => [] end.

(** ** The scripts of the pages

    Of the scripts of the dashboard and of the upload page, the parts that
    compute what the page shows from an answer of the server. *)

(** What the browser provides to them. A date is made from a value of
    the answer ([new Date(v)]) and compared with the current time, and an
    answer is read through its JSON text: [received v] is the value the
    script finds where the server put [v], nothing where the server put
    nothing. *)
Class Browser {JN : JsNumber} := {
  sameDateString : JsValue -> Z -> bool;        (* [date.toDateString() === today.toDateString()] *)
  notBeforeDaysAgo : Z -> JsValue -> Z -> bool; (* [date >= today], [today] moved [k] days back *)
  sameMonthAndYear : JsValue -> Z -> bool;      (* the same [getMonth()] and [getFullYear()] *)
  jsPlus : JsValue -> JsValue -> JsValue;       (* [a + b] *)
  idString : ObjectId -> string;                (* an object id in the JSON text *)
  received : JsValue -> JsValue;
  received_undefined : received JUndefined = JUndefined
}.

Section Pages.
Context {JN : JsNumber} {HO : Host} {BR : Browser}.

(** *** The dashboard (admin.js, lines 99-204) *)

(** Lines 179-203. *)
Definition hasActivityInDateRange (lastRequest : JsValue) (dateFilter : string) (today : Z)
  : bool :=
  if negb (truthy lastRequest) then false
  else if String.eqb dateFilter "today" then sameDateString lastRequest today
  else if String.eqb dateFilter "last7days" then notBeforeDaysAgo 7 lastRequest today
  else if String.eqb dateFilter "last30days" then notBeforeDaysAgo 30 lastRequest today
  else if String.eqb dateFilter "thisMonth" then sameMonthAndYear lastRequest today
  else true.

(** An entry of [result.data]: the object that GET /api/admin/users
    builds for a user (lines 995-1002), read from the JSON text. *)
Definition userJson (v : UserView) : JsObject :=
  {[ "id"%string := JStr (idString (uv_id v));
     "name"%string := JStr (uv_name v);
     "email"%string := JStr (uv_email v);
     "apiKey"%string := JStr (uv_apiKey v);
     "requestCount"%string := JNum (numOfZ (uv_requestCount v));
     "createdAt"%string := JStr (toISOString (uv_createdAt v)) ]}.

(** What [loadUsers] puts on the page: the three statistics and the users
    of the table's rows. *)
Record Dashboard := {
  totalUsers : Z;
  totalRequests : JsValue;
  activeToday : Z;
  tableRows : list JsObject
}.

(** The filter of line 115. *)
Definition passesFilter (dateFilter : string) (today : Z) (user : JsObject) : bool :=
  if Str.isEmpty dateFilter then true
  else hasActivityInDateRange (prop "lastRequest" user) dateFilter today.

(** [loadUsers] (lines 99-176) on the answer to its request; the page is
    left as it is ([None]) unless the answer has [success] and [data]. *)
Definition loadUsers (dateFilter : string) (today : Z) (answer : Body) : option Dashboard :=
  match answer with
  | BUsers data =>
      let all := userJson <$> data in
      let filteredUsers := List.filter (passesFilter dateFilter today) all in
      Some {| totalUsers := Z.of_nat (length all);
              totalRequests :=
                foldl (fun sum user => jsPlus sum (prop "requestCount" user))
                      (JNum (numOfZ 0)) filteredUsers;
              activeToday := Z.of_nat (length filteredUsers);
              tableRows := filteredUsers |}
  | _ => None
  end.

(** *** The upload page (script.js, lines 1-45) *)

(** What the submit handler writes to the output element: the four
    lines of a result with the value put after each label, the whole
    result as JSON text, or the error of the answer. *)
Inductive Output :=
| Fields (lines : list (string * JsValue))
| WholeResult (result : Body)
| ErrorLine (error : JsValue).

(** [result.error] *)
Definition errorOf (b : Body) : JsValue :=
  match b with
  | BError e => received e
  | BTooManyRequests e _ _ | BUnexpected e => JStr e
  | _ => JUndefined
  end.

(** The four lines (lines 30-33) for the properties of [result.data]. *)
Definition fieldLines (field : string -> JsValue) : list (string * JsValue) :=
  [("Date: "%string, jsOr (field "date"%string) (JStr "N/A"));
   ("Transaction ID: "%string, jsOr (field "transaction_id"%string) (JStr "N/A"));
   ("Amount (INR): "%string, jsOr (field "amount_in_inr"%string) (JStr "N/A"));
   ("Is Edited: "%string,
    match field "is_edited"%string with JUndefined => JStr "N/A" | v => v end)].

(** Lines 24-39, for the answer [r] to the upload. *)
Definition uploadOutput (r : Response) : Output :=
  if (200 <=? status r) && (status r <=? 299)
  then match body r with
       | BProcessed data _ _ => Fields (fieldLines (fun k => received (prop k data)))
       | BUsers _ => Fields (fieldLines (fun _ => JUndefined))
       | b => WholeResult b
       end
  else ErrorLine (errorOf (body r)).

End Pages.

(** A browser for the example runs: it works in UTC, makes a date of a
    number of milliseconds or of a date string the reference host reads,
    adds numbers only, and receives a value as it was sent. *)
Module RefBrowser.

Definition timeOf (v : @JsValue Ref.number) : option Z :=
  match v with
  | JNum (Some c) => Some (c / 100)
  | JStr s => Ref.parse_date s
  | _ => None
  end.

Definition monthOf (t : Z) : Z * Z :=
  let '(y, m, _) := Ref.civilFromDays (t / Ref.msPerDay) in (y, m).

Definition add (a b : @JsValue Ref.number) : @JsValue Ref.number :=
  match a, b with
  | JNum (Some x), JNum (Some y) => @JNum Ref.number (Some (x + y))
  | _, _ => @JNum Ref.number None
  end.

#[export] Instance browser : @Browser Ref.number := {|
  sameDateString := fun v today =>
    match timeOf v with
    | Some t => t / Ref.msPerDay =? today / Ref.msPerDay
    | None => false
    end;
  notBeforeDaysAgo := fun k v today =>
    match timeOf v with
    | Some t => today - k * Ref.msPerDay <=? t
    | None => false
    end;
  sameMonthAndYear := fun v today =>
    match timeOf v with
    | Some t => bool_decide (monthOf t = monthOf today)
    | None => false
    end;
  jsPlus := add;
  idString := fun id => pretty id;
  received := fun v => v;
  received_undefined := eq_refl
|}.

End RefBrowser.

(** ** Further example data *)

#[export] Instance uniqueUsers_dec {JN : JsNumber} {HO : Host}
  (us : gmap ObjectId UserProfile) : Decision (uniqueUsers us).
Proof. unfold uniqueUsers. apply _. Defined.

#[export] Instance consistent_dec {JN : JsNumber} {HO : Host} (st : Store) :
  Decision (consistent st).
Proof. unfold consistent. apply _. Defined.

Section FurtherExampleData.
#[local] Existing Instances Ref.number Ref.host.

(** The request environment in which Carol's account is created. *)
Definition envCarol : Env :=
  {| now := 5000; generateContent := fun _ => None; randomHex := "c4";
     freshId := 4%N; mailAccepted := true; dbConnected := true |}.

(** The admin asks for a second account with Alice's email. *)
Definition duplicateRequest : Request :=
  {| route := PostAdminUsers; xApiKey := Some "key_admin"%string;
     jsonBody := BodyParsed (JStr "Al") (JStr "alice@example.com");
     upload := NoFile; q_startDate := None; q_endDate := None;
     q_page := None; q_limit := None |}.

(** The server starts on an empty database; the admin creates Carol's
    account, Carol submits an image, the logs expire eleven days later
    and the admin lists the users. *)
Definition exampleEvents : list Event :=
  [Handled envCarol (request PostAdminUsers (Some "key_00"%string) NoFile);
   Handled envOther (request PostProcessImage (Some "key_c4"%string) (File "image"));
   Expired (1718150400000 + 11 * 86400000);
   Handled (envAt 1719100800000) (request GetAdminUsers (Some "key_00"%string) NoFile)].

Definition startServer : Server := bootstrap envOther "admin@example.com".

(** The same start, with Carol's account and two submissions of hers
    whose stages interleave: both are let in, both save their
    transaction, then the first one saves its log and raises the counter. *)
Definition startSystem : System := {| server := startServer; underWay := [] |}.

Definition exampleMoves : list Move :=
  [Arrive envCarol (request PostAdminUsers (Some "key_00"%string) NoFile);
   Arrive envOther (request PostProcessImage (Some "key_c4"%string) (File "image"));
   Arrive envOther (request PostProcessImage (Some "key_c4"%string) (File "image"));
   Advance 0; Advance 1; Advance 0; Advance 0].

End FurtherExampleData.

(** * Properties *)

(** ** The string built-ins on examples *)

Example trim_ex : Str.trim "  a b  " = "a b"%string.
Proof. reflexivity. Qed.

Example matchTwelveDigits_ex :
  Str.matchTwelveDigits "UTR 412345678901, ref 123456789012x 1234567890123 999999999999"
  = ["412345678901"; "999999999999"]%string.
Proof. reflexivity. Qed.

Example matchBraces_ex :
  Str.matchBraces "json: {a{b}c} tail}x" = Some "{a{b}c} tail}"%string.
Proof. reflexivity. Qed.

Example parseInt_ex :
  (Str.parseInt " 12px", Str.parseInt "-0x1f", Str.parseInt "abc", Str.parseInt EmptyString)
  = (Some 12, Some (-31), None, None).
Proof. reflexivity. Qed.

Example indexOf_ex :
  (Str.indexOf "lo" "hello", Str.indexOf "z" "hello", Str.indexOf EmptyString "hello") = (3, -1, 0).
Proof. reflexivity. Qed.

(** ** The twelve-digit matches *)

Lemma digitsPrefix_length k s d rest :
  Str.digitsPrefix k s = Some (d, rest) -> String.length d = k.
Proof.
  revert s d rest. induction k as [|k IH]; intros s d rest; simpl.
  - intros [= <- _]. reflexivity.
  - destruct s as [|c r]; [discriminate|].
    destruct (Str.isDigit c); [|discriminate].
    destruct (Str.digitsPrefix k r) as [[d' rest']|] eqn:E; [|discriminate].
    intros [= <- _]. simpl. f_equal. eauto.
Qed.

Lemma matchAt_length prev s d :
  Str.matchAt prev s = Some d -> String.length d = 12%nat.
Proof.
  unfold Str.matchAt. destruct prev; [discriminate|].
  destruct (Str.digitsPrefix 12 s) as [[d' rest]|] eqn:E; [|discriminate].
  apply digitsPrefix_length in E.
  destruct rest as [|c ?]; [|destruct (Str.isWordChar c)]; congruence.
Qed.

Lemma scan_length s : forall prev skip,
  Forall (fun d => String.length d = 12%nat) (Str.scan prev skip s).
Proof.
  induction s as [|c r IH]; intros prev skip; simpl; [constructor|].
  destruct skip; [|apply IH].
  destruct (Str.matchAt prev (String c r)) eqn:E; [|apply IH].
  constructor; [eapply matchAt_length; eauto | apply IH].
Qed.

(** Every match of the regular expression has twelve characters. *)
Lemma matchTwelveDigits_length s :
  Forall (fun d => String.length d = 12%nat) (Str.matchTwelveDigits s).
Proof. apply scan_length. Qed.

(** ** The pipeline *)

Section PipelineFacts.
Context {JN : JsNumber} {HO : Host}.

Lemma prop_insert_eq k v (o : JsObject) : prop k (<[k := v]> o) = v.
Proof. unfold prop. by rewrite lookup_insert_eq. Qed.

Lemma prop_insert_ne k k' v (o : JsObject) : k ≠ k' -> prop k' (<[k := v]> o) = prop k' o.
Proof. intros. unfold prop. by rewrite lookup_insert_ne. Qed.

(** The try block after its two first calls succeeded and the answer was
    parsed. *)
Lemma processImageTry_parsed env img raw reply answer :
  generateContent env (ImageRequest img rawTextPrompt) = Some raw ->
  generateContent env (extractionRequest (Str.trim raw)) = Some reply ->
  parseAnswer reply = Some answer ->
  processImageTry env img [] =
    match verifyAmount env (Str.trim raw) answer
            [ImageRequest img rawTextPrompt; extractionRequest (Str.trim raw)] with
    | (Some d, calls) => (Some (chooseUtr (Str.matchTwelveDigits (Str.trim raw)) d), calls)
    | (None, calls) => (None, calls)
    end.
Proof.
  intros Hraw Hreply Hans.
  unfold processImageTry, mbind, Gen_bind, callModel. simpl.
  rewrite Hraw. simpl. rewrite Hreply, Hans. simpl.
  destruct (verifyAmount _ _ _ _) as [[d|] calls]; reflexivity.
Qed.

(** The amount check leaves every other property alone. *)
Lemma verifyAmount_other env rawText d calls d' calls' k :
  verifyAmount env rawText d calls = (Some d', calls') ->
  k ≠ "amount_in_inr"%string -> prop k d' = prop k d.
Proof.
  unfold verifyAmount. intros Hv Hk.
  destruct (truthy _); [|by inversion Hv].
  destruct (prop "amount_in_inr" d) as [| | | |a| |]; try discriminate.
  destruct (numGt _ _); [|by inversion Hv].
  unfold mbind, Gen_bind, callModel in Hv.
  destruct (generateContent _ _); [|discriminate].
  destruct (negb _); inversion Hv; subst; [|done].
  by rewrite prop_insert_ne.
Qed.

Lemma chooseUtr_amount l (d : JsObject) :
  prop "amount_in_inr" (chooseUtr l d) = prop "amount_in_inr" d.
Proof.
  unfold chooseUtr. destruct l as [|a [|b l]]; [done| |];
    destruct (_ || _); try done; by rewrite ?prop_insert_ne.
Qed.

Lemma chooseUtr_two a b (d : JsObject) :
  prop "utr" (chooseUtr [a; b] d) =
    if truthy (prop "utr" d) && includes [a; b] (prop "utr" d)
    then prop "utr" d
    else JStr (default a (utrWith4 [a; b])).
Proof.
  unfold chooseUtr.
  destruct (truthy _), (includes _ _); simpl; try done;
    by rewrite prop_insert_ne, prop_insert_eq.
Qed.

End PipelineFacts.

(** ** UTR selection (C1) *)

Section UtrSelection.
Context {JN : JsNumber} {HO : Host}.

Lemma includes_truthy l (v : JsValue) :
  Forall (fun d => String.length d = 12%nat) l ->
  includes l v = true -> truthy v = true.
Proof.
  intros Hl. destruct v as [| | | |s| |]; simpl; try discriminate.
  intros Hin. apply bool_decide_eq_true in Hin.
  rewrite Forall_forall in Hl. apply Hl in Hin.
  by destruct s.
Qed.

Lemma utrWith4_two a b u4 :
  exactlyOneWith4 a b u4 -> default a (utrWith4 [a; b]) = u4.
Proof.
  unfold utrWith4. cbn [List.find].
  intros [(Ha & Hb & ->)|(Ha & Hb & ->)]; by rewrite Ha, ?Hb.
Qed.

(** C1, amended: when the raw text holds exactly two twelve-digit
    sequences of which exactly one starts with 4, and the pipeline runs to
    its end, the UTR of the result is the model's own answer if that answer
    is one of the two sequences, and the sequence starting with 4 in every
    other case (no answer, or an answer that is not among them). *)
Theorem processImage_utr_two_matches env img raw a b u4 reply answer d calls :
  generateContent env (ImageRequest img rawTextPrompt) = Some raw ->
  Str.matchTwelveDigits (Str.trim raw) = [a; b] ->
  exactlyOneWith4 a b u4 ->
  generateContent env (extractionRequest (Str.trim raw)) = Some reply ->
  parseAnswer reply = Some answer ->
  processImageTry env img [] = (Some d, calls) ->
  (processImage env img).1 = d
  ∧ prop "utr" d = if includes [a; b] (prop "utr" answer)
                   then prop "utr" answer
                   else JStr u4.
Proof.
  intros Hraw Hm H4 Hreply Hans Htry.
  split; [unfold processImage; by rewrite Htry|].
  rewrite (processImageTry_parsed _ _ _ _ _ Hraw Hreply Hans) in Htry.
  destruct (verifyAmount _ _ _ _) as [[d1|] calls1] eqn:Hv; [|discriminate].
  injection Htry as <- <-.
  rewrite Hm, chooseUtr_two, (utrWith4_two _ _ _ H4).
  rewrite (verifyAmount_other _ _ _ _ _ _ "utr" Hv) by done.
  destruct (includes _ _) eqn:Hin.
  - rewrite (includes_truthy [a; b]); [done| |done].
    rewrite <- Hm. apply matchTwelveDigits_length.
  - by rewrite andb_false_r.
Qed.

End UtrSelection.

(** *** A run in which the model proposes the other sequence *)

Section UtrRuns.
#[local] Existing Instances Ref.number Ref.host.

(** C1 as stated fails: the raw text holds exactly two twelve-digit
    sequences, only the first starts with 4, and the result carries the
    second, which the model proposed. *)
Lemma processImage_keeps_model_utr :
  Str.matchTwelveDigits
    (Str.trim "Paid to shop UPI Ref 412345678901 Txn 123456789012 Rs 2500.00")
    = ["412345678901"; "123456789012"]%string
  ∧ exactlyOneWith4 "412345678901" "123456789012" "412345678901"
  ∧ prop "utr" (processImage envOther "image").1 = JStr "123456789012"
  ∧ prop "utr" (processImage envOther "image").1 ≠ JStr "412345678901".
Proof.
  split; [reflexivity|]. split; [left; repeat split; reflexivity|].
  assert (prop "utr" (processImage envOther "image").1 = JStr "123456789012") as ->
    by reflexivity.
  split; [reflexivity|discriminate].
Qed.

(** The amended statement at a run in which the model proposes a
    sequence that the raw text does not contain. *)
Lemma processImage_utr_two_matches_witness :
  prop "utr" (processImage envAbsent "image").1 = JStr "412345678901".
Proof.
  destruct (processImage_utr_two_matches envAbsent "image"
              " Ref 123456789012 / 412345678901 " "123456789012" "412345678901"
              "412345678901" answerAbsent
              {[ "utr"%string := JStr "999999999999" ]}
              (<["utr_alternatives"%string := JArr [JStr "123456789012"]]>
                 (<["utr"%string := JStr "412345678901"]>
                    {[ "utr"%string := JStr "999999999999" ]}))
              [ImageRequest "image" rawTextPrompt;
               extractionRequest (Str.trim " Ref 123456789012 / 412345678901 ")])
    as [-> ->].
  - reflexivity.
  - reflexivity.
  - right. repeat split; reflexivity.
  - reflexivity.
  - reflexivity.
  - reflexivity.
  - reflexivity.
Defined.

End UtrRuns.

(** ** Amount verification (C5) *)

Section AmountVerification.
Context {JN : JsNumber} {HO : Host}.

Lemma verifyAmount_below env rawText (d : JsObject) a calls :
  prop "amount_in_inr" d = JStr a ->
  numGt (parseFloat (Str.removeCommas a)) (numOfZ 100000) = false ->
  verifyAmount env rawText d calls = (Some d, calls).
Proof.
  intros Ha Hgt. unfold verifyAmount. rewrite Ha, Hgt.
  by destruct (truthy _).
Qed.

Lemma verifyAmount_above env rawText (d : JsObject) a calls :
  prop "amount_in_inr" d = JStr a -> a ≠ EmptyString ->
  numGt (parseFloat (Str.removeCommas a)) (numOfZ 100000) = true ->
  verifyAmount env rawText d calls =
    (match generateContent env (verificationRequest rawText a) with
     | Some reply =>
         Some (if isNaN (verifiedAmount (parseFloat (Str.removeCommas a)) (Str.trim reply))
               then d
               else <["amount_in_inr"%string :=
                        JStr (toFixed2 (verifiedAmount (parseFloat (Str.removeCommas a))
                                                       (Str.trim reply)))]> d)
     | None => None
     end,
     calls ++ [verificationRequest rawText a]).
Proof.
  intros Ha Hne Hgt. unfold verifyAmount. rewrite Ha, Hgt.
  assert (truthy (JStr a) = true) as -> by (by destruct a).
  unfold mbind, Gen_bind, callModel, verificationRequest.
  destruct (generateContent _ _); [|done].
  by destruct (isNaN _).
Qed.

Lemma verifiedAmount_amount a reply :
  numGt (parseFloat (Str.removeCommas a)) (numOfZ 100000) = true ->
  (if isNaN (verifiedAmount (parseFloat (Str.removeCommas a)) (Str.trim reply))
   then a
   else toFixed2 (verifiedAmount (parseFloat (Str.removeCommas a)) (Str.trim reply)))
  = amountAfter a reply.
Proof.
  intros Hgt. apply numGt_isNaN in Hgt.
  unfold verifiedAmount, amountAfter.
  destruct (String.eqb _ "correct"); simpl; [by rewrite Hgt|].
  destruct (String.eqb _ "not found"); simpl; [by rewrite Hgt|].
  done.
Qed.

(** C5: with an amount that does not exceed 100000 the pipeline makes its
    two calls only and the amount stays as the model gave it; with an
    amount above 100000 it makes exactly one more call, the verification,
    and the amount becomes the parsed amount (printed with two decimals)
    on the replies "correct" and "not found", the number of the reply when
    the reply parses as one, and stays unchanged on any other reply. *)
Theorem processImage_amount_verification env img raw reply answer a :
  generateContent env (ImageRequest img rawTextPrompt) = Some raw ->
  generateContent env (extractionRequest (Str.trim raw)) = Some reply ->
  parseAnswer reply = Some answer ->
  prop "amount_in_inr" answer = JStr a ->
  let calls2 := [ImageRequest img rawTextPrompt; extractionRequest (Str.trim raw)] in
  let verification := verificationRequest (Str.trim raw) a in
  (numGt (parseFloat (Str.removeCommas a)) (numOfZ 100000) = false ->
     (processImage env img).2 = calls2
     ∧ prop "amount_in_inr" (processImage env img).1 = JStr a)
  ∧ (a ≠ EmptyString ->
     numGt (parseFloat (Str.removeCommas a)) (numOfZ 100000) = true ->
     (processImage env img).2 = calls2 ++ [verification]
     ∧ forall verdict, generateContent env verification = Some verdict ->
         prop "amount_in_inr" (processImage env img).1 = JStr (amountAfter a verdict)).
Proof.
  intros Hraw Hreply Hans Ha calls2 verification.
  unfold processImage.
  rewrite (processImageTry_parsed _ _ _ _ _ Hraw Hreply Hans).
  split.
  - intros Hgt. rewrite (verifyAmount_below _ _ _ _ _ Ha Hgt). simpl.
    split; [done|]. by rewrite chooseUtr_amount.
  - intros Hne Hgt. rewrite (verifyAmount_above _ _ _ _ _ Ha Hne Hgt). fold verification.
    destruct (generateContent env verification) as [v|] eqn:Hv; simpl.
    + split; [done|]. intros verdict [= <-].
      rewrite chooseUtr_amount, <- (verifiedAmount_amount a v Hgt).
      destruct (isNaN _); [done|]. by rewrite prop_insert_eq.
    + split; [done|]. intros verdict [=].
Qed.

End AmountVerification.

Section AmountRuns.
#[local] Existing Instances Ref.number Ref.host.

(** An amount of 150000.5 is checked with the model, which confirms it. *)
Lemma processImage_amount_verification_witness :
  length (processImage envLarge "image").2 = 3%nat
  ∧ prop "amount_in_inr" (processImage envLarge "image").1 = JStr "150000.50".
Proof.
  destruct (processImage_amount_verification envLarge "image" rawLarge answerLarge
              (<["date"%string := JStr "12 Jun 2024"]>
                 (<["utr"%string := JStr "412345678901"]>
                    (<["amount_in_inr"%string := JStr "1,50,000.5"]>
                       {[ "is_edited"%string := JBool false ]})))
              "1,50,000.5")
    as [_ Habove].
  - reflexivity.
  - reflexivity.
  - reflexivity.
  - reflexivity.
  - destruct Habove as [-> Hamount]; [discriminate|reflexivity|].
    split; [reflexivity|].
    rewrite (Hamount " Correct "); reflexivity.
Defined.

End AmountRuns.

(** ** Authentication and authorization (C6, C7) *)

Section Access.
Context {JN : JsNumber} {HO : Host}.

Lemma findOneByApiKey_Some key us id u :
  findOneByApiKey key us = Some (id, u) -> us !! id = Some u ∧ apiKey u = key.
Proof.
  unfold findOneByApiKey. intros Hh.
  apply head_Some_elem_of, list_elem_of_filter in Hh as [Hk Hin].
  by apply elem_of_map_to_list in Hin.
Qed.

Lemma findOneByApiKey_None key us :
  (forall id u, us !! id = Some u -> apiKey u ≠ key) -> findOneByApiKey key us = None.
Proof.
  intros Hno. unfold findOneByApiKey.
  destruct (filter _ _) as [|[id u] l] eqn:E; [done|].
  assert ((id, u) ∈ filter (fun p => apiKey p.2 = key) (map_to_list us)) as Hin
    by (rewrite E; left).
  apply list_elem_of_filter in Hin as [Hk Hin].
  apply elem_of_map_to_list in Hin. by apply Hno in Hin.
Qed.

Lemma authenticateUser_Next req st id u :
  authenticateUser req st = Next (id, u) ->
  users st !! id = Some u ∧ xApiKey req = Some (apiKey u).
Proof.
  unfold authenticateUser.
  destruct (xApiKey req) as [key|]; [|discriminate].
  destruct (Str.isEmpty key); [discriminate|].
  destruct (findOneByApiKey key (users st)) as [[id' u']|] eqn:E; [|discriminate].
  intros [= -> ->]. apply findOneByApiKey_Some in E as [? <-]. done.
Qed.

(** A request whose key is missing, or is no stored user's key, is
    answered by [authenticateUser] itself. *)
Lemma authenticateUser_rejects req st :
  xApiKey req = None
  ∨ (forall id u, users st !! id = Some u -> xApiKey req ≠ Some (apiKey u)) ->
  exists msg, authenticateUser req st = Respond 401 (BError (JStr msg)).
Proof.
  unfold authenticateUser, errorBody. intros [->|Hno]; [eauto|].
  destruct (xApiKey req) as [key|]; [|eauto].
  destruct (Str.isEmpty key); [eauto|].
  rewrite findOneByApiKey_None; [eauto|].
  intros id u Hu Hk. apply (Hno id u Hu). by rewrite Hk.
Qed.

Lemma dispatch_accepted env req sv :
  bodyAccepted req -> dispatch env req sv = routes env req sv.
Proof. unfold bodyAccepted, dispatch. by destruct (jsonBody req). Qed.

(** C6, amended: on every route but the health check, a request whose
    body the JSON parser accepts and that has no key, or a key that no
    stored user has, is answered with status 401 and an error body,
    whatever else it carries, and the state of the server (the three
    collections and the limiter's counters) stays as it was. *)
Theorem request_without_valid_key env req sv :
  bodyAccepted req ->
  route req ≠ GetHealth ->
  xApiKey req = None
  ∨ (forall id u, users (store sv) !! id = Some u -> xApiKey req ≠ Some (apiKey u)) ->
  status (handle env req sv).1 = 401
  ∧ (exists msg, body (handle env req sv).1 = BError (JStr msg))
  ∧ (handle env req sv).2 = sv.
Proof.
  intros Hbody Hroute Hkey.
  destruct (authenticateUser_rejects req (store sv) Hkey) as [msg Hauth].
  unfold handle. rewrite (dispatch_accepted _ _ _ Hbody). unfold routes. rewrite Hauth.
  destruct (route req); simpl; eauto. done.
Qed.

(** C7: a request to one of the two admin routes that reaches and passes
    authentication as a user whose admin flag is not set is answered with
    status 403 and an error body; the state of the server stays as it was,
    so no user is created. *)
Theorem non_admin_on_admin_route env req sv id user :
  bodyAccepted req ->
  route req = PostAdminUsers ∨ route req = GetAdminUsers ->
  authenticateUser req (store sv) = Next (id, user) ->
  isAdmin user = false ->
  status (handle env req sv).1 = 403
  ∧ body (handle env req sv).1 = BError (JStr "Forbidden: Admin access required")
  ∧ (handle env req sv).2 = sv.
Proof.
  intros Hbody Hroute Hauth Hadmin.
  pose proof (authenticateUser_Next _ _ _ _ Hauth) as [Hu _].
  unfold handle. rewrite (dispatch_accepted _ _ _ Hbody). unfold routes. rewrite Hauth.
  unfold requireAdmin. rewrite Hu, Hadmin.
  by destruct Hroute as [-> | ->].
Qed.

End Access.

Section AccessRuns.
#[local] Existing Instances Ref.number Ref.host.

(** C6 as stated fails: a request without a key whose body the JSON parser
    rejects is answered 500 by the error-handling middleware; it never
    reaches [authenticateUser]. *)
Lemma malformed_body_without_key :
  xApiKey (malformedRequest PostAdminUsers) = None
  ∧ status (handle envOther (malformedRequest PostAdminUsers) exampleServer).1 = 500
  ∧ body (handle envOther (malformedRequest PostAdminUsers) exampleServer).1
    = BUnexpected "An unexpected error occurred"
  ∧ status (handle envOther (malformedRequest PostAdminUsers) exampleServer).1 ≠ 401.
Proof. repeat split; discriminate. Qed.

(** A request to POST /api/process-image without a key. *)
Lemma request_without_valid_key_witness :
  status (handle envOther (request PostProcessImage None (File "image")) exampleServer).1 = 401
  ∧ (exists msg,
       body (handle envOther (request PostProcessImage None (File "image")) exampleServer).1
       = BError (JStr msg))
  ∧ (handle envOther (request PostProcessImage None (File "image")) exampleServer).2
    = exampleServer.
Proof.
  apply (request_without_valid_key envOther
           (request PostProcessImage None (File "image")) exampleServer).
  - discriminate.
  - discriminate.
  - left. reflexivity.
Defined.

(** Alice, who is no admin, asks for a user to be created. *)
Lemma non_admin_on_admin_route_witness :
  status (handle envOther (request PostAdminUsers (Some "key_alice") NoFile) exampleServer).1
    = 403
  ∧ body (handle envOther (request PostAdminUsers (Some "key_alice") NoFile) exampleServer).1
    = BError (JStr "Forbidden: Admin access required")
  ∧ (handle envOther (request PostAdminUsers (Some "key_alice") NoFile) exampleServer).2
    = exampleServer.
Proof.
  apply (non_admin_on_admin_route envOther
           (request PostAdminUsers (Some "key_alice") NoFile) exampleServer 2%N alice).
  - discriminate.
  - left. reflexivity.
  - reflexivity.
  - reflexivity.
Defined.

End AccessRuns.

(** ** Image submission (C2, C3) *)

Section Submission.
Context {JN : JsNumber} {HO : Host}.

Lemma authenticateUser_Respond req st code b :
  authenticateUser req st = Respond code b -> code = 401.
Proof.
  unfold authenticateUser.
  destruct (xApiKey req) as [key|]; [|by intros [= <- _]].
  destruct (Str.isEmpty key); [by intros [= <- _]|].
  destruct (findOneByApiKey _ _) as [[]|]; [discriminate|by intros [= <- _]].
Qed.

Lemma createUserRateLimiter_Respond env id user cs code b cs' :
  createUserRateLimiter env id user cs = (Respond code b, cs') -> code = 429.
Proof.
  unfold createUserRateLimiter.
  destruct (isAdmin user); [discriminate|].
  destruct (maxRequests <? _); [by intros [= <- _ _]|discriminate].
Qed.

(** What the handler of POST /api/process-image does when it answers 200. *)
Lemma processImageHandler_200 env id remaining req st :
  (processImageHandler env id remaining req st).1.1 = 200 ->
  exists t l,
    newTransaction env id t.1 = Some t.2
    ∧ newLog env id t.1 = Some l
    ∧ (processImageHandler env id remaining req st).2 =
        {| users := alter incRequestCount id (users st);
           transactions := transactions st ++ [t.2];
           logs := logs st ++ [l] |}.
Proof.
  unfold processImageHandler.
  destruct (upload req) as [| buf |]; simpl; try discriminate.
  destruct (truthy _); simpl; [discriminate|].
  destruct (newTransaction _ _ _) as [t|] eqn:Ht; simpl; [|discriminate].
  destruct (newLog _ _ _) as [l|] eqn:Hl; simpl; [|discriminate].
  intros _. by exists (normalizeUtr (processImage env buf).1, t), l.
Qed.

Lemma newTransaction_userId env id d t : newTransaction env id d = Some t -> t_userId t = id.
Proof.
  unfold newTransaction. intros Ht.
  destruct (castString (prop "date" d)); simpl in Ht; [|discriminate].
  destruct (castString (prop "utr" d)); simpl in Ht; [|discriminate].
  destruct (castString (prop "amount_in_inr" d)); simpl in Ht; [|discriminate].
  by injection Ht as <-.
Qed.

Lemma newLog_userId env id d l : newLog env id d = Some l -> l_userId l = id.
Proof.
  unfold newLog. intros Hl.
  destruct (castString (jsOr (prop "date" d) _)); simpl in Hl; [|discriminate].
  destruct (castString (jsOr (prop "utr" d) _)); simpl in Hl; [|discriminate].
  destruct (castString (jsOr (prop "amount_in_inr" d) _)); simpl in Hl; [|discriminate].
  destruct (castBoolean _); simpl in Hl; [|discriminate].
  by injection Hl as <-.
Qed.

(** C3: when POST /api/process-image answers 200, the store holds exactly
    one more transaction and one more log than before, both with the
    caller's id, and the caller's user document differs from the one before
    in its [requestCount] only, which is one greater; no other user
    document has changed. *)
Theorem process_image_success_writes env req sv :
  route req = PostProcessImage ->
  status (handle env req sv).1 = 200 ->
  exists id caller caller' t l,
    authenticateUser req (store sv) = Next (id, caller)
    ∧ users (store sv) !! id = Some caller
    ∧ transactions (store (handle env req sv).2) = transactions (store sv) ++ [t]
    ∧ t_userId t = id
    ∧ logs (store (handle env req sv).2) = logs (store sv) ++ [l]
    ∧ l_userId l = id
    ∧ users (store (handle env req sv).2) = <[id := caller']> (users (store sv))
    ∧ requestCount caller' = requestCount caller + 1
    ∧ apiKey caller' = apiKey caller ∧ name caller' = name caller
    ∧ email caller' = email caller ∧ isAdmin caller' = isAdmin caller
    ∧ createdAt caller' = createdAt caller.
Proof.
  intros Hroute. unfold handle, dispatch.
  destruct (jsonBody req); [simpl; lia|].
  unfold routes. rewrite Hroute. simpl.
  destruct (authenticateUser req (store sv)) as [code b|[id caller]] eqn:Hauth.
  { simpl. apply authenticateUser_Respond in Hauth. lia. }
  destruct (createUserRateLimiter env id caller (counters sv))
    as [[code b|remaining] cs] eqn:Hlimit.
  { simpl. apply createUserRateLimiter_Respond in Hlimit. lia. }
  simpl. intros H200.
  destruct (processImageHandler_200 _ _ _ _ _ H200) as ([d t] & l & Ht & Hl & ->).
  pose proof (authenticateUser_Next _ _ _ _ Hauth) as [Hcaller _].
  exists id, caller, (incRequestCount caller), t, l. simpl.
  rewrite (alter_alt_Some _ _ _ _ Hcaller).
  repeat split; eauto using newTransaction_userId, newLog_userId.
Qed.

(** The check of lines 1031-1033 on a UTR that is a string. *)
Lemma normalizeUtr_string (d : JsObject) s :
  prop "utr" d = JStr s ->
  prop "utr" (normalizeUtr d) =
    if Str.isEmpty s then JStr s
    else if Str.len s =? 12 then JStr s
    else JStr "N/A".
Proof.
  intros Hs. unfold normalizeUtr. rewrite Hs. simpl.
  destruct (Str.isEmpty s); simpl; [done|].
  destruct (Str.len s =? 12); simpl; [done|].
  by rewrite prop_insert_eq.
Qed.

(** A UTR that is a string of a length other than 0 and 12 reaches both
    records as the marker. *)
Lemma records_of_wrong_length_utr env id (d : JsObject) s t l :
  prop "utr" d = JStr s -> s ≠ EmptyString -> Str.len s ≠ 12 ->
  newTransaction env id (normalizeUtr d) = Some t ->
  newLog env id (normalizeUtr d) = Some l ->
  t_utr t = JStr "N/A" ∧ utr (processingData l) = JStr "N/A".
Proof.
  intros Hs Hne Hlen Ht Hl.
  pose proof (normalizeUtr_string d s Hs) as Hn.
  assert (Str.isEmpty s = false) as E1 by (by destruct s).
  apply Z.eqb_neq in Hlen. rewrite E1, Hlen in Hn.
  unfold newTransaction in Ht. unfold newLog in Hl. rewrite Hn in Ht, Hl.
  unfold jsOr in Hl. simpl in Hl. rewrite castString_str in Ht, Hl.
  destruct (castString (prop "date" _)); simpl in Ht; [|discriminate].
  destruct (castString (prop "amount_in_inr" _)); simpl in Ht; [|discriminate].
  destruct (castString (if truthy (prop "date" _) then _ else _));
    simpl in Hl; [|discriminate].
  destruct (castString (if truthy (prop "amount_in_inr" _) then _ else _));
    simpl in Hl; [|discriminate].
  destruct (castBoolean _); simpl in Hl; [|discriminate].
  injection Ht as <-. injection Hl as <-. done.
Qed.

End Submission.

Section SubmissionRuns.
#[local] Existing Instances Ref.number Ref.host.

(** Alice submits an image; the model reads two sequences. *)
Lemma process_image_success_writes_witness :
  exists t l,
    transactions (store (handle envOther
        (request PostProcessImage (Some "key_alice") (File "image")) exampleServer).2)
      = [t]
    ∧ logs (store (handle envOther
        (request PostProcessImage (Some "key_alice") (File "image")) exampleServer).2)
      = logs exampleStore ++ [l]
    ∧ requestCount <$> users (store (handle envOther
        (request PostProcessImage (Some "key_alice") (File "image")) exampleServer).2)
          !! 2%N = Some 4.
Proof.
  destruct (process_image_success_writes envOther
              (request PostProcessImage (Some "key_alice") (File "image")) exampleServer)
    as (id & caller & caller' & t & l & Hauth & Hc & Ht & _ & Hl & _ & Hu & Hn & _).
  - reflexivity.
  - reflexivity.
  - exists t, l. injection Hauth as <- <-. clear Hc.
    rewrite Ht, Hl, Hu, lookup_insert_eq. simpl. rewrite Hn.
    repeat split; reflexivity.
Defined.

(** C2 fails on the code: the model answers with an empty UTR and the raw
    text holds no twelve-digit sequence. The request succeeds, and the
    transaction is stored with the empty string as UTR, of length 0, which
    is neither 12 nor the marker, while the log stores the marker. *)
Lemma process_image_stores_empty_utr :
  let result := handle envEmptyUtr
                  (request PostProcessImage (Some "key_alice") (File "image"))
                  exampleServer in
  status result.1 = 200
  ∧ t_utr <$> transactions (store result.2) = [JStr EmptyString]
  ∧ (fun l => utr (processingData l)) <$> drop 4 (logs (store result.2)) = [JStr "N/A"].
Proof. repeat split; reflexivity. Qed.

End SubmissionRuns.

(** ** Log query (C8) *)

Section LogQueries.
Context {JN : JsNumber} {HO : Host}.

#[local] Instance newestFirst_trans : Transitive newestFirst.
Proof. unfold newestFirst. intros a b c ? ?. lia. Qed.

#[local] Instance newestFirst_total : Total newestFirst.
Proof. unfold newestFirst. intros a b. lia. Qed.

Lemma findLogs_sorted q st : StronglySorted newestFirst (findLogs q st).
Proof. apply (StronglySorted_merge_sort _). Qed.

Lemma findLogs_matching q st : findLogs q st ≡ₚ filter (matchesQuery q) (logs st).
Proof. apply merge_sort_Permutation. Qed.

Lemma findLogs_Forall q st : Forall (matchesQuery q) (findLogs q st).
Proof.
  rewrite findLogs_matching. apply Forall_forall.
  intros l Hl. by apply list_elem_of_filter in Hl as [? _].
Qed.

Lemma page_sorted (l : list Log) k n :
  StronglySorted newestFirst l -> StronglySorted newestFirst (take n (drop k l)).
Proof.
  intros Hl. rewrite <- (take_drop k l) in Hl. apply StronglySorted_app_1_r in Hl.
  rewrite <- (take_drop n (drop k l)) in Hl. by apply StronglySorted_app_1_l in Hl.
Qed.

Lemma buildQuery_Some id req q :
  buildQuery id req = Some q ->
  forUser q = id
  ∧ (forall s, given (q_startDate req) = Some s ->
       exists t, parseDate s = Some t ∧ gte q = Some t)
  ∧ (forall s, given (q_endDate req) = Some s ->
       exists t, parseDate s = Some t ∧ lte q = Some (addLocalDay t)).
Proof.
  unfold buildQuery, dateBound. intros Hq.
  destruct (given (q_startDate req)) as [s1|];
    [destruct (parseDate s1) as [t1|] eqn:E1; [|discriminate]|];
    (destruct (given (q_endDate req)) as [s2|];
     [destruct (parseDate s2) as [t2|] eqn:E2; [|discriminate]|]);
    simpl in Hq; injection Hq as <-; simpl;
    repeat split; try discriminate; intros s [= <-]; eauto.
Qed.

(** C8, amended: for page [p] and limit [n] that are both at least 1, and
    date parameters that parse, GET /api/logs answers 200 with the logs
    [selected]: taken from the caller's logs in the requested range, which
    are sorted newest first, after skipping the first [(p-1)*n] of them, at
    most [n]; every selected log belongs to the caller and lies in the
    range, whose upper end is the end date moved one day on. *)
Theorem get_logs_page env req sv id user q p n :
  bodyAccepted req ->
  route req = GetLogs ->
  authenticateUser req (store sv) = Next (id, user) ->
  buildQuery id req = Some q ->
  pageOf req = Some p -> limitOf req = Some n ->
  1 ≤ p -> 1 ≤ n ->
  let matching := findLogs q (store sv) in
  let selected := take (Z.to_nat n) (drop (Z.to_nat ((p - 1) * n)) matching) in
  status (handle env req sv).1 = 200
  ∧ (exists total pages,
       body (handle env req sv).1 = BLogs (formatLog (store sv) <$> selected) total p pages)
  ∧ matching ≡ₚ filter (matchesQuery q) (logs (store sv))
  ∧ StronglySorted newestFirst matching
  ∧ StronglySorted newestFirst selected
  ∧ Z.of_nat (length selected) ≤ n
  ∧ Forall (fun l => l_userId l = id) selected
  ∧ (forall s, given (q_startDate req) = Some s ->
       exists t, parseDate s = Some t ∧ Forall (fun l => t ≤ timestamp l) selected)
  ∧ (forall s, given (q_endDate req) = Some s ->
       exists t, parseDate s = Some t
                 ∧ Forall (fun l => timestamp l ≤ addLocalDay t) selected).
Proof.
  intros Hbody Hroute Hauth Hq Hp Hn Hp1 Hn1 matching selected.
  assert (Forall (matchesQuery q) selected) as Hsel
    by (apply Forall_take, Forall_drop, findLogs_Forall).
  destruct (buildQuery_Some _ _ _ Hq) as (Hid & Hlo & Hhi).
  assert (selectLogs id req (store sv) = Some selected) as Hselect.
  { unfold selectLogs. rewrite Hq, Hp, Hn. simpl.
    unfold cursorSkip, cursorLimit.
    destruct ((p - 1) * n <? 0) eqn:E; [apply Z.ltb_lt in E; nia|]. simpl.
    destruct (n =? 0) eqn:E0; [lia|].
    by rewrite (Z.abs_eq n) by lia. }
  split; [|split].
  - unfold handle. rewrite (dispatch_accepted _ _ _ Hbody). unfold routes.
    rewrite Hroute, Hauth. simpl.
    unfold getLogs. by rewrite Hselect, Hq, Hp, Hn.
  - unfold handle. rewrite (dispatch_accepted _ _ _ Hbody). unfold routes.
    rewrite Hroute, Hauth. simpl.
    unfold getLogs. rewrite Hselect, Hq, Hp, Hn. simpl. eauto.
  - split; [apply findLogs_matching|].
    split; [apply findLogs_sorted|].
    split; [apply page_sorted, findLogs_sorted|].
    split; [subst selected; rewrite length_take; lia|].
    split; [|split].
    + eapply Forall_impl; [exact Hsel|]. intros l (Hl & _). by rewrite Hl.
    + intros s Hs. destruct (Hlo s Hs) as (t & Ht & Hg). exists t. split; [done|].
      eapply Forall_impl; [exact Hsel|]. intros l (_ & Hl & _). by rewrite Hg in Hl.
    + intros s Hs. destruct (Hhi s Hs) as (t & Ht & Hg). exists t. split; [done|].
      eapply Forall_impl; [exact Hsel|]. intros l (_ & _ & Hl). by rewrite Hg in Hl.
Qed.

End LogQueries.

Section LogQueryRuns.
#[local] Existing Instances Ref.number Ref.host.

(** C8 as stated fails at limit 0, which the driver reads as no limit:
    Alice asks for page 1 with limit 0 and receives her three logs. *)
Lemma get_logs_limit_zero :
  limitOf (logsRequest "key_alice" "1" "0") = Some 0
  ∧ pageOf (logsRequest "key_alice" "1" "0") = Some 1
  ∧ status (handle envOther (logsRequest "key_alice" "1" "0") exampleServer).1 = 200
  ∧ match body (handle envOther (logsRequest "key_alice" "1" "0") exampleServer).1 with
    | BLogs entries _ _ _ => lv_timestamp <$> entries = [7000; 6500; 5000]
    | _ => False
    end.
Proof. repeat split; reflexivity. Qed.

(** Alice asks for page 2 with limit 2: the oldest of her three logs. *)
Lemma get_logs_page_witness :
  exists total pages,
    body (handle envOther (logsRequest "key_alice" "2" "2") exampleServer).1
    = BLogs [formatLog exampleStore (logOf 2%N 5000 "411111111111")] total 2 pages.
Proof.
  destruct (get_logs_page envOther (logsRequest "key_alice" "2" "2") exampleServer
              2%N alice {| forUser := 2%N; gte := None; lte := None |} 2 2)
    as (_ & Hbody & _); try reflexivity; try lia; try discriminate.
  exact Hbody.
Defined.

End LogQueryRuns.

(** ** User listing (C9) *)

Section UserListing.
Context {JN : JsNumber} {HO : Host}.

Lemma nonAdminUsers_elem st p :
  p ∈ nonAdminUsers st <-> users st !! p.1 = Some p.2 ∧ isAdmin p.2 = false.
Proof.
  unfold nonAdminUsers. rewrite merge_sort_Permutation, list_elem_of_filter.
  destruct p as [i u]. rewrite elem_of_map_to_list. simpl. tauto.
Qed.

(** C9: for an admin, GET /api/admin/users lists exactly the users without
    the admin flag, and the [requestCount] of each entry is the number of
    logs in the store with that user's id. It is therefore the same for
    any two stores that hold the same logs, whatever the users' stored
    [requestCount] fields are. *)
Theorem admin_users_counts env req sv id user :
  bodyAccepted req ->
  route req = GetAdminUsers ->
  authenticateUser req (store sv) = Next (id, user) ->
  isAdmin user = true ->
  exists views,
    status (handle env req sv).1 = 200
    ∧ body (handle env req sv).1 = BUsers views
    ∧ Forall (fun v =>
        (exists u, users (store sv) !! uv_id v = Some u ∧ isAdmin u = false)
        ∧ uv_requestCount v =
            Z.of_nat (length (filter (fun l => l_userId l = uv_id v) (logs (store sv)))))
        views
    ∧ (forall i u, users (store sv) !! i = Some u -> isAdmin u = false ->
         exists v, v ∈ views ∧ uv_id v = i)
    ∧ (forall st2 v v2,
         logs st2 = logs (store sv) ->
         v ∈ views -> v2 ∈ userView st2 <$> nonAdminUsers st2 -> uv_id v = uv_id v2 ->
         uv_requestCount v = uv_requestCount v2).
Proof.
  intros Hbody Hroute Hauth Hadmin.
  pose proof (authenticateUser_Next _ _ _ _ Hauth) as [Hu _].
  exists (userView (store sv) <$> nonAdminUsers (store sv)).
  assert (handle env req sv =
          (send env None 200 (BUsers (userView (store sv) <$> nonAdminUsers (store sv))), sv))
    as ->.
  { unfold handle. rewrite (dispatch_accepted _ _ _ Hbody). unfold routes.
    rewrite Hroute, Hauth. unfold requireAdmin.
    rewrite Hu, Hadmin. by destruct sv. }
  repeat split.
  - apply Forall_forall. intros v Hv.
    apply list_elem_of_fmap in Hv as (p & -> & Hp).
    apply nonAdminUsers_elem in Hp as [Hp1 Hp2]. simpl. eauto.
  - intros i u Hi Hiu. exists (userView (store sv) (i, u)). split; [|done].
    apply list_elem_of_fmap. exists (i, u). split; [done|].
    by apply nonAdminUsers_elem.
  - intros st2 v v2 Hlogs Hv Hv2 Hid.
    apply list_elem_of_fmap in Hv as (p & -> & _).
    apply list_elem_of_fmap in Hv2 as (p2 & -> & _).
    simpl in *. unfold countLogs. by rewrite Hid, Hlogs.
Qed.

End UserListing.

Section UserListingRuns.
#[local] Existing Instances Ref.number Ref.host.

Lemma admin_users_counts_witness :
  exists views,
    body (handle envOther (request GetAdminUsers (Some "key_admin") NoFile) exampleServer).1
      = BUsers views
    ∧ Forall (fun v =>
        uv_requestCount v =
          Z.of_nat (length (filter (fun l => l_userId l = uv_id v) (logs exampleStore))))
        views.
Proof.
  destruct (admin_users_counts envOther (request GetAdminUsers (Some "key_admin") NoFile)
              exampleServer 1%N admin)
    as (views & _ & Hbody & Hcount & _); try reflexivity; try discriminate.
  exists views. split; [exact Hbody|].
  eapply Forall_impl; [exact Hcount|]. by intros v [_ ?].
Defined.

(** After the expiry monitor has removed the logs older than ten days, the
    listed counts (0 for Bob, 1 for Alice) differ from the stored
    [requestCount] fields (1 and 3), which the expiry leaves alone. *)
Example admin_users_counts_after_expiry :
  let sv := {| store := expireLogs (6800 + logRetentionMs) exampleStore; counters := ∅ |} in
  match body (handle envOther (request GetAdminUsers (Some "key_admin") NoFile) sv).1 with
  | BUsers views => (fun v => (uv_name v, uv_requestCount v)) <$> views
                    = [("Bob"%string, 0); ("Alice"%string, 1)]
  | _ => False
  end
  ∧ requestCount <$> users (store sv) !! 3%N = Some 1
  ∧ requestCount <$> users (store sv) !! 2%N = Some 3.
Proof. repeat split; reflexivity. Qed.

End UserListingRuns.

(** ** Rate limiting (C4, C10) *)

Section RateLimiting.
Context {JN : JsNumber} {HO : Host}.

Lemma createUserRateLimiter_in_window env id user cs w :
  isAdmin user = false -> cs !! id = Some w -> now env < resetTime w ->
  createUserRateLimiter env id user cs =
    (decisionAt env (hits w + 1),
     <[id := {| hits := hits w + 1; resetTime := resetTime w |}]> cs).
Proof.
  intros Hadmin Hw Hlive. unfold createUserRateLimiter, hit, decisionAt, maxRequests.
  rewrite Hadmin, Hw. apply Z.ltb_lt in Hlive. rewrite Hlive. simpl.
  by destruct (20 <? hits w + 1).
Qed.

Lemma createUserRateLimiter_new_window env id user cs :
  isAdmin user = false ->
  (forall w, cs !! id = Some w -> resetTime w ≤ now env) ->
  createUserRateLimiter env id user cs =
    (Next (Some 19), <[id := {| hits := 1; resetTime := now env + windowMs |}]> cs).
Proof.
  intros Hadmin Hold. unfold createUserRateLimiter, hit, maxRequests. rewrite Hadmin.
  destruct (cs !! id) as [w|] eqn:Hw; [|done].
  specialize (Hold w eq_refl). apply Z.ltb_ge in Hold. by rewrite Hold.
Qed.

(** A burst inside a running window: the count goes on from [hits w]. *)
Lemma runLimiter_in_window id user envs : forall cs w,
  isAdmin user = false -> cs !! id = Some w ->
  Forall (fun e => now e < resetTime w) envs ->
  (runLimiter id user envs cs).1
    = imap (fun i e => decisionAt e (hits w + Z.of_nat i + 1)) envs
  ∧ exists w', (runLimiter id user envs cs).2 !! id = Some w'
               ∧ resetTime w' = resetTime w
               ∧ hits w' = hits w + Z.of_nat (length envs).
Proof.
  induction envs as [|e envs IH]; intros cs w Hadmin Hw Hall.
  - simpl. split; [done|]. exists w. repeat split; [done|lia].
  - apply Forall_cons in Hall as [He Hall]. simpl.
    rewrite (createUserRateLimiter_in_window _ _ _ _ _ Hadmin Hw He). simpl.
    destruct (IH (<[id := {| hits := hits w + 1; resetTime := resetTime w |}]> cs)
                 {| hits := hits w + 1; resetTime := resetTime w |} Hadmin)
      as (Hrs & w' & Hw' & Hreset & Hhits); [by rewrite lookup_insert_eq|done|].
    simpl in *. split.
    + rewrite Hrs. replace (hits w + Z.of_nat 0 + 1) with (hits w + 1) by lia.
      f_equal. apply imap_ext. intros i x _. simpl. f_equal. lia.
    + exists w'. repeat split; [done|done|lia].
Qed.

Lemma processImageHandler_status env id remaining req st :
  (processImageHandler env id remaining req st).1.1 ≠ 429.
Proof.
  unfold processImageHandler.
  destruct (upload req); simpl; try done.
  destruct (truthy _); simpl; [done|].
  destruct (newTransaction _ _ _); simpl; [|done].
  by destruct (newLog _ _ _).
Qed.

Lemma createUser_status env req st : (createUser env req st).1.1 ≠ 429.
Proof.
  unfold createUser.
  destruct (requiredString (b_name req)), (requiredString (b_email req)); simpl; try done.
  destruct (insertUser _ _ _); simpl; [|done].
  by destruct (mailAccepted env).
Qed.

(** C4: (1) when a user without the admin flag sends a burst of requests
    that starts a window at [t0] and stays inside it, the limiter lets the
    first 20 pass and answers every further one with status 429 and the
    reset time, one minute after that request; after the window has ended
    the next request passes again. (2) At the route: a request of such a
    user whose window is running with 20 or more counted requests is
    answered 429 with that body and nothing is stored. (3) A request of an
    admin is never answered 429 and is not counted. *)
Theorem rate_limiter_window :
  (forall id user cs e0 envs,
     isAdmin user = false ->
     (forall w, cs !! id = Some w -> resetTime w ≤ now e0) ->
     Forall (fun e => now e < now e0 + windowMs) envs ->
     (forall i e, (e0 :: envs) !! i = Some e ->
        (runLimiter id user (e0 :: envs) cs).1 !! i =
          Some (if decide (i < 20)%nat
                then Next (Some (19 - Z.of_nat i))
                else Respond 429
                       (BTooManyRequests "Too many requests, please try again in a minute."
                          0 (now e + 60000))))
     ∧ (forall e', now e0 + windowMs ≤ now e' ->
          (createUserRateLimiter e' id user (runLimiter id user (e0 :: envs) cs).2).1
          = Next (Some 19)))
  ∧ (forall env req sv id user w,
       bodyAccepted req ->
       route req = PostProcessImage ->
       authenticateUser req (store sv) = Next (id, user) ->
       isAdmin user = false ->
       counters sv !! id = Some w -> now env < resetTime w -> 20 ≤ hits w ->
       status (handle env req sv).1 = 429
       ∧ body (handle env req sv).1 =
           BTooManyRequests "Too many requests, please try again in a minute."
             0 (now env + 60000)
       ∧ store (handle env req sv).2 = store sv)
  ∧ (forall env req sv id user,
       authenticateUser req (store sv) = Next (id, user) ->
       isAdmin user = true ->
       status (handle env req sv).1 ≠ 429
       ∧ counters (handle env req sv).2 = counters sv).
Proof.
  split; [|split].
  - intros id user cs e0 envs Hadmin Hold Hall.
    pose proof (createUserRateLimiter_new_window e0 id user cs Hadmin Hold) as H0.
    destruct (runLimiter_in_window id user envs
                (<[id := {| hits := 1; resetTime := now e0 + windowMs |}]> cs)
                {| hits := 1; resetTime := now e0 + windowMs |} Hadmin)
      as (Hrs & w' & Hw' & Hreset & _); [by rewrite lookup_insert_eq|done|].
    simpl in *. rewrite H0. simpl. split.
    + intros [|i] e Hi; simpl in *.
      * done.
      * rewrite Hrs, list_lookup_imap, Hi. simpl. f_equal.
        unfold decisionAt.
        destruct (20 <? 1 + Z.of_nat i + 1) eqn:E; case_decide; try done;
          [apply Z.ltb_lt in E; lia | | apply Z.ltb_ge in E; lia].
        do 2 f_equal. lia.
    + intros e' He'.
      rewrite createUserRateLimiter_new_window; [done|done|].
      intros w Hw. rewrite Hw' in Hw. injection Hw as <-. lia.
  - intros env req sv id user w Hbody Hroute Hauth Hadmin Hw Hlive Hhits.
    unfold handle. rewrite (dispatch_accepted _ _ _ Hbody). unfold routes.
    rewrite Hroute, Hauth. simpl.
    rewrite (createUserRateLimiter_in_window _ _ _ _ _ Hadmin Hw Hlive).
    unfold decisionAt. destruct (20 <? hits w + 1) eqn:E; [done|].
    apply Z.ltb_ge in E. lia.
  - intros env req sv id user Hauth Hadmin.
    pose proof (authenticateUser_Next _ _ _ _ Hauth) as [Hu _].
    unfold handle, dispatch. destruct (jsonBody req); [done|].
    unfold routes. rewrite Hauth.
    unfold createUserRateLimiter, requireAdmin. rewrite Hu, Hadmin.
    destruct (route req); simpl; try done.
    + split; [|done]. apply createUser_status.
    + split; [|done]. apply processImageHandler_status.
    + split; [|done]. unfold getLogs.
      by destruct (selectLogs id req (store sv)), (buildQuery id req), (pageOf req), (limitOf req).
Qed.

(** On a response object that carried the data, the [send] wrapper would
    set the limit header to "30", before anything in it can throw. *)
Lemma rateLimitHeaders_limit env info h :
  rateLimitHeaders env (Some info) h !! "X-RateLimit-Limit"%string = Some "30"%string.
Proof.
  unfold rateLimitHeaders.
  destruct (Z.abs _ <=? maxTime);
    repeat (rewrite lookup_insert_ne by done); apply lookup_insert_eq.
Qed.

(** No answer of the server gets a header from the wrapper. *)
Lemma handle_headers env req sv : headers (handle env req sv).1 = ∅.
Proof. reflexivity. Qed.

End RateLimiting.

Section RateLimitingRuns.
#[local] Existing Instances Ref.number Ref.host.

(** Alice sends 22 requests between time 1000 and 1021, then one at
    61000: the twentieth passes with nothing remaining, the twenty-first
    is refused, the one after the window passes. *)
Lemma rate_limiter_window_witness :
  (runLimiter 2%N alice (envAt 1000 :: burst) ∅).1 !! 19%nat = Some (Next (Some 0))
  ∧ (runLimiter 2%N alice (envAt 1000 :: burst) ∅).1 !! 20%nat
    = Some (Respond 429
              (BTooManyRequests "Too many requests, please try again in a minute."
                 0 61020))
  ∧ (createUserRateLimiter (envAt 61000) 2%N alice
       (runLimiter 2%N alice (envAt 1000 :: burst) ∅).2).1 = Next (Some 19)
  ∧ status (handle (envAt 2000) (request PostProcessImage (Some "key_alice") (File "image"))
              {| store := exampleStore;
                 counters := {[ 2%N := {| hits := 20; resetTime := 61000 |} ]} |}).1 = 429
  ∧ status (handle (envAt 2000) (request PostProcessImage (Some "key_admin") NoFile)
              exampleServer).1 ≠ 429.
Proof.
  destruct (@rate_limiter_window Ref.number Ref.host) as (Hburst & Hroute & Hadmin).
  destruct (Hburst 2%N alice ∅ (envAt 1000) burst) as (Hdec & Hafter).
  - reflexivity.
  - intros w Hw. rewrite lookup_empty in Hw. discriminate.
  - apply Forall_forall. intros e He.
    apply list_elem_of_fmap in He as (t & -> & Ht).
    apply elem_of_seqZ in Ht. simpl. unfold windowMs. lia.
  - pose proof (Hdec 19%nat (envAt 1019) eq_refl) as H19.
    pose proof (Hdec 20%nat (envAt 1020) eq_refl) as H20.
    rewrite decide_True in H19 by lia. rewrite decide_False in H20 by lia.
    split; [exact H19|]. split; [exact H20|].
    split; [apply Hafter; simpl; unfold windowMs; lia|].
    split.
    + apply (Hroute (envAt 2000) _ _ 2%N alice {| hits := 20; resetTime := 61000 |});
        try reflexivity; try discriminate; simpl; lia.
    + apply (Hadmin (envAt 2000) _ _ 1%N admin); reflexivity.
Defined.

(** C10 fails on the code: Alice's submission is answered 200 with the
    rate-limit data of the handler in its body (19 requests remaining),
    and her twenty-first request of a window is answered 429 with 0
    remaining; the [send] wrapper gives neither answer the header
    X-RateLimit-Limit. It looks for the data on the response object,
    where nothing puts them (the handler reads them from the request,
    line 1066), so its three [setHeader] calls never run. *)
Theorem limited_answers_have_no_limit_header :
  let passed :=
    (handle envOther (request PostProcessImage (Some "key_alice") (File "image"))
       exampleServer).1 in
  let refused :=
    (handle (envAt 2000) (request PostProcessImage (Some "key_alice") (File "image"))
       {| store := exampleStore;
          counters := {[ 2%N := {| hits := 20; resetTime := 61000 |} ]} |}).1 in
  status passed = 200
  ∧ (exists data, body passed = BProcessed data 19 (now envOther + 60000))
  ∧ headers passed !! "X-RateLimit-Limit"%string = None
  ∧ status refused = 429
  ∧ body refused
    = BTooManyRequests "Too many requests, please try again in a minute." 0 62000
  ∧ headers refused !! "X-RateLimit-Limit"%string = None.
Proof.
  split; [reflexivity|]. split; [eexists; reflexivity|].
  split; [reflexivity|]. split; [reflexivity|]. split; reflexivity.
Qed.

(** The three headers the wrapper would set on a response object that
    carried the data. *)
Example rateLimitHeaders_ex :
  let h := rateLimitHeaders (envAt 1718150400000)
             (Some {| rl_remaining := Some 5; rl_resetTime := None |}) ∅ in
  (h !! "X-RateLimit-Limit"%string, h !! "X-RateLimit-Remaining"%string,
   h !! "X-RateLimit-Reset"%string)
  = (Some "30"%string, Some "5"%string, Some "2024-06-12T00:01:00.000Z"%string).
Proof. vm_compute. reflexivity. Qed.

End RateLimitingRuns.

(** * Further properties of the code *)

(** ** The twelve-digit scan (line 846) *)

Lemma digitsPrefix_spec k s d rest :
  Str.digitsPrefix k s = Some (d, rest) ->
  onlyDigits d = true ∧ String.length s = (k + String.length rest)%nat.
Proof.
  revert s d rest. induction k as [|k IH]; intros s d rest; simpl.
  - by intros [= <- <-].
  - destruct s as [|c r]; [discriminate|].
    destruct (Str.isDigit c) eqn:Hc; [|discriminate].
    destruct (Str.digitsPrefix k r) as [[d' rest']|] eqn:E; [|discriminate].
    intros [= <- <-]. destruct (IH _ _ _ E) as [Hd Hl]. simpl. by rewrite Hc, Hd, Hl.
Qed.

Lemma matchAt_spec prev s d :
  Str.matchAt prev s = Some d ->
  String.length d = 12%nat ∧ onlyDigits d = true ∧ (12 <= String.length s)%nat.
Proof.
  intros Hm. split; [by eapply matchAt_length|].
  unfold Str.matchAt in Hm. destruct prev; [discriminate|].
  destruct (Str.digitsPrefix 12 s) as [[d' rest]|] eqn:E; [|discriminate].
  destruct (digitsPrefix_spec _ _ _ _ E) as [Hd Hl].
  assert (d' = d) as -> by (destruct rest as [|c ?]; [|destruct (Str.isWordChar c)]; congruence).
  split; [done|]. lia.
Qed.

Lemma scan_digits s : forall prev skip,
  Forall (fun d => String.length d = 12%nat ∧ onlyDigits d = true) (Str.scan prev skip s).
Proof.
  induction s as [|c r IH]; intros prev skip; simpl; [constructor|].
  destruct skip; [|apply IH].
  destruct (Str.matchAt prev (String c r)) eqn:E; [|apply IH].
  constructor; [|apply IH]. apply matchAt_spec in E. tauto.
Qed.

Lemma scan_room s : forall prev skip,
  (12 * length (Str.scan prev skip s) + skip `min` String.length s <= String.length s)%nat.
Proof.
  induction s as [|c r IH]; intros prev skip; simpl; [lia|].
  destruct skip as [|k].
  - destruct (Str.matchAt prev (String c r)) eqn:E.
    + apply matchAt_spec in E as (_ & _ & Hlen). simpl in Hlen.
      specialize (IH (Str.isWordChar c) 11%nat). simpl. lia.
    + specialize (IH (Str.isWordChar c) 0%nat). lia.
  - specialize (IH (Str.isWordChar c) k). lia.
Qed.

(** X1: every match of the scan is a string of exactly twelve decimal
    digits, and the matches do not overlap: twelve times their number is at
    most the length of the text. *)
Theorem matchTwelveDigits_sound s :
  Forall (fun d => String.length d = 12%nat ∧ onlyDigits d = true) (Str.matchTwelveDigits s)
  ∧ (12 * length (Str.matchTwelveDigits s) <= String.length s)%nat.
Proof.
  split; [apply scan_digits|].
  pose proof (scan_room s false 0). unfold Str.matchTwelveDigits. lia.
Qed.

(** ** The pipeline: which UTR, which calls, which failures *)

Section PipelineMore.
Context {JN : JsNumber} {HO : Host}.

Lemma includes_elem l (v : JsValue) :
  includes l v = true -> exists s, v = JStr s ∧ s ∈ l.
Proof.
  destruct v as [| | | |s| |]; simpl; try discriminate.
  intros Hin. apply bool_decide_eq_true in Hin. eauto.
Qed.

(** [find] gives the first sequence that starts with 4. *)
Lemma utrWith4_spec l :
  match utrWith4 l with
  | Some u => exists pre post, l = pre ++ u :: post ∧ Str.startsWith "4" u = true
                ∧ Forall (fun m => Str.startsWith "4" m = false) pre
  | None => Forall (fun m => Str.startsWith "4" m = false) l
  end.
Proof.
  unfold utrWith4. induction l as [|m l IH]; cbn [List.find]; [constructor|].
  destruct (Str.startsWith "4" m) eqn:Hm.
  - exists [], l. repeat split; [done|constructor].
  - destruct (List.find _ l) as [u|].
    + destruct IH as (pre & post & -> & Hu & Hpre).
      exists (m :: pre), post. repeat split; [done|by constructor].
    + by constructor.
Qed.

Lemma chooseUtr_utr first rest (d : JsObject) :
  prop "utr" (chooseUtr (first :: rest) d) =
    if truthy (prop "utr" d) && includes (first :: rest) (prop "utr" d)
    then prop "utr" d
    else JStr (default first (utrWith4 (first :: rest))).
Proof.
  unfold chooseUtr.
  destruct (truthy _), (includes _ _); cbn [negb orb andb]; try done;
    destruct rest; repeat (rewrite prop_insert_ne by done); by rewrite prop_insert_eq.
Qed.

Lemma chooseUtr_other l (d : JsObject) k :
  k ≠ "utr"%string -> k ≠ "utr_alternatives"%string ->
  prop k (chooseUtr l d) = prop k d.
Proof.
  intros H1 H2. unfold chooseUtr. destruct l as [|a [|b l]]; [done| |];
    destruct (_ || _); try done; by repeat (rewrite prop_insert_ne by done).
Qed.

(** X2: when the pipeline runs to its end and the raw text holds at least
    one twelve-digit sequence, the UTR of the result is one of the
    sequences of the raw text, whatever the model answered; when the raw
    text holds none, the UTR is the model's answer, untouched. *)
Theorem processImage_utr_from_raw_text env img raw reply answer d calls :
  generateContent env (ImageRequest img rawTextPrompt) = Some raw ->
  generateContent env (extractionRequest (Str.trim raw)) = Some reply ->
  parseAnswer reply = Some answer ->
  processImageTry env img [] = (Some d, calls) ->
  match Str.matchTwelveDigits (Str.trim raw) with
  | [] => prop "utr" d = prop "utr" answer
  | _ :: _ => exists u, u ∈ Str.matchTwelveDigits (Str.trim raw) ∧ prop "utr" d = JStr u
  end.
Proof.
  intros Hraw Hreply Hans Htry.
  rewrite (processImageTry_parsed _ _ _ _ _ Hraw Hreply Hans) in Htry.
  destruct (verifyAmount _ _ _ _) as [[d1|] calls1] eqn:Hv; [|discriminate].
  injection Htry as <- <-.
  pose proof (verifyAmount_other _ _ _ _ _ _ "utr" Hv) as Hutr.
  destruct (Str.matchTwelveDigits (Str.trim raw)) as [|first rest] eqn:Hm.
  - simpl. by apply Hutr.
  - rewrite chooseUtr_utr.
    destruct (truthy _ && includes _ _) eqn:E.
    + apply andb_true_iff in E as [_ Hin]. apply includes_elem in Hin as (s & Hs & Hin).
      exists s. by rewrite Hs.
    + pose proof (utrWith4_spec (first :: rest)) as Hspec.
      destruct (utrWith4 (first :: rest)) as [u|]; simpl.
      * destruct Hspec as (pre & post & Hl & _). exists u. split; [|done].
        rewrite Hl. apply elem_of_app. right. left.
      * exists first. split; [left|done].
Qed.

(** X3: when the model's UTR is missing or is none of the sequences of the
    raw text, the pipeline takes the first sequence that starts with 4,
    or the first sequence when none does; with more than one sequence it
    records all the others, and never the chosen one, as alternatives. *)
Theorem chooseUtr_override first rest (d : JsObject) :
  truthy (prop "utr" d) && includes (first :: rest) (prop "utr" d) = false ->
  exists u,
    prop "utr" (chooseUtr (first :: rest) d) = JStr u
    ∧ ((exists pre post, first :: rest = pre ++ u :: post
                         ∧ Str.startsWith "4" u = true
                         ∧ Forall (fun m => Str.startsWith "4" m = false) pre)
       ∨ (Forall (fun m => Str.startsWith "4" m = false) (first :: rest) ∧ u = first))
    ∧ (rest ≠ [] ->
       exists others, prop "utr_alternatives" (chooseUtr (first :: rest) d)
                        = JArr (JStr <$> others)
                      ∧ (u ∉ others)
                      ∧ forall m, m ∈ others <-> (m ∈ (first :: rest) ∧ m ≠ u))
    ∧ (rest = [] ->
       prop "utr_alternatives" (chooseUtr [first] d) = prop "utr_alternatives" d).
Proof.
  intros Hover. exists (default first (utrWith4 (first :: rest))).
  split; [by rewrite chooseUtr_utr, Hover|]. split; [|split].
  - pose proof (utrWith4_spec (first :: rest)) as Hspec.
    destruct (utrWith4 (first :: rest)) as [u|]; simpl; [left|right]; done.
  - intros Hrest. unfold chooseUtr.
    assert ((negb (truthy (prop "utr" d))
             || negb (includes (first :: rest) (prop "utr" d))) = true) as ->
      by (by rewrite <- negb_andb, Hover).
    destruct rest as [|second rest]; [done|].
    rewrite prop_insert_eq. eexists. split; [done|]. split.
    + rewrite list_elem_of_filter. tauto.
    + intros m. rewrite list_elem_of_filter. tauto.
  - intros ->. unfold chooseUtr.
    destruct (_ || _); [|done]. by rewrite prop_insert_ne by done.
Qed.

Lemma verifyAmount_cases env rawText (d : JsObject) calls :
  (verifyAmount env rawText d calls = (Some d, calls)
   ∧ (truthy (prop "amount_in_inr" d) = false
      ∨ exists a, prop "amount_in_inr" d = JStr a
                  ∧ numGt (parseFloat (Str.removeCommas a)) (numOfZ 100000) = false))
  ∨ (verifyAmount env rawText d calls = (None, calls) ∧ unreadableAmount d)
  ∨ (exists a, prop "amount_in_inr" d = JStr a ∧ a ≠ EmptyString
               ∧ numGt (parseFloat (Str.removeCommas a)) (numOfZ 100000) = true
               ∧ (verifyAmount env rawText d calls).2 = calls ++ [verificationRequest rawText a]
               ∧ ((verifyAmount env rawText d calls).1 = None
                  <-> generateContent env (verificationRequest rawText a) = None)).
Proof.
  destruct (truthy (prop "amount_in_inr" d)) eqn:Ht.
  - destruct (prop "amount_in_inr" d) as [| | | |a| |] eqn:Ha;
      try (right; left; split;
           [unfold verifyAmount; by rewrite Ha, Ht
           |split; [by rewrite Ha|by rewrite Ha]]).
    assert (a ≠ EmptyString) as Hne by (by destruct a).
    destruct (numGt (parseFloat (Str.removeCommas a)) (numOfZ 100000)) eqn:Hgt.
    + right; right. exists a. repeat split; try done;
        rewrite (verifyAmount_above _ _ _ _ _ Ha Hne Hgt); simpl; try done;
        by destruct (generateContent _ _).
    + left. split; [by apply (verifyAmount_below _ _ _ a)|]. right. eauto.
  - left. split; [|by left]. unfold verifyAmount. by rewrite Ht.
Qed.

Lemma processImageTry_fails env img :
  PipelineFails env img -> (processImageTry env img []).1 = None.
Proof.
  intros [H1|raw H1 H2|raw reply H1 H2 H3|raw reply answer H1 H2 H3 H4
         |raw reply answer a H1 H2 H3 H4 H5 H6 H7].
  - unfold processImageTry, mbind, Gen_bind, callModel. by rewrite H1.
  - unfold processImageTry, mbind, Gen_bind, callModel. rewrite H1. simpl. by rewrite H2.
  - unfold processImageTry, mbind, Gen_bind, callModel.
    rewrite H1. simpl. rewrite H2. simpl. by rewrite H3.
  - rewrite (processImageTry_parsed _ _ _ _ _ H1 H2 H3). destruct H4 as [Ht Hns].
    destruct (verifyAmount_cases env (Str.trim raw) answer
                [ImageRequest img rawTextPrompt; extractionRequest (Str.trim raw)])
      as [(_ & [Hf|(a & Ha & _)])|[(-> & _)|(a & Ha & _)]];
      [congruence|by apply Hns in Ha|done|by apply Hns in Ha].
  - rewrite (processImageTry_parsed _ _ _ _ _ H1 H2 H3).
    destruct (verifyAmount_cases env (Str.trim raw) answer
                [ImageRequest img rawTextPrompt; extractionRequest (Str.trim raw)])
      as [(_ & [Hf|(a' & Ha' & Hle)])|[(_ & _ & Hns)|(a' & Ha' & _ & _ & _ & Hnone)]].
    + rewrite H4 in Hf. simpl in Hf. by destruct a.
    + rewrite H4 in Ha'. injection Ha' as <-. congruence.
    + by apply Hns in H4.
    + rewrite H4 in Ha'. injection Ha' as <-. apply Hnone in H7.
      by destruct (verifyAmount _ _ _ _) as [[d1|] calls1]; simpl in *.
Qed.

Lemma processImage_fails env img :
  PipelineFails env img -> (processImage env img).1 = pipelineError.
Proof.
  intros Hf. apply processImageTry_fails in Hf.
  unfold processImage. destruct (processImageTry env img []) as [[d|] calls]; [discriminate|done].
Qed.

(** X4: the [try] block of [processImage] throws in exactly five cases:
    one of the three calls to the model fails, [JSON.parse] rejects the
    answer, or the answer's amount is truthy without being a string (a
    JSON number, say); [processImage] then returns the error object of its
    [catch] block. *)
Theorem processImage_failures env img :
  (PipelineFails env img <-> (processImageTry env img []).1 = None)
  ∧ (PipelineFails env img -> (processImage env img).1 = pipelineError).
Proof.
  split; [split; [apply processImageTry_fails|]|apply processImage_fails].
  destruct (generateContent env (ImageRequest img rawTextPrompt)) as [raw|] eqn:Hraw;
    [|intros _; by apply FirstCallFails].
  destruct (generateContent env (extractionRequest (Str.trim raw))) as [reply|] eqn:Hreply;
    [|intros _; by eapply SecondCallFails].
  destruct (parseAnswer reply) as [answer|] eqn:Hans;
    [|intros _; by eapply ParseFails].
  rewrite (processImageTry_parsed _ _ _ _ _ Hraw Hreply Hans).
  destruct (verifyAmount_cases env (Str.trim raw) answer
              [ImageRequest img rawTextPrompt; extractionRequest (Str.trim raw)])
    as [(Hv & _)|[(_ & Hbad)|(a & Ha & Hne & Hgt & _ & Hnone)]].
  - by rewrite Hv.
  - intros _. by eapply AmountUnreadable.
  - intros Hthird. eapply ThirdCallFails; eauto. apply Hnone.
    by destruct (verifyAmount _ _ _ _) as [[d1|] calls1].
Qed.

(** X5: [processImage] calls the model at least once and at most three
    times, in a fixed order, each call only after the one before it was
    answered: the image; then the extraction; then the verification,
    which is made exactly when the answer to the extraction parses and its
    amount is a string above the threshold. *)
Theorem processImage_calls env img :
  match generateContent env (ImageRequest img rawTextPrompt) with
  | None => (processImage env img).2 = [ImageRequest img rawTextPrompt]
  | Some raw =>
      match generateContent env (extractionRequest (Str.trim raw)) with
      | None =>
          (processImage env img).2
          = [ImageRequest img rawTextPrompt; extractionRequest (Str.trim raw)]
      | Some reply =>
          ((processImage env img).2
             = [ImageRequest img rawTextPrompt; extractionRequest (Str.trim raw)]
           ∧ forall answer a, parseAnswer reply = Some answer -> ~ aboveThreshold answer a)
          ∨ (exists answer a,
               parseAnswer reply = Some answer
               ∧ aboveThreshold answer a
               ∧ (processImage env img).2
                 = [ImageRequest img rawTextPrompt; extractionRequest (Str.trim raw);
                    verificationRequest (Str.trim raw) a])
      end
  end.
Proof.
  unfold processImage.
  destruct (generateContent env (ImageRequest img rawTextPrompt)) as [raw|] eqn:Hraw.
  2: { unfold processImageTry, mbind, Gen_bind, callModel. by rewrite Hraw. }
  destruct (generateContent env (extractionRequest (Str.trim raw))) as [reply|] eqn:Hreply.
  2: { unfold processImageTry, mbind, Gen_bind, callModel.
       rewrite Hraw. simpl. by rewrite Hreply. }
  destruct (parseAnswer reply) as [answer|] eqn:Hans.
  2: { left. split; [|discriminate].
       unfold processImageTry, mbind, Gen_bind, callModel.
       rewrite Hraw. simpl. rewrite Hreply. simpl. by rewrite Hans. }
  rewrite (processImageTry_parsed _ _ _ _ _ Hraw Hreply Hans).
  destruct (verifyAmount_cases env (Str.trim raw) answer
              [ImageRequest img rawTextPrompt; extractionRequest (Str.trim raw)])
    as [(Hv & Hok)|[(Hv & _ & Hns)|(a & Ha & Hne & Hgt & Hcalls & _)]].
  - left. rewrite Hv. split; [done|].
    intros answer' a [= <-] (Ha & Hne & Hgt).
    destruct Hok as [Hf|(a' & Ha' & Hle)].
    + rewrite Ha in Hf. simpl in Hf. by destruct a.
    + rewrite Ha in Ha'. injection Ha' as <-. congruence.
  - left. rewrite Hv. split; [done|].
    intros answer' a [= <-] (Ha & _). by apply Hns in Ha.
  - right. exists answer, a. split; [done|]. split; [done|].
    destruct (verifyAmount _ _ _ _) as [[d1|] calls1]; simpl in *; by subst.
Qed.

End PipelineMore.

(** ** POST /api/process-image: failures and what they leave behind *)

Section SubmissionMore.
Context {JN : JsNumber} {HO : Host}.

Lemma handle_submits env req sv id buf cs :
  submits env req sv id buf cs ->
  exists remaining,
    dispatch env req sv =
      withStore {| store := store sv; counters := cs |}
                (processImageHandler env id remaining req (store sv)).
Proof.
  intros (Hbody & Hroute & (user & remaining & Hauth & Hlimit) & _).
  exists remaining. rewrite (dispatch_accepted _ _ _ Hbody).
  unfold routes. by rewrite Hroute, Hauth, Hlimit.
Qed.

Lemma handle_error_result env req sv id buf cs :
  submits env req sv id buf cs ->
  truthy (prop "error" (processImage env buf).1) = true ->
  status (handle env req sv).1 = 500
  ∧ body (handle env req sv).1 = BError (prop "error" (processImage env buf).1)
  ∧ (handle env req sv).2 = {| store := store sv; counters := cs |}.
Proof.
  intros Hsub Herr. destruct (handle_submits _ _ _ _ _ _ Hsub) as [remaining Hd].
  destruct Hsub as (_ & _ & _ & Hfile).
  unfold handle. rewrite Hd. unfold processImageHandler. by rewrite Hfile, Herr.
Qed.

Lemma processImage_no_json env img raw reply :
  generateContent env (ImageRequest img rawTextPrompt) = Some raw ->
  generateContent env (extractionRequest (Str.trim raw)) = Some reply ->
  Str.matchBraces reply = None ->
  prop "error" (processImage env img).1
  = JStr "Failed to extract structured data from the text.".
Proof.
  intros Hraw Hreply Hno.
  assert (parseAnswer reply = Some extractionError) as Hans
    by (unfold parseAnswer; by rewrite Hno).
  unfold processImage. rewrite (processImageTry_parsed _ _ _ _ _ Hraw Hreply Hans).
  assert (verifyAmount env (Str.trim raw) extractionError
            [ImageRequest img rawTextPrompt; extractionRequest (Str.trim raw)]
          = (Some extractionError,
             [ImageRequest img rawTextPrompt; extractionRequest (Str.trim raw)])) as ->
    by reflexivity.
  simpl. by rewrite chooseUtr_other.
Qed.

(** X6: a submission whose pipeline throws is answered 500 with the
    generic message, and one whose answer from the model holds no
    brace-delimited text is answered 500 with the message of the failed
    extraction, also when the raw text holds twelve-digit sequences; in
    both cases nothing is written to the store. *)
Theorem process_image_error_answers env req sv id buf cs :
  submits env req sv id buf cs ->
  (PipelineFails env buf ->
     status (handle env req sv).1 = 500
     ∧ body (handle env req sv).1
       = BError (JStr "An error occurred while processing the image.")
     ∧ (handle env req sv).2 = {| store := store sv; counters := cs |})
  ∧ (forall raw reply,
       generateContent env (ImageRequest buf rawTextPrompt) = Some raw ->
       generateContent env (extractionRequest (Str.trim raw)) = Some reply ->
       Str.matchBraces reply = None ->
       status (handle env req sv).1 = 500
       ∧ body (handle env req sv).1
         = BError (JStr "Failed to extract structured data from the text.")
       ∧ (handle env req sv).2 = {| store := store sv; counters := cs |}).
Proof.
  intros Hsub. split.
  - intros Hf. apply processImage_fails in Hf.
    destruct (handle_error_result _ _ _ _ _ _ Hsub) as (H1 & H2 & H3);
      [by rewrite Hf|]. by rewrite H1, H2, H3, Hf.
  - intros raw reply Hraw Hreply Hno.
    pose proof (processImage_no_json _ _ _ _ Hraw Hreply Hno) as Herr.
    destruct (handle_error_result _ _ _ _ _ _ Hsub) as (H1 & H2 & H3);
      [by rewrite Herr|]. by rewrite H1, H2, H3, Herr.
Qed.

(** The outcomes of the handler of POST /api/process-image, by what they
    write. *)
Lemma processImageHandler_writes env id remaining req st :
  let r := processImageHandler env id remaining req st in
  (r.1.1 ≠ 200 ∧ r.2 = st)
  ∨ (r.1.1 = 500
     ∧ exists d t, newTransaction env id d = Some t ∧ newLog env id d = None
                   ∧ r.2 = {| users := users st; transactions := transactions st ++ [t];
                              logs := logs st |})
  ∨ (r.1.1 = 200
     ∧ exists d t l, newTransaction env id d = Some t ∧ newLog env id d = Some l
                     ∧ r.2 = {| users := alter incRequestCount id (users st);
                                transactions := transactions st ++ [t];
                                logs := logs st ++ [l] |}).
Proof.
  unfold processImageHandler.
  destruct (upload req) as [| buf |]; simpl; try (by left).
  destruct (truthy _); simpl; [by left|].
  destruct (newTransaction _ _ _) as [t|] eqn:Ht; simpl; [|by left].
  destruct (newLog _ _ _) as [l|] eqn:Hl; simpl.
  - right; right. split; [done|]. eauto 10.
  - right; left. split; [done|]. eauto 10.
Qed.

(** X7: a request to POST /api/process-image that is not answered 200
    writes no log and leaves every user document, hence every
    [requestCount], as it was; it writes no transaction either, except that
    an answer 500 can leave exactly one transaction of the caller behind:
    the transaction is saved before the log, and the save of the log can
    fail. *)
Theorem process_image_failure_writes env req sv :
  route req = PostProcessImage ->
  status (handle env req sv).1 ≠ 200 ->
  users (store (handle env req sv).2) = users (store sv)
  ∧ logs (store (handle env req sv).2) = logs (store sv)
  ∧ (transactions (store (handle env req sv).2) = transactions (store sv)
     ∨ (status (handle env req sv).1 = 500
        ∧ exists id caller t,
            authenticateUser req (store sv) = Next (id, caller)
            ∧ t_userId t = id
            ∧ transactions (store (handle env req sv).2) = transactions (store sv) ++ [t])).
Proof.
  intros Hroute. unfold handle, dispatch.
  destruct (jsonBody req); [by auto|].
  unfold routes. rewrite Hroute. simpl.
  destruct (authenticateUser req (store sv)) as [code b|[id caller]] eqn:Hauth; [by auto|].
  destruct (createUserRateLimiter env id caller (counters sv))
    as [[code b|remaining] cs] eqn:Hlimit; [by auto|].
  simpl. intros Hne.
  destruct (processImageHandler_writes env id remaining req (store sv))
    as [(_ & ->)|[(H500 & d & t & Ht & _ & ->)|(H200 & _)]]; simpl in *.
  - auto.
  - repeat split; try done. right. split; [done|].
    exists id, caller, t. eauto using newTransaction_userId.
  - done.
Qed.

(** X8: when a submission is answered 200 and the UTR that [processImage]
    returned is a string or is absent, the log that was written holds a
    UTR of twelve characters or the marker N/A; it holds the marker when
    the UTR was absent or the empty string. *)
Theorem process_image_log_utr env req sv buf :
  route req = PostProcessImage ->
  upload req = File buf ->
  status (handle env req sv).1 = 200 ->
  prop "utr" (processImage env buf).1 = JUndefined
  ∨ (exists s, prop "utr" (processImage env buf).1 = JStr s) ->
  exists l s,
    logs (store (handle env req sv).2) = logs (store sv) ++ [l]
    ∧ utr (processingData l) = JStr s
    ∧ (Str.len s = 12 ∨ s = "N/A"%string)
    ∧ (prop "utr" (processImage env buf).1 = JUndefined
       ∨ prop "utr" (processImage env buf).1 = JStr EmptyString ->
       s = "N/A"%string).
Proof.
  intros Hroute Hfile. unfold handle, dispatch.
  destruct (jsonBody req); [simpl; lia|].
  unfold routes. rewrite Hroute. simpl.
  destruct (authenticateUser req (store sv)) as [code b|[id caller]] eqn:Hauth.
  { simpl. apply authenticateUser_Respond in Hauth. lia. }
  destruct (createUserRateLimiter env id caller (counters sv))
    as [[code b|remaining] cs] eqn:Hlimit.
  { simpl. apply createUserRateLimiter_Respond in Hlimit. lia. }
  simpl. unfold processImageHandler. rewrite Hfile.
  destruct (truthy (prop "error" _)); simpl; [lia|].
  destruct (newTransaction _ _ _) as [t|]; simpl; [|lia].
  destruct (newLog _ _ _) as [l|] eqn:Hl; simpl; [|lia].
  intros _ Hutr. exists l.
  assert (exists s, jsOr (prop "utr" (normalizeUtr (processImage env buf).1)) (JStr "N/A")
                    = JStr s ∧ (Str.len s = 12 ∨ s = "N/A"%string)
                    ∧ (prop "utr" (processImage env buf).1 = JUndefined
                       ∨ prop "utr" (processImage env buf).1 = JStr EmptyString ->
                       s = "N/A"%string)) as (s & Hs & Hlen & Hmark).
  { destruct Hutr as [Hu|[s Hs]].
    - exists "N/A"%string. unfold normalizeUtr. rewrite Hu. simpl. rewrite Hu. auto.
    - rewrite (normalizeUtr_string _ _ Hs).
      destruct (Str.isEmpty s) eqn:He; [exists "N/A"%string; destruct s; [auto|done]|].
      destruct (Str.len s =? 12) eqn:E12.
      + exists s. apply Z.eqb_eq in E12. destruct s; [done|].
        split; [done|]. split; [auto|]. rewrite Hs. by intros [?|?].
      + exists "N/A"%string. auto. }
  exists s. split; [done|]. split; [|done].
  unfold newLog in Hl. rewrite Hs, castString_str in Hl.
  destruct (castString (jsOr (prop "date" _) _)); simpl in Hl; [|discriminate].
  destruct (castString (jsOr (prop "amount_in_inr" _) _)); simpl in Hl; [|discriminate].
  destruct (castBoolean _); simpl in Hl; [|discriminate].
  by injection Hl as <-.
Qed.

End SubmissionMore.

(** ** The store over time *)

Section StoreOverTime.
Context {JN : JsNumber} {HO : Host}.

Lemma insertUser_Some id u us us' :
  insertUser id u us = Some us' ->
  us !! id = None
  ∧ map_Forall (fun _ v => apiKey v ≠ apiKey u ∧ email v ≠ email u) us
  ∧ us' = <[id := u]> us.
Proof.
  unfold insertUser. case_decide as Hd; [|discriminate].
  intros [= <-]. tauto.
Qed.

Lemma createUser_step env req st : StoreStep st (createUser env req st).2.
Proof.
  unfold createUser.
  destruct (requiredString (b_name req)) as [n|]; [|by apply StepNone].
  destruct (requiredString (b_email req)) as [e|]; [|by apply StepNone].
  destruct (insertUser _ _ _) as [us|] eqn:Hins; [|by apply StepNone].
  apply insertUser_Some in Hins as (Hfresh & Huniq & ->).
  destruct (mailAccepted env);
    (refine (StepUser _ _ _ _ Hfresh _ _ Huniq _); reflexivity).
Qed.

Lemma processImageHandler_step env id caller remaining req st :
  users st !! id = Some caller ->
  StoreStep st (processImageHandler env id remaining req st).2.
Proof.
  intros Hc.
  destruct (processImageHandler_writes env id remaining req st)
    as [(_ & ->)|[(_ & d & t & Ht & _ & ->)|(_ & d & t & l & Ht & Hl & ->)]].
  - by apply StepNone.
  - eapply StepTransaction; eauto using newTransaction_userId.
  - eapply StepSubmission; eauto using newTransaction_userId, newLog_userId.
    by rewrite (alter_alt_Some _ _ _ _ Hc).
Qed.

Lemma getLogs_store id req st : (getLogs id req st).2 = st.
Proof.
  unfold getLogs.
  by destruct (selectLogs id req st), (buildQuery id req), (pageOf req), (limitOf req).
Qed.

(** Every request changes the store in one of the four ways. *)
Lemma handle_step env req sv : StoreStep (store sv) (store (handle env req sv).2).
Proof.
  unfold handle, dispatch. destruct (jsonBody req); [by apply StepNone|].
  unfold routes.
  destruct (route req) eqn:Hroute; try (by apply StepNone);
    (destruct (authenticateUser req (store sv)) as [code b|[id user]] eqn:Hauth;
     [by apply StepNone|]);
    pose proof (authenticateUser_Next _ _ _ _ Hauth) as [Hu _].
  - destruct (requireAdmin id (store sv)); [by apply StepNone|]. apply createUser_step.
  - destruct (requireAdmin id (store sv)); by apply StepNone.
  - destruct (createUserRateLimiter env id user (counters sv)) as [[code b|remaining] cs];
      [by apply StepNone|]. by eapply processImageHandler_step.
  - simpl. rewrite getLogs_store. by apply StepNone.
Qed.

Lemma StoreStep_old_users st st' id u :
  StoreStep st st' -> users st !! id = Some u ->
  exists u', users st' !! id = Some u'
             ∧ apiKey u' = apiKey u ∧ name u' = name u ∧ email u' = email u
             ∧ isAdmin u' = isAdmin u ∧ createdAt u' = createdAt u
             ∧ requestCount u ≤ requestCount u' ≤ requestCount u + 1.
Proof.
  intros [->|i v Hfresh _ _ _ ->|i caller t Hc _ ->|i caller t l Hc _ _ ->] Hu; simpl.
  - exists u. repeat split; try done; lia.
  - exists u. rewrite lookup_insert_ne by congruence. repeat split; try done; lia.
  - exists u. repeat split; try done; lia.
  - destruct (decide (i = id)) as [->|Hne].
    + exists (incRequestCount caller). rewrite lookup_insert_eq.
      assert (u = caller) as -> by congruence. simpl. repeat split; try done; lia.
    + exists u. rewrite lookup_insert_ne by done. repeat split; try done; lia.
Qed.

Lemma StoreStep_new_users st st' id u' :
  StoreStep st st' -> users st' !! id = Some u' -> users st !! id = None ->
  isAdmin u' = false ∧ requestCount u' = 0.
Proof.
  intros [->|i v Hfresh Hadm Hcnt _ ->|i caller t Hc _ ->|i caller t l Hc _ _ ->];
    simpl; intros Hu' Hnone; try congruence.
  - destruct (decide (i = id)) as [->|Hne].
    + rewrite lookup_insert_eq in Hu'. by injection Hu' as <-.
    + rewrite lookup_insert_ne in Hu' by done. congruence.
  - destruct (decide (i = id)) as [->|Hne]; [congruence|].
    rewrite lookup_insert_ne in Hu' by done. congruence.
Qed.

Lemma StoreStep_grows st st' :
  StoreStep st st' ->
  transactions st `prefix_of` transactions st' ∧ logs st `prefix_of` logs st'.
Proof.
  intros [->|i v _ _ _ _ ->|i caller t _ _ ->|i caller t l _ _ _ ->]; simpl;
    split; try done; by apply prefix_app_r.
Qed.

(** X9: whatever the request, no user document is deleted, and a user
    document changes in its [requestCount] only, which rises by at most
    one; a user document that is new has no admin flag and the count 0;
    the transactions and the logs only grow at their end. *)
Theorem handle_keeps_records env req sv :
  (forall id u, users (store sv) !! id = Some u ->
     exists u', users (store (handle env req sv).2) !! id = Some u'
                ∧ apiKey u' = apiKey u ∧ name u' = name u ∧ email u' = email u
                ∧ isAdmin u' = isAdmin u ∧ createdAt u' = createdAt u
                ∧ requestCount u ≤ requestCount u' ≤ requestCount u + 1)
  ∧ (forall id u', users (store (handle env req sv).2) !! id = Some u' ->
       users (store sv) !! id = None -> isAdmin u' = false ∧ requestCount u' = 0)
  ∧ transactions (store sv) `prefix_of` transactions (store (handle env req sv).2)
  ∧ logs (store sv) `prefix_of` logs (store (handle env req sv).2).
Proof.
  pose proof (handle_step env req sv) as Hstep.
  split; [|split].
  - intros id u. by apply StoreStep_old_users.
  - intros id u'. by apply StoreStep_new_users.
  - by apply StoreStep_grows.
Qed.

End StoreOverTime.

(** ** Invariants of the store *)

Section StoreInvariants.
Context {JN : JsNumber} {HO : Host}.

Lemma uniqueUsers_spec (us : gmap ObjectId UserProfile) :
  uniqueUsers us <->
  forall i j u v, us !! i = Some u -> us !! j = Some v ->
    apiKey u = apiKey v ∨ email u = email v -> i = j.
Proof.
  unfold uniqueUsers. split.
  - intros Hu i j u v Hi Hj. exact (Hu i u Hi j v Hj).
  - intros Hu i u Hi j v Hj. by apply (Hu i j u v).
Qed.

Lemma StoreStep_unique st st' :
  StoreStep st st' -> uniqueUsers (users st) -> uniqueUsers (users st').
Proof.
  intros Hstep. rewrite !uniqueUsers_spec. intros Hu.
  destruct Hstep as [->|n new Hfresh _ _ Hnew ->|n caller t Hc _ ->|n caller t l Hc _ _ ->];
    simpl; try done.
  - intros i j u v Hi Hj Heq.
    destruct (decide (i = n)) as [->|Hni]; destruct (decide (j = n)) as [->|Hnj]; try done.
    + rewrite lookup_insert_eq in Hi. rewrite lookup_insert_ne in Hj by done.
      injection Hi as <-. destruct (Hnew j v Hj) as [Hk He].
      destruct Heq as [Heq|Heq]; by rewrite Heq in *.
    + rewrite lookup_insert_eq in Hj. rewrite lookup_insert_ne in Hi by done.
      injection Hj as <-. destruct (Hnew i u Hi) as [Hk He].
      destruct Heq as [Heq|Heq]; by rewrite Heq in *.
    + rewrite lookup_insert_ne in Hi, Hj by done. by apply (Hu i j u v).
  - intros i j u v Hi Hj Heq.
    assert (forall k w, <[n := incRequestCount caller]> (users st) !! k = Some w ->
              exists w', users st !! k = Some w' ∧ apiKey w' = apiKey w ∧ email w' = email w)
      as Hback.
    { intros k w Hk. destruct (decide (n = k)) as [->|Hnk].
      - rewrite lookup_insert_eq in Hk. injection Hk as <-. by exists caller.
      - rewrite lookup_insert_ne in Hk by done. by exists w. }
    destruct (Hback i u Hi) as (u0 & Hi0 & Hk1 & He1).
    destruct (Hback j v Hj) as (v0 & Hj0 & Hk2 & He2).
    apply (Hu i j u0 v0 Hi0 Hj0). congruence.
Qed.

Lemma after_unique e sv :
  uniqueUsers (users (store sv)) -> uniqueUsers (users (store (after e sv))).
Proof.
  destruct e as [env req|t]; simpl; [|done].
  apply StoreStep_unique, handle_step.
Qed.

(** X10: the uniqueness of API keys and of emails among the user
    documents is kept by every request and by the expiry of logs, hence
    along every run of the server. *)
Theorem run_keeps_users_unique events sv :
  uniqueUsers (users (store sv)) -> uniqueUsers (users (store (run events sv))).
Proof.
  unfold run. revert sv. induction events as [|e events IH]; intros sv Hu; simpl; [done|].
  by apply IH, after_unique.
Qed.

Lemma count_snoc {A} (P : A -> Prop) `{forall x, Decision (P x)} (l : list A) (x : A) :
  length (filter P (l ++ [x])) = (length (filter P l) + if decide (P x) then 1 else 0)%nat.
Proof.
  rewrite filter_app, length_app. f_equal.
  rewrite filter_cons, filter_nil. by case_decide.
Qed.

Lemma count_none {A} (P : A -> Prop) `{forall x, Decision (P x)} (l : list A) :
  Forall (fun x => ¬ P x) l -> length (filter P l) = 0%nat.
Proof.
  induction 1 as [|x l Hx _ IH]; [done|].
  rewrite filter_cons. by case_decide.
Qed.

Lemma count_filter_le {A} (P Q : A -> Prop)
    `{forall x, Decision (P x)} `{forall x, Decision (Q x)} (l : list A) :
  (length (filter P (filter Q l)) <= length (filter P l))%nat.
Proof.
  induction l as [|x l IH]; [done|].
  rewrite !filter_cons. repeat case_decide; rewrite ?filter_cons; repeat case_decide;
    simpl; try done; lia.
Qed.

End StoreInvariants.

Section InterleavedStages.
Context {JN : JsNumber} {HO : Host}.

(** Run without interruption, the stages of a submission give the answer
    and the server that [dispatch] gives. *)
Lemma complete_dispatch env req sv s sv1 :
  letIn env req sv = Some (s, sv1) ->
  exists answer st',
    complete 3 s (store sv1) = Some (answer, st')
    ∧ dispatch env req sv = (answer.1, answer.2, {| store := st'; counters := counters sv1 |}).
Proof.
  unfold letIn, dispatch, routes.
  destruct (jsonBody req); [done|]. destruct (route req); try done.
  destruct (authenticateUser req (store sv)) as [code b|[id user]]; [done|].
  destruct (createUserRateLimiter env id user (counters sv)) as [[code b|remaining] cs];
    [done|].
  intros [= <- <-]. simpl. unfold processImageHandler, withStore.
  destruct (upload req) as [|buf|]; simpl; [by eexists _, _ | |by eexists _, _].
  destruct (truthy (prop "error" (processImage env buf).1)); simpl; [by eexists _, _|].
  destruct (newTransaction env id _) as [t|]; simpl; [|by eexists _, _].
  destruct (newLog env id _) as [g|]; simpl; by eexists _, _.
Qed.

Lemma letIn_Some env req sv s sv1 :
  letIn env req sv = Some (s, sv1) ->
  store sv1 = store sv
  ∧ exists id remaining user,
      s = LetIn env id remaining req ∧ users (store sv) !! id = Some user.
Proof.
  unfold letIn.
  destruct (jsonBody req); [done|]. destruct (route req); try done.
  destruct (authenticateUser req (store sv)) as [code b|[id user]] eqn:Hauth; [done|].
  destruct (createUserRateLimiter env id user (counters sv)) as [[code b|remaining] cs];
    [done|].
  intros [= <- <-]. split; [done|]. exists id, remaining, user. split; [done|].
  by apply authenticateUser_Next in Hauth as [? _].
Qed.


Lemma waiting_app f l1 l2 : waiting f (l1 ++ l2) = waiting f l1 + waiting f l2.
Proof. unfold waiting. rewrite List.filter_app, length_app. lia. Qed.

Lemma waiting_cons f s l : waiting f (s :: l) = (if f s then 1 else 0) + waiting f l.
Proof. unfold waiting. simpl. destruct (f s); simpl; lia. Qed.

Lemma waiting_insert f l k s s' :
  l !! k = Some s ->
  waiting f (<[k := s']> l)
  = waiting f l - (if f s then 1 else 0) + (if f s' then 1 else 0).
Proof.
  intros Hk. rewrite insert_take_drop by (by eapply lookup_lt_Some).
  rewrite <- (take_drop_middle l k s Hk) at 3.
  rewrite !waiting_app, !waiting_cons. lia.
Qed.

Lemma waiting_delete f l k s :
  l !! k = Some s -> waiting f (delete k l) = waiting f l - (if f s then 1 else 0).
Proof.
  intros Hk. rewrite delete_take_drop.
  rewrite <- (take_drop_middle l k s Hk) at 3.
  rewrite !waiting_app, !waiting_cons. lia.
Qed.

Lemma waiting_other f l :
  Forall (fun s => f s = false) l -> waiting f l = 0.
Proof.
  induction 1 as [|s l Hs _ IH]; [done|]. rewrite waiting_cons, Hs, IH. lia.
Qed.

Lemma waiting_fresh (us : gmap ObjectId UserProfile) l id :
  Forall (fun s => is_Some (us !! submitter s)) l -> us !! id = None ->
  waiting (awaitsCount id) l = 0 ∧ waiting (awaitsLog id) l = 0.
Proof.
  intros Hl Hfresh. split; apply waiting_other; eapply Forall_impl; try exact Hl;
    intros s [u Hu]; destruct s; simpl in *; try done;
    apply bool_decide_eq_false; intros ->; congruence.
Qed.


Lemma is_Some_insert (us : gmap ObjectId UserProfile) n u i :
  is_Some (us !! i) -> is_Some (<[n := u]> us !! i).
Proof.
  intros Hi. destruct (decide (n = i)) as [->|Hne];
    [by rewrite lookup_insert_eq|by rewrite lookup_insert_ne].
Qed.

Lemma is_Some_alter (us : gmap ObjectId UserProfile) f n i :
  is_Some (us !! i) -> is_Some (alter f n us !! i).
Proof.
  intros [u Hi]. destruct (decide (n = i)) as [->|Hne];
    [by rewrite lookup_alter_eq, Hi|by rewrite lookup_alter_ne, Hi].
Qed.

(** A request handled in one step keeps the accounts, whatever is under
    way. *)
Lemma StoreStep_accounted st st' l :
  StoreStep st st' -> accounted st l -> accounted st' l.
Proof.
  intros Hstep Hacc.
  destruct Hstep as [->|n new Hfresh _ Hzero _ ->|n caller t Hcaller Howner ->
                    |n caller t g Hcaller Htown Hgown ->]; [done|..];
    destruct Hacc as (Ht & Hg & Hs & Hc).
  - split; [|split; [|split]]; simpl.
    + eapply Forall_impl; [exact Ht|]. intros x. apply is_Some_insert.
    + eapply Forall_impl; [exact Hg|]. intros x. apply is_Some_insert.
    + eapply Forall_impl; [exact Hs|]. intros x. apply is_Some_insert.
    + intros i u Hi. unfold countLogs, countTransactions. simpl.
      destruct (decide (n = i)) as [->|Hne].
      * rewrite lookup_insert_eq in Hi. injection Hi as <-. rewrite Hzero.
        destruct (waiting_fresh _ _ _ Hs Hfresh) as [-> ->].
        rewrite Forall_forall in Ht. rewrite Forall_forall in Hg.
        rewrite !count_none; [lia| |].
        -- apply Forall_forall. intros x Hx Hxi. specialize (Ht x Hx).
           rewrite Hxi, Hfresh in Ht. by destruct Ht.
        -- apply Forall_forall. intros x Hx Hxi. specialize (Hg x Hx).
           rewrite Hxi, Hfresh in Hg. by destruct Hg.
      * rewrite lookup_insert_ne in Hi by done. exact (Hc i u Hi).
  - split; [|split; [|split]]; simpl; try done.
    + apply Forall_app. split; [done|]. apply Forall_singleton. by rewrite Howner, Hcaller.
    + intros i u Hi. specialize (Hc i u Hi). unfold countLogs, countTransactions in *.
      simpl. rewrite count_snoc. case_decide; lia.
  - split; [|split; [|split]]; simpl.
    + apply Forall_app. split.
      * eapply Forall_impl; [exact Ht|]. intros x. apply is_Some_insert.
      * apply Forall_singleton. rewrite Htown. by rewrite lookup_insert_eq.
    + apply Forall_app. split.
      * eapply Forall_impl; [exact Hg|]. intros x. apply is_Some_insert.
      * apply Forall_singleton. rewrite Hgown. by rewrite lookup_insert_eq.
    + eapply Forall_impl; [exact Hs|]. intros x. apply is_Some_insert.
    + intros i u Hi. unfold countLogs, countTransactions. simpl.
      rewrite !count_snoc. rewrite Htown, Hgown.
      destruct (decide (n = i)) as [->|Hne].
      * rewrite lookup_insert_eq in Hi. injection Hi as <-. simpl.
        specialize (Hc i caller Hcaller). unfold countLogs, countTransactions in Hc.
        lia.
      * rewrite lookup_insert_ne in Hi by done.
        specialize (Hc i u Hi). unfold countLogs, countTransactions in Hc.
        lia.
Qed.

Lemma expireLogs_accounted t st l : accounted st l -> accounted (expireLogs t st) l.
Proof.
  intros (Ht & Hg & Hs & Hc). split; [|split; [|split]]; simpl; [done| |done|].
  - rewrite Forall_forall in Hg. apply Forall_forall. intros x Hx.
    apply list_elem_of_filter in Hx as [_ Hx]. by apply Hg.
  - intros i u Hi. specialize (Hc i u Hi). unfold countLogs, countTransactions in *. simpl.
    pose proof (count_filter_le (fun g : Log => l_userId g = i)
                  (fun g : Log => t < timestamp g + logRetentionMs) (logs st)). lia.
Qed.

(** A stage of a submission under way keeps the accounts. *)
Lemma advance_accounted st l k s :
  l !! k = Some s ->
  accounted st l ->
  accounted (advance s st).1
            (match (advance s st).2 with
             | inl s' => <[k := s']> l
             | inr _ => delete k l
             end).
Proof.
  intros Hk (Ht & Hg & Hs & Hc).
  assert (is_Some (users st !! submitter s)) as [caller Hcaller]
    by (rewrite Forall_forall in Hs; apply Hs; by eapply list_elem_of_lookup_2).
  assert (forall f, f s = false -> waiting f (delete k l) = waiting f l) as Hdrop
    by (intros f Hf; rewrite (waiting_delete _ _ _ _ Hk), Hf; lia).
  destruct s as [env id remaining req|env id remaining d|env id remaining d];
    simpl in Hcaller |- *.
  - assert (accounted st (delete k l)) as Hquit.
    { split; [done|]. split; [done|]. split; [by apply Forall_delete|].
      intros i u Hi. rewrite !Hdrop by done. exact (Hc i u Hi). }
    destruct (upload req) as [|buf|]; simpl; try done.
    destruct (truthy _); simpl; [done|].
    destruct (newTransaction env id _) as [t|] eqn:Hnew; simpl; [|done].
    apply newTransaction_userId in Hnew.
    split; [|split; [|split]]; simpl; try done.
    + apply Forall_app. split; [done|]. apply Forall_singleton. by rewrite Hnew, Hcaller.
    + apply Forall_insert; [done|]. simpl. by rewrite Hcaller.
    + intros i u Hi. specialize (Hc i u Hi). unfold countLogs, countTransactions in *.
      simpl. rewrite count_snoc, !(waiting_insert _ _ _ _ _ Hk), Hnew. simpl.
      destruct (decide (id = i)) as [->|Hne].
      * rewrite bool_decide_eq_true_2 by done. lia.
      * rewrite bool_decide_eq_false_2 by done. lia.
  - destruct (newLog env id d) as [g|] eqn:Hnew; simpl.
    + apply newLog_userId in Hnew.
      split; [|split; [|split]]; simpl; try done.
      * apply Forall_app. split; [done|]. apply Forall_singleton. by rewrite Hnew, Hcaller.
      * apply Forall_insert; [done|]. simpl. by rewrite Hcaller.
      * intros i u Hi. specialize (Hc i u Hi). unfold countLogs, countTransactions in *.
        simpl. rewrite count_snoc, !(waiting_insert _ _ _ _ _ Hk), Hnew. simpl.
        destruct (decide (id = i)) as [->|Hne].
        -- rewrite !bool_decide_eq_true_2 by done. lia.
        -- rewrite !bool_decide_eq_false_2 by done. lia.
    + split; [done|]. split; [done|]. split; [by apply Forall_delete|].
      intros i u Hi. specialize (Hc i u Hi). simpl in Hc.
      rewrite !(waiting_delete _ _ _ _ Hk). simpl.
      destruct (bool_decide (id = i)); lia.
  - split; [|split; [|split]]; simpl.
    + eapply Forall_impl; [exact Ht|]. intros x. apply is_Some_alter.
    + eapply Forall_impl; [exact Hg|]. intros x. apply is_Some_alter.
    + apply Forall_delete. eapply Forall_impl; [exact Hs|]. intros x. apply is_Some_alter.
    + intros i u Hi. unfold countLogs, countTransactions. simpl.
      rewrite !(waiting_delete _ _ _ _ Hk). simpl.
      destruct (decide (id = i)) as [->|Hne].
      * rewrite lookup_alter_eq, Hcaller in Hi. injection Hi as <-. simpl.
        specialize (Hc i caller Hcaller). unfold countLogs, countTransactions in Hc.
        rewrite !bool_decide_eq_true_2 by done. lia.
      * rewrite lookup_alter_ne in Hi by done. specialize (Hc i u Hi).
        unfold countLogs, countTransactions in Hc.
        rewrite !bool_decide_eq_false_2 by done. lia.
Qed.

Lemma move_accounted m sys :
  accounted (store (server sys)) (underWay sys) ->
  accounted (store (server (move m sys))) (underWay (move m sys)).
Proof.
  intros Hacc. destruct m as [env req|k|t]; simpl.
  - destruct (letIn env req (server sys)) as [[s sv1]|] eqn:Hin; simpl.
    + apply letIn_Some in Hin as (-> & id & remaining & user & -> & Hu).
      destruct Hacc as (Ht & Hg & Hs & Hc).
      split; [done|]. split; [done|]. split.
      * apply Forall_app. split; [done|]. apply Forall_singleton. simpl. by rewrite Hu.
      * intros i u Hi. rewrite !waiting_app, !waiting_cons. simpl.
        specialize (Hc i u Hi). simpl in Hc. unfold waiting at 2 4 6. simpl. lia.
    + apply (StoreStep_accounted (store (server sys))); [apply handle_step|done].
  - destruct (underWay sys !! k) as [s|] eqn:Hk; [|done]. simpl.
    by apply advance_accounted.
  - by apply expireLogs_accounted.
Qed.


Lemma play_accounted moves : forall sys,
  accounted (store (server sys)) (underWay sys) ->
  accounted (store (server (play moves sys))) (underWay (play moves sys)).
Proof.
  unfold play. induction moves as [|m moves IH]; intros sys Hacc; simpl; [done|].
  by apply IH, move_accounted.
Qed.

Lemma waiting_nonneg f l : 0 ≤ waiting f l.
Proof. unfold waiting. lia. Qed.

(** X11: the three writes of a submission are not one step, and the
    accounts of the store hold all the same. Along every interleaving of
    arriving requests, stages of the submissions under way and expiry
    passes, from a consistent store with no submission under way: every
    transaction and every log carries the id of a stored user; for every
    user the logs are at most the stored [requestCount] plus the
    submissions that have saved their log and not yet raised the counter,
    and the counter plus the submissions between their first and their
    last write is at most the transactions; so neither the counter nor
    the logs ever exceed the transactions, and whenever no submission is
    between two writes the store is consistent again. *)
Theorem staged_submissions_keep_accounts moves sys :
  consistent (store (server sys)) ->
  underWay sys = [] ->
  let st := store (server (play moves sys)) in
  let l := underWay (play moves sys) in
  accounted st l
  ∧ map_Forall (fun id u =>
      requestCount u ≤ countTransactions id st
      ∧ countLogs id st ≤ countTransactions id st) (users st)
  ∧ (Forall (fun s => betweenWrites s = false) l -> consistent st).
Proof.
  intros (Ht & Hg & Hc) Hnone st l.
  assert (accounted st l) as Hacc.
  { apply play_accounted. rewrite Hnone.
    split; [done|]. split; [done|]. split; [done|].
    intros i u Hi. specialize (Hc i u Hi). simpl in Hc. unfold waiting. simpl. lia. }
  split; [done|]. destruct Hacc as (Ht' & Hg' & Hs' & Hc'). split.
  - intros i u Hi. specialize (Hc' i u Hi). simpl in Hc'.
    pose proof (waiting_nonneg (awaitsCount i) l).
    pose proof (waiting_nonneg (awaitsLog i) l). lia.
  - intros Hquiet. split; [done|]. split; [done|].
    intros i u Hi. specialize (Hc' i u Hi). simpl in Hc'.
    rewrite !waiting_other in Hc'.
    + lia.
    + eapply Forall_impl; [exact Hquiet|]. by intros [] ?.
    + eapply Forall_impl; [exact Hquiet|]. by intros [] ?.
Qed.

End InterleavedStages.

(** ** Accounts: keys, creation, bootstrap *)

Section Accounts.
Context {JN : JsNumber} {HO : Host}.

(** X12: the three GET routes change nothing: neither the store nor the
    limiter's counters, whatever the request and the answer. *)
Theorem get_routes_change_nothing env req sv :
  route req = GetLogs ∨ route req = GetAdminUsers ∨ route req = GetHealth ->
  (handle env req sv).2 = sv.
Proof.
  intros Hroute. unfold handle, dispatch. destruct (jsonBody req); [done|].
  unfold routes. destruct Hroute as [->|[->| ->]]; [| |done];
    (destruct (authenticateUser req (store sv)) as [code b|[id user]]; [done|]).
  - simpl. unfold withStore. rewrite getLogs_store. by destruct sv.
  - destruct (requireAdmin id (store sv)); [done|]. simpl. by destruct sv.
Qed.

Lemma findOneByApiKey_unique (us : gmap ObjectId UserProfile) id u :
  uniqueUsers us -> us !! id = Some u -> findOneByApiKey (apiKey u) us = Some (id, u).
Proof.
  intros Hu Hid. rewrite uniqueUsers_spec in Hu.
  destruct (findOneByApiKey (apiKey u) us) as [[i v]|] eqn:E.
  - apply findOneByApiKey_Some in E as [Hi Hk].
    assert (i = id) as -> by (apply (Hu i id v u); auto). congruence.
  - exfalso. unfold findOneByApiKey in E.
    assert ((id, u) ∈ filter (fun p => apiKey p.2 = apiKey u) (map_to_list us)) as Hin
      by (apply list_elem_of_filter; split; [done|by apply elem_of_map_to_list]).
    destruct (filter _ _); [by apply not_elem_of_nil in Hin|discriminate].
Qed.

Lemma authenticateUser_stored req st id u :
  uniqueUsers (users st) ->
  users st !! id = Some u ->
  apiKey u ≠ EmptyString ->
  xApiKey req = Some (apiKey u) ->
  authenticateUser req st = Next (id, u).
Proof.
  intros Hu Hid Hne Hkey. unfold authenticateUser. rewrite Hkey.
  assert (Str.isEmpty (apiKey u) = false) as -> by (by destruct (apiKey u)).
  by rewrite (findOneByApiKey_unique _ _ _ Hu Hid).
Qed.

(** X13: in a store whose API keys are unique, [authenticateUser] lets a
    request pass as the user [u] exactly when [u] is stored and the request
    carries the key of [u], which is not empty. *)
Theorem stored_key_authenticates req st id u :
  uniqueUsers (users st) ->
  authenticateUser req st = Next (id, u)
  <-> users st !! id = Some u ∧ xApiKey req = Some (apiKey u) ∧ apiKey u ≠ EmptyString.
Proof.
  intros Hu. split.
  - intros Hauth. destruct (authenticateUser_Next _ _ _ _ Hauth) as [Hid Hkey].
    split; [done|]. split; [done|]. intros Hempty.
    unfold authenticateUser in Hauth. rewrite Hkey, Hempty in Hauth. discriminate.
  - intros (Hid & Hkey & Hne). by apply authenticateUser_stored.
Qed.

Lemma handle_asAdmin_create env req sv id :
  asAdmin req sv id -> route req = PostAdminUsers ->
  dispatch env req sv = withStore sv (createUser env req (store sv)).
Proof.
  intros (Hbody & user & Hauth & Hadmin) Hroute.
  pose proof (authenticateUser_Next _ _ _ _ Hauth) as [Hu _].
  rewrite (dispatch_accepted _ _ _ Hbody). unfold routes.
  rewrite Hroute, Hauth. unfold requireAdmin. by rewrite Hu, Hadmin.
Qed.

Lemma createUser_outcomes env req st :
  (exists n e,
     requiredString (b_name req) = Some n ∧ requiredString (b_email req) = Some e
     ∧ users st !! freshId env = None
     ∧ map_Forall (fun _ v => apiKey v ≠ generateApiKey env ∧ email v ≠ e) (users st)
     ∧ (createUser env req st).2 = withUsers (<[freshId env := newUser env n e]> (users st)) st
     ∧ (createUser env req st).1 =
         if mailAccepted env
         then (200, BUserCreated "User created and email sent" (freshId env) n e
                      (generateApiKey env))
         else (500, errorBody "Error creating user"))
  ∨ ((createUser env req st).2 = st
     ∧ (createUser env req st).1 = (500, errorBody "Error creating user")
     ∧ (requiredString (b_name req) = None ∨ requiredString (b_email req) = None
        ∨ is_Some (users st !! freshId env)
        ∨ exists i v, users st !! i = Some v
                      ∧ (apiKey v = generateApiKey env
                         ∨ Some (email v) = requiredString (b_email req)))).
Proof.
  unfold createUser.
  destruct (requiredString (b_name req)) as [n|]; [|right; auto].
  destruct (requiredString (b_email req)) as [e|]; [|right; auto].
  unfold insertUser. case_decide as Hd.
  - left. exists n, e. destruct Hd as [Hfresh Huniq].
    split; [done|]. split; [done|]. split; [done|]. split; [done|].
    split; by destruct (mailAccepted env).
  - right. repeat split; try done. do 2 right.
    destruct (users st !! freshId env) eqn:Hf; [left; eauto|right].
    apply not_and_l in Hd as [Hd|Hd]; [done|].
    apply map_not_Forall in Hd; [|apply _].
    destruct Hd as (i & v & Hi & Hv). exists i, v. split; [done|].
    apply not_and_l in Hv as [Hv|Hv]; [left|right].
    + by apply dec_stable in Hv.
    + apply dec_stable in Hv. simpl in Hv. by rewrite Hv.
Qed.

(** X14: when an admin's POST /api/admin/users is answered 200, the store
    has one more user document, under a new id, without the admin flag
    and with the count 0, and its key is the one of the answer. If API keys
    were unique before, a request with that key is then authenticated as
    the new user, and is refused at the admin routes. *)
Theorem created_user_can_log_in env req sv id :
  asAdmin req sv id ->
  route req = PostAdminUsers ->
  status (handle env req sv).1 = 200 ->
  exists n e,
    body (handle env req sv).1
      = BUserCreated "User created and email sent" (freshId env) n e (generateApiKey env)
    ∧ users (store sv) !! freshId env = None
    ∧ users (store (handle env req sv).2)
      = <[freshId env := newUser env n e]> (users (store sv))
    ∧ (uniqueUsers (users (store sv)) ->
       forall req2, xApiKey req2 = Some (generateApiKey env) ->
         authenticateUser req2 (store (handle env req sv).2)
           = Next (freshId env, newUser env n e)
         ∧ requireAdmin (freshId env) (store (handle env req sv).2)
           = Respond 403 (errorBody "Forbidden: Admin access required")).
Proof.
  intros Hadmin Hroute. unfold handle.
  rewrite (handle_asAdmin_create _ _ _ _ Hadmin Hroute). simpl.
  destruct (createUser_outcomes env req (store sv))
    as [(n & e & _ & _ & Hfresh & Huniq & -> & ->)|(_ & -> & _)]; [|simpl; lia].
  destruct (mailAccepted env); simpl; [|lia]. intros _.
  exists n, e. split; [done|]. split; [done|]. split; [done|].
  intros Hu req2 Hkey. split.
  - apply authenticateUser_stored; [|simpl; by rewrite lookup_insert_eq|done|done].
    apply (StoreStep_unique (store sv)); [|done].
    by refine (StepUser _ _ (freshId env) (newUser env n e) Hfresh _ _ Huniq _).
  - unfold requireAdmin. simpl. by rewrite lookup_insert_eq.
Qed.

(** X15: an admin's POST /api/admin/users that is not answered 200 is
    answered 500 with one message, whatever failed. The store is then as
    it was, except when the mail relay refused the message: the user has
    been saved before the mail is sent and stays. A name or an email that
    is missing, and an email or a key that a stored user already has, are
    among the failures that leave the store as it was. *)
Theorem create_user_failures env req sv id :
  asAdmin req sv id ->
  route req = PostAdminUsers ->
  (status (handle env req sv).1 ≠ 200 ->
     status (handle env req sv).1 = 500
     ∧ body (handle env req sv).1 = BError (JStr "Error creating user")
     ∧ ((handle env req sv).2 = sv
        ∨ (mailAccepted env = false
           ∧ exists n e, users (store (handle env req sv).2)
                         = <[freshId env := newUser env n e]> (users (store sv)))))
  ∧ (requiredString (b_name req) = None ∨ requiredString (b_email req) = None
     ∨ (exists i v, users (store sv) !! i = Some v
                    ∧ (apiKey v = generateApiKey env
                       ∨ Some (email v) = requiredString (b_email req))) ->
     status (handle env req sv).1 = 500 ∧ (handle env req sv).2 = sv).
Proof.
  intros Hadmin Hroute. unfold handle.
  rewrite (handle_asAdmin_create _ _ _ _ Hadmin Hroute). simpl.
  destruct (createUser_outcomes env req (store sv))
    as [(n & e & Hn & He & Hfresh & Huniq & Hst & Hres)|(Hst & Hres & Hwhy)];
    rewrite Hst, Hres.
  - split.
    + destruct (mailAccepted env); simpl; [done|]. intros _.
      repeat split; try done. right. split; [done|]. by exists n, e.
    + intros [Hbad|[Hbad|(i & v & Hi & Hbad)]]; [congruence|congruence|].
      exfalso. destruct (Huniq i v Hi) as [Hk Hm].
      destruct Hbad as [Hbad|Hbad]; [done|]. rewrite He in Hbad. by injection Hbad.
  - simpl. assert ({| store := store sv; counters := counters sv |} = sv) as ->
      by (by destruct sv).
    split; intros _; [split; [done|split; [done|by left]]|done].
Qed.

(** X16: [createDefaultAdmin] does nothing to a store that holds an
    admin. On the empty store, with a sender address that is not empty,
    it saves exactly one user, an admin with a generated key; a request
    with that key then passes [authenticateUser] and [requireAdmin], and
    running [createDefaultAdmin] again changes nothing. *)
Theorem createDefaultAdmin_bootstrap env smtpFrom :
  (forall st i u, users st !! i = Some u -> isAdmin u = true ->
     createDefaultAdmin env smtpFrom st = st)
  ∧ (smtpFrom ≠ EmptyString ->
     users (store (bootstrap env smtpFrom)) = {[ freshId env := defaultAdmin env smtpFrom ]}
     ∧ (forall req, xApiKey req = Some (generateApiKey env) ->
          authenticateUser req (store (bootstrap env smtpFrom))
            = Next (freshId env, defaultAdmin env smtpFrom)
          ∧ requireAdmin (freshId env) (store (bootstrap env smtpFrom)) = Next tt)
     ∧ (forall env2 from2,
          createDefaultAdmin env2 from2 (store (bootstrap env smtpFrom))
          = store (bootstrap env smtpFrom))).
Proof.
  assert (forall e f st i u, users st !! i = Some u -> isAdmin u = true ->
            createDefaultAdmin e f st = st) as Hnoop.
  { intros e f st i u Hi Hadm. unfold createDefaultAdmin.
    case_decide as Hd; [|done]. specialize (Hd i u Hi). simpl in Hd. congruence. }
  split; [apply Hnoop|]. intros Hne.
  assert (users (store (bootstrap env smtpFrom))
          = {[ freshId env := defaultAdmin env smtpFrom ]}) as Husers.
  { unfold bootstrap, createDefaultAdmin. simpl.
    rewrite decide_True by apply map_Forall_empty.
    assert (Str.isEmpty smtpFrom = false) as -> by (by destruct smtpFrom).
    unfold insertUser. rewrite decide_True; [done|].
    split; [apply lookup_empty|apply map_Forall_empty]. }
  split; [done|]. split.
  - intros req Hkey. split.
    + apply (authenticateUser_stored req _ (freshId env) (defaultAdmin env smtpFrom));
        try done.
      * rewrite Husers. apply uniqueUsers_spec. intros i j u v Hi Hj _.
        apply lookup_singleton_Some in Hi as [<- _].
        by apply lookup_singleton_Some in Hj as [<- _].
      * rewrite Husers. apply lookup_singleton_eq.
    + unfold requireAdmin. by rewrite Husers, lookup_singleton_eq.
  - intros env2 from2. apply (Hnoop _ _ _ (freshId env) (defaultAdmin env smtpFrom)); [|done].
    rewrite Husers. apply lookup_singleton_eq.
Qed.

End Accounts.

(** ** The pages of GET /api/logs *)

Section LogPages.
Context {JN : JsNumber} {HO : Host}.

Lemma getLogs_page_body env req sv id user q p n :
  bodyAccepted req -> route req = GetLogs ->
  authenticateUser req (store sv) = Next (id, user) ->
  buildQuery id req = Some q -> pageOf req = Some p -> limitOf req = Some n ->
  1 ≤ p -> 1 ≤ n ->
  body (handle env req sv).1
  = BLogs (formatLog (store sv)
             <$> take (Z.to_nat n) (drop (Z.to_nat ((p - 1) * n)) (findLogs q (store sv))))
          (Z.of_nat (length (findLogs q (store sv)))) p
          (Some (- (- Z.of_nat (length (findLogs q (store sv))) / n))).
Proof.
  intros Hbody Hroute Hauth Hq Hp Hn Hp1 Hn1.
  unfold handle. rewrite (dispatch_accepted _ _ _ Hbody). unfold routes.
  rewrite Hroute, Hauth. simpl. unfold getLogs, selectLogs. rewrite Hq, Hp, Hn. simpl.
  unfold cursorSkip, cursorLimit.
  destruct ((p - 1) * n <? 0) eqn:E; [apply Z.ltb_lt in E; nia|]. simpl.
  destruct (n =? 0) eqn:E0; [lia|]. rewrite (Z.abs_eq n) by lia.
  assert (length (findLogs q (store sv))
          = length (filter (matchesQuery q) (logs (store sv)))) as ->
    by (unfold findLogs; apply Permutation_length, merge_sort_Permutation).
  done.
Qed.

Lemma pages_join {A B : Type} (f : B -> list A) (n : nat) (l : list A) (xs : list B) :
  (forall k x, xs !! k = Some x -> f x = take n (drop (k * n) l)) ->
  mjoin (f <$> xs) = take (length xs * n) l.
Proof.
  induction xs as [|x xs IH] using rev_ind; intros Hf; [done|].
  rewrite fmap_app, join_app, IH.
  - simpl. rewrite app_nil_r, (Hf (length xs) x).
    + rewrite length_app. simpl.
      replace ((length xs + 1) * n)%nat with (length xs * n + n)%nat by lia.
      apply take_take_drop.
    + by rewrite lookup_app_r, Nat.sub_diag by lia.
  - intros k y Hk. apply Hf. rewrite lookup_app_l; [done|]. by eapply lookup_lt_Some.
Qed.

Lemma NoDup_fmap_inj {A B : Type} (f : A -> B) (l : list A) x y :
  NoDup (f <$> l) -> x ∈ l -> y ∈ l -> f x = f y -> x = y.
Proof.
  induction l as [|a l IH]; intros Hnd Hx Hy Hf; [by apply not_elem_of_nil in Hx|].
  rewrite fmap_cons in Hnd. apply NoDup_cons in Hnd as [Ha Hnd].
  apply elem_of_cons in Hx as [->|Hx]; apply elem_of_cons in Hy as [->|Hy]; try done.
  - exfalso. apply Ha. rewrite Hf. by apply list_elem_of_fmap_2.
  - exfalso. apply Ha. rewrite <- Hf. by apply list_elem_of_fmap_2.
  - by apply IH.
Qed.

(** Logs with different timestamps have one order from the newest to the
    oldest. *)
Lemma newestFirst_unique (logs1 logs2 : list Log) :
  NoDup (timestamp <$> logs1) ->
  logs1 ≡ₚ logs2 ->
  StronglySorted newestFirst logs1 -> StronglySorted newestFirst logs2 ->
  logs1 = logs2.
Proof.
  intros Hnd Hperm Hs1 Hs2.
  apply (StronglySorted_unique_strong newestFirst); try done.
  intros x y Hx Hy Hxy Hyx. apply (NoDup_fmap_inj timestamp logs1); try done.
  - by rewrite Hperm.
  - unfold newestFirst in *. lia.
Qed.

(** X18: paging through the logs loses nothing and repeats nothing, as
    long as the pages are read from the same store and the caller's logs
    in the range have different timestamps (they then have one order from
    the newest to the oldest, whatever the database does with ties). For
    a limit [n] of at least 1, let [reqs] be the requests of one caller for
    the pages 1, 2, ... of the same date range, each answered from the
    store of [sv]. Every answer reports the number [total] of the caller's
    logs in the range and the number of pages, which is [total / n]
    rounded up; the entries of the pages, one after the other, are the
    first [length reqs * n] of these logs from the newest to the oldest,
    and all of them once [reqs] has that many pages. *)
Theorem get_logs_pages_cover env sv id user q n (reqs : list Request) :
  1 ≤ n ->
  (forall k req, reqs !! k = Some req ->
     bodyAccepted req ∧ route req = GetLogs
     ∧ authenticateUser req (store sv) = Next (id, user)
     ∧ buildQuery id req = Some q
     ∧ pageOf req = Some (Z.of_nat k + 1) ∧ limitOf req = Some n) ->
  NoDup (timestamp <$> filter (matchesQuery q) (logs (store sv))) ->
  let matching := findLogs q (store sv) in
  let total := Z.of_nat (length matching) in
  (forall sorted,
     sorted ≡ₚ filter (matchesQuery q) (logs (store sv)) ->
     StronglySorted newestFirst sorted ->
     sorted = matching)
  ∧ (forall k req, reqs !! k = Some req ->
       exists entries pages,
         body (handle env req sv).1 = BLogs entries total (Z.of_nat k + 1) (Some pages)
         ∧ total ≤ pages * n < total + n)
  ∧ mjoin ((fun req => entriesOf (body (handle env req sv).1)) <$> reqs)
    = formatLog (store sv) <$> take (length reqs * Z.to_nat n) matching
  ∧ (total ≤ Z.of_nat (length reqs) * n ->
     mjoin ((fun req => entriesOf (body (handle env req sv).1)) <$> reqs)
     = formatLog (store sv) <$> matching).
Proof.
  intros Hn Hreqs Hnd matching total.
  assert (forall k req, reqs !! k = Some req ->
            body (handle env req sv).1
            = BLogs (formatLog (store sv)
                       <$> take (Z.to_nat n) (drop (k * Z.to_nat n) matching))
                    total (Z.of_nat k + 1) (Some (- (- total / n)))) as Hpage.
  { intros k req Hk. destruct (Hreqs k req Hk) as (Hb & Hr & Ha & Hq & Hp & Hl).
    rewrite (getLogs_page_body env req sv id user q _ n Hb Hr Ha Hq Hp Hl) by lia.
    by replace (Z.to_nat ((Z.of_nat k + 1 - 1) * n)) with (k * Z.to_nat n)%nat by nia. }
  assert (mjoin ((fun req => entriesOf (body (handle env req sv).1)) <$> reqs)
          = formatLog (store sv) <$> take (length reqs * Z.to_nat n) matching) as Hjoin.
  { rewrite fmap_take. apply pages_join. intros k req Hk.
    rewrite (Hpage k req Hk). simpl. by rewrite fmap_take, fmap_drop. }
  split; [|split; [|split; [done|]]].
  - intros sorted Hperm Hsorted. symmetry. unfold matching.
    apply newestFirst_unique; [| |apply findLogs_sorted|done].
    + by rewrite findLogs_matching.
    + by rewrite findLogs_matching, Hperm.
  - intros k req Hk. rewrite (Hpage k req Hk). do 2 eexists. split; [done|].
    pose proof (Z.div_mod (- total) n ltac:(lia)).
    pose proof (Z.mod_pos_bound (- total) n ltac:(lia)). nia.
  - intros Hall. rewrite Hjoin, take_ge; [done|]. unfold total in Hall. nia.
Qed.

(** X19: every entry of a page of logs carries the name of the caller
    (or the words Unknown User when that name is empty), whatever page and
    limit were asked for: no entry shows another user. *)
Theorem get_logs_usernames env req sv id user :
  bodyAccepted req ->
  route req = GetLogs ->
  authenticateUser req (store sv) = Next (id, user) ->
  Forall (fun entry =>
            lv_username entry
            = if Str.isEmpty (name user) then "Unknown User"%string else name user)
         (entriesOf (body (handle env req sv).1)).
Proof.
  intros Hbody Hroute Hauth.
  pose proof (authenticateUser_Next _ _ _ _ Hauth) as [Hu _].
  unfold handle. rewrite (dispatch_accepted _ _ _ Hbody). unfold routes.
  rewrite Hroute, Hauth. simpl. unfold getLogs, selectLogs.
  destruct (buildQuery id req) as [q|] eqn:Hq; simpl; [|done].
  destruct (buildQuery_Some _ _ _ Hq) as (Hid & _).
  destruct (pageOf req) as [p|]; simpl; [|done].
  destruct (limitOf req) as [n|]; simpl; [|done].
  unfold cursorSkip. destruct ((p - 1) * n <? 0); simpl; [done|].
  apply Forall_fmap.
  assert (Forall (matchesQuery q)
            (cursorLimit n (drop (Z.to_nat ((p - 1) * n)) (findLogs q (store sv))))) as Hsel.
  { unfold cursorLimit. destruct (n =? 0); [|apply Forall_take];
      apply Forall_drop, findLogs_Forall. }
  eapply Forall_impl; [exact Hsel|]. intros l (Hl & _). simpl.
  unfold usernameOf. by rewrite Hl, Hid, Hu.
Qed.

End LogPages.

(** ** The limiter's counters *)

Section LimiterCounters.
Context {JN : JsNumber} {HO : Host}.

(** X20: the limiter counts per caller and only at POST
    /api/process-image. A request changes the counter of [j] only if it
    is a request to that route whose key is that of the stored user [j],
    who is no admin; and it counts every such request, whatever the answer
    (200, 400, 429 or 500). *)
Theorem limiter_counts_callers env req sv :
  (forall j, counters (handle env req sv).2 !! j ≠ counters sv !! j ->
     bodyAccepted req ∧ route req = PostProcessImage
     ∧ exists user, authenticateUser req (store sv) = Next (j, user) ∧ isAdmin user = false)
  ∧ (forall id user,
       bodyAccepted req -> route req = PostProcessImage ->
       authenticateUser req (store sv) = Next (id, user) -> isAdmin user = false ->
       counters (handle env req sv).2 !! id = Some (hit (now env) id (counters sv))).
Proof.
  split.
  - intros j. unfold handle, dispatch, bodyAccepted.
    destruct (jsonBody req) eqn:Hbody; [done|]. unfold routes.
    destruct (route req) eqn:Hroute; try done;
      (destruct (authenticateUser req (store sv)) as [code b|[id user]] eqn:Hauth;
       [done|]); try done;
      try (destruct (requireAdmin id (store sv)); done).
    unfold createUserRateLimiter.
    destruct (isAdmin user) eqn:Hadmin; [done|].
    intros Hj.
    destruct (decide (j = id)) as [->|Hne].
    + repeat split; try done. by exists user.
    + exfalso. apply Hj. clear Hj.
      destruct (maxRequests <? _); simpl; by rewrite lookup_insert_ne.
  - intros id user Hbody Hroute Hauth Hadmin.
    unfold handle. rewrite (dispatch_accepted _ _ _ Hbody). unfold routes.
    rewrite Hroute, Hauth. unfold createUserRateLimiter. rewrite Hadmin.
    destruct (maxRequests <? _); simpl; by rewrite lookup_insert_eq.
Qed.

End LimiterCounters.

(** ** What the pages show *)

Section PagesShow.
Context {JN : JsNumber} {HO : Host} {BR : Browser}.

Lemma userJson_lastRequest v : prop "lastRequest" (userJson v) = JUndefined.
Proof.
  unfold prop, userJson.
  repeat (rewrite lookup_insert_ne by done). by rewrite lookup_singleton_ne.
Qed.

Lemma filter_none {A : Type} (f : A -> bool) (l : list A) :
  Forall (fun x => f x = false) l -> List.filter f l = [].
Proof. induction 1 as [|x l Hx _ IH]; simpl; [done|]. by rewrite Hx. Qed.

Lemma filter_all {A : Type} (f : A -> bool) (l : list A) :
  Forall (fun x => f x = true) l -> List.filter f l = l.
Proof. induction 1 as [|x l Hx _ IH]; simpl; [done|]. by rewrite Hx, IH. Qed.

(** X21: the dashboard's date filter hides every user. The entries that
    GET /api/admin/users sends have no [lastRequest], so for an admin and
    any chosen date filter the dashboard shows no row, 0 active users and
    0 requests beside the total number of users; without a filter it shows
    a row for every user that is no admin. *)
Theorem dashboard_date_filter env req sv id dateFilter today :
  asAdmin req sv id ->
  route req = GetAdminUsers ->
  (dateFilter ≠ EmptyString ->
     loadUsers dateFilter today (body (handle env req sv).1)
     = Some {| totalUsers := Z.of_nat (length (nonAdminUsers (store sv)));
               totalRequests := JNum (numOfZ 0);
               activeToday := 0;
               tableRows := [] |})
  ∧ (dateFilter = EmptyString ->
     exists shown,
       loadUsers dateFilter today (body (handle env req sv).1) = Some shown
       ∧ tableRows shown = userJson <$> (userView (store sv) <$> nonAdminUsers (store sv))
       ∧ activeToday shown = totalUsers shown).
Proof.
  intros (Hbody & user & Hauth & Hadmin) Hroute.
  pose proof (authenticateUser_Next _ _ _ _ Hauth) as [Hu _].
  assert (body (handle env req sv).1 = BUsers (userView (store sv) <$> nonAdminUsers (store sv)))
    as ->.
  { unfold handle. rewrite (dispatch_accepted _ _ _ Hbody). unfold routes.
    rewrite Hroute, Hauth. unfold requireAdmin. by rewrite Hu, Hadmin. }
  unfold loadUsers. split.
  - intros Hne. rewrite filter_none.
    + simpl. by rewrite !length_fmap.
    + apply Forall_fmap, Forall_forall. intros v _. simpl.
      unfold passesFilter, hasActivityInDateRange.
      assert (Str.isEmpty dateFilter = false) as -> by (by destruct dateFilter).
      by rewrite userJson_lastRequest.
  - intros ->. rewrite filter_all by (by apply Forall_forall).
    eexists. split; [done|]. by split.
Qed.

Lemma processImageTry_keeps env img raw reply answer d calls k :
  generateContent env (ImageRequest img rawTextPrompt) = Some raw ->
  generateContent env (extractionRequest (Str.trim raw)) = Some reply ->
  parseAnswer reply = Some answer ->
  processImageTry env img [] = (Some d, calls) ->
  k ≠ "utr"%string -> k ≠ "utr_alternatives"%string -> k ≠ "amount_in_inr"%string ->
  prop k d = prop k answer.
Proof.
  intros Hraw Hreply Hans Htry H1 H2 H3.
  rewrite (processImageTry_parsed _ _ _ _ _ Hraw Hreply Hans) in Htry.
  destruct (verifyAmount _ _ _ _) as [[d1|] calls1] eqn:Hv; [|discriminate].
  injection Htry as <- <-.
  rewrite chooseUtr_other by done. by apply (verifyAmount_other _ _ _ _ _ _ k Hv).
Qed.

Lemma normalizeUtr_other (d : JsObject) k :
  k ≠ "utr"%string -> prop k (normalizeUtr d) = prop k d.
Proof.
  intros Hk. unfold normalizeUtr. destruct (_ && _); [|done]. by rewrite prop_insert_ne.
Qed.

(** X22: the upload page never shows the UTR. The page prints the
    [transaction_id] of the data it receives, and the server passes the
    properties of the model's answer on, except [utr], [utr_alternatives]
    and [amount_in_inr]: for a submission answered 200 whose answer from
    the model has no [transaction_id], as the extraction prompt asks, the
    second line of the page is the marker N/A, whatever UTR was found, and
    the first and the fourth line show the model's date and editing flag. *)
Theorem upload_page_transaction_id env req sv id buf cs raw reply answer :
  submits env req sv id buf cs ->
  generateContent env (ImageRequest buf rawTextPrompt) = Some raw ->
  generateContent env (extractionRequest (Str.trim raw)) = Some reply ->
  parseAnswer reply = Some answer ->
  prop "transaction_id" answer = JUndefined ->
  status (handle env req sv).1 = 200 ->
  exists shownDate shownAmount shownEdited,
    uploadOutput (handle env req sv).1
    = Fields [("Date: "%string, shownDate);
              ("Transaction ID: "%string, JStr "N/A");
              ("Amount (INR): "%string, shownAmount);
              ("Is Edited: "%string, shownEdited)]
    ∧ shownDate = jsOr (received (prop "date" answer)) (JStr "N/A")
    ∧ shownEdited = match received (prop "is_edited" answer) with
                    | JUndefined => JStr "N/A"
                    | v => v
                    end.
Proof.
  intros Hsub Hraw Hreply Hans Hnone.
  destruct (handle_submits _ _ _ _ _ _ Hsub) as [remaining Hd].
  destruct Hsub as (_ & _ & _ & Hfile).
  unfold handle. rewrite Hd. unfold processImageHandler. rewrite Hfile.
  destruct (truthy (prop "error" (processImage env buf).1)) eqn:Herr; simpl; [lia|].
  revert Herr. unfold processImage.
  destruct (processImageTry env buf []) as [[d|] calls] eqn:Htry; simpl;
    [|unfold prop; by rewrite lookup_singleton_eq].
  intros _.
  destruct (newTransaction _ _ _); simpl; [|lia].
  destruct (newLog _ _ _); simpl; [|lia]. intros _.
  unfold uploadOutput, fieldLines. simpl.
  rewrite !normalizeUtr_other by done.
  rewrite (processImageTry_keeps _ _ _ _ _ _ _ "date" Hraw Hreply Hans Htry) by done.
  rewrite (processImageTry_keeps _ _ _ _ _ _ _ "transaction_id" Hraw Hreply Hans Htry)
    by done.
  rewrite (processImageTry_keeps _ _ _ _ _ _ _ "is_edited" Hraw Hreply Hans Htry) by done.
  rewrite Hnone, received_undefined. simpl. by do 3 eexists.
Qed.

End PagesShow.

(** ** Example runs of the further properties *)

Section PipelineRuns.
#[local] Existing Instances Ref.number Ref.host.

(** The model reads two sequences and proposes the one that does not
    start with 4: the result holds a sequence of the raw text. *)
Lemma processImage_utr_from_raw_text_witness :
  exists u,
    u ∈ Str.matchTwelveDigits
          (Str.trim "Paid to shop UPI Ref 412345678901 Txn 123456789012 Rs 2500.00")
    ∧ prop "utr" (processImage envOther "image").1 = JStr u.
Proof.
  exact (processImage_utr_from_raw_text envOther "image"
           "Paid to shop UPI Ref 412345678901 Txn 123456789012 Rs 2500.00" answerOther
           (default ∅ (parseAnswer answerOther))
           (processImage envOther "image").1 (processImage envOther "image").2
           eq_refl eq_refl eq_refl eq_refl).
Defined.

(** The model proposed 999999999999, which is none of the three
    sequences: the second one, the first that starts with 4, is taken. *)
Lemma chooseUtr_override_witness :
  exists u,
    prop "utr" (chooseUtr ["123456789012"; "412345678901"; "498765432109"]
                  {[ "utr"%string := JStr "999999999999" ]}) = JStr u.
Proof.
  destruct (chooseUtr_override "123456789012" ["412345678901"; "498765432109"]
              {[ "utr"%string := JStr "999999999999" ]}) as (u & Hu & _).
  - reflexivity.
  - exists u. exact Hu.
Defined.

(** The model does not answer the first call. *)
Lemma processImage_failures_witness :
  (processImage (envAt 1000) "image").1 = pipelineError.
Proof.
  destruct (processImage_failures (envAt 1000) "image") as [_ Herr].
  apply Herr. apply FirstCallFails. reflexivity.
Defined.

End PipelineRuns.

Section SubmissionRuns.
#[local] Existing Instances Ref.number Ref.host.

(** Alice submits an image and the model does not answer. *)
Lemma process_image_error_answers_witness :
  status (handle (envAt 1000) (request PostProcessImage (Some "key_alice") (File "image"))
            exampleServer).1 = 500
  ∧ body (handle (envAt 1000) (request PostProcessImage (Some "key_alice") (File "image"))
            exampleServer).1
    = BError (JStr "An error occurred while processing the image.").
Proof.
  destruct (process_image_error_answers (envAt 1000)
              (request PostProcessImage (Some "key_alice") (File "image")) exampleServer
              2%N "image" {[ 2%N := {| hits := 1; resetTime := 61000 |} ]})
    as [Hfails _].
  - split; [discriminate|]. split; [reflexivity|]. split; [|reflexivity].
    exists alice, (Some 19). split; reflexivity.
  - destruct Hfails as (Hstatus & Hbody & _); [apply FirstCallFails; reflexivity|].
    split; [exact Hstatus|exact Hbody].
Defined.

(** Alice sends no file: the answer is 400 and nothing is written. *)
Lemma process_image_failure_writes_witness :
  users (store (handle envOther (request PostProcessImage (Some "key_alice") NoFile)
                  exampleServer).2) = users exampleStore
  ∧ logs (store (handle envOther (request PostProcessImage (Some "key_alice") NoFile)
                   exampleServer).2) = logs exampleStore.
Proof.
  destruct (process_image_failure_writes envOther
              (request PostProcessImage (Some "key_alice") NoFile) exampleServer)
    as (Hu & Hl & _).
  - reflexivity.
  - discriminate.
  - split; [exact Hu|exact Hl].
Defined.

(** Alice's submission is answered 200; the log holds twelve digits. *)
Lemma process_image_log_utr_witness :
  exists l s,
    logs (store (handle envOther (request PostProcessImage (Some "key_alice") (File "image"))
                   exampleServer).2) = logs exampleStore ++ [l]
    ∧ utr (processingData l) = JStr s
    ∧ (Str.len s = 12 ∨ s = "N/A"%string).
Proof.
  destruct (process_image_log_utr envOther
              (request PostProcessImage (Some "key_alice") (File "image")) exampleServer
              "image") as (l & s & Hlogs & Hutr & Hlen & _).
  - reflexivity.
  - reflexivity.
  - reflexivity.
  - right. exists "123456789012"%string. reflexivity.
  - exists l, s. split; [exact Hlogs|]. split; [exact Hutr|exact Hlen].
Defined.

(** A request without a file is counted all the same. *)
Lemma limiter_counts_callers_witness :
  counters (handle (envAt 1000) (request PostProcessImage (Some "key_alice") NoFile)
              exampleServer).2 !! 2%N
  = Some (hit 1000 2%N ∅).
Proof.
  destruct (limiter_counts_callers (envAt 1000)
              (request PostProcessImage (Some "key_alice") NoFile) exampleServer)
    as [_ Hcount].
  apply (Hcount 2%N alice); [discriminate|reflexivity|reflexivity|reflexivity].
Defined.

End SubmissionRuns.

Section StoreRuns.
#[local] Existing Instances Ref.number Ref.host.

Lemma run_keeps_users_unique_witness :
  uniqueUsers (users (store (run exampleEvents startServer))).
Proof.
  apply run_keeps_users_unique. apply (bool_decide_unpack _). exact I.
Defined.

Lemma staged_submissions_keep_accounts_witness :
  accounted (store (server (play exampleMoves startSystem)))
            (underWay (play exampleMoves startSystem)).
Proof.
  destruct (staged_submissions_keep_accounts exampleMoves startSystem) as [Hacc _].
  - apply (bool_decide_unpack _). exact I.
  - reflexivity.
  - exact Hacc.
Defined.

(** Before the last move of the example the first submission has saved
    its log and not yet raised the counter: Carol has one log and the
    stored count 0, so the store is not consistent at that moment, and it
    is accounted for by the submission that waits for the counter. *)
Example log_before_counter :
  let sys := play (take 6 exampleMoves) startSystem in
  countLogs 4%N (store (server sys)) = 1
  ∧ requestCount <$> users (store (server sys)) !! 4%N = Some 0
  ∧ countTransactions 4%N (store (server sys)) = 2
  ∧ waiting (awaitsCount 4%N) (underWay sys) = 1
  ∧ waiting (awaitsLog 4%N) (underWay sys) = 1
  ∧ ~ consistent (store (server sys)).
Proof.
  split; [reflexivity|]. split; [reflexivity|]. split; [reflexivity|].
  split; [reflexivity|]. split; [reflexivity|].
  apply (bool_decide_eq_false_1 _). reflexivity.
Qed.

(** After the last move the first submission is answered and the second
    still waits for its log. *)
Example counter_after_log :
  let sys := play exampleMoves startSystem in
  countLogs 4%N (store (server sys)) = 1
  ∧ requestCount <$> users (store (server sys)) !! 4%N = Some 1
  ∧ countTransactions 4%N (store (server sys)) = 2
  ∧ length (underWay sys) = 1%nat.
Proof. repeat split; reflexivity. Qed.

(** What the example run leaves: Carol's stored counter is 1, and no log. *)
Example exampleEvents_result :
  (requestCount <$> users (store (run exampleEvents startServer)) !! 4%N,
   length (transactions (store (run exampleEvents startServer))),
   length (logs (store (run exampleEvents startServer))))
  = (Some 1, 1%nat, 0%nat).
Proof. reflexivity. Qed.

End StoreRuns.

Section AccountRuns.
#[local] Existing Instances Ref.number Ref.host.

(** Alice reads her logs: the server is as it was. *)
Lemma get_routes_change_nothing_witness :
  (handle envOther (logsRequest "key_alice" "1" "2") exampleServer).2 = exampleServer.
Proof.
  apply get_routes_change_nothing. left. reflexivity.
Defined.

Lemma stored_key_authenticates_witness :
  authenticateUser (request GetLogs (Some "key_alice") NoFile) exampleStore
  = Next (2%N, alice).
Proof.
  apply stored_key_authenticates.
  - apply (bool_decide_unpack _). exact I.
  - split; [reflexivity|]. split; [reflexivity|discriminate].
Defined.

(** The admin creates Carol's account; the key of the answer opens it. *)
Lemma created_user_can_log_in_witness :
  exists n e,
    authenticateUser (request GetLogs (Some "key_c4") NoFile)
      (store (handle envCarol (request PostAdminUsers (Some "key_admin") NoFile)
                exampleServer).2)
    = Next (4%N, newUser envCarol n e).
Proof.
  destruct (created_user_can_log_in envCarol
              (request PostAdminUsers (Some "key_admin") NoFile) exampleServer 1%N)
    as (n & e & _ & _ & _ & Hlogin).
  - split; [discriminate|]. exists admin. split; reflexivity.
  - reflexivity.
  - reflexivity.
  - exists n, e.
    destruct (Hlogin) with (req2 := request GetLogs (Some "key_c4") NoFile) as [Hauth _].
    + apply (bool_decide_unpack _). exact I.
    + reflexivity.
    + exact Hauth.
Defined.

(** A second account with Alice's email is refused and nothing is stored. *)
Lemma create_user_failures_witness :
  status (handle envCarol duplicateRequest exampleServer).1 = 500
  ∧ (handle envCarol duplicateRequest exampleServer).2 = exampleServer.
Proof.
  destruct (create_user_failures envCarol duplicateRequest exampleServer 1%N)
    as [_ Hsame].
  - split; [discriminate|]. exists admin. split; reflexivity.
  - reflexivity.
  - apply Hsame. right. right. exists 2%N, alice. split; [reflexivity|].
    right. reflexivity.
Defined.

Lemma createDefaultAdmin_bootstrap_witness :
  users (store startServer) = {[ 1%N := defaultAdmin envOther "admin@example.com" ]}.
Proof.
  destruct (createDefaultAdmin_bootstrap envOther "admin@example.com") as [_ Hboot].
  destruct Hboot as [Husers _]; [discriminate|]. exact Husers.
Defined.

End AccountRuns.

Section LogPageRuns.
#[local] Existing Instances Ref.number Ref.host.

(** Alice reads her three logs in two pages of two. *)
Lemma get_logs_pages_cover_witness :
  mjoin ((fun req => entriesOf (body (handle envOther req exampleServer).1))
           <$> [logsRequest "key_alice" "1" "2"; logsRequest "key_alice" "2" "2"])
  = formatLog exampleStore
      <$> findLogs {| forUser := 2%N; gte := None; lte := None |} exampleStore.
Proof.
  destruct (get_logs_pages_cover envOther exampleServer 2%N alice
              {| forUser := 2%N; gte := None; lte := None |} 2
              [logsRequest "key_alice" "1" "2"; logsRequest "key_alice" "2" "2"])
    as (_ & _ & _ & Hall).
  - lia.
  - intros [|[|k]] req Hreq; [| |discriminate Hreq];
      injection Hreq as <-; (split; [discriminate|]); repeat split; reflexivity.
  - apply (bool_decide_unpack _). exact I.
  - apply Hall. apply Z.leb_le. reflexivity.
Defined.

Lemma get_logs_usernames_witness :
  Forall (fun entry => lv_username entry = "Alice"%string)
         (entriesOf (body (handle envOther (logsRequest "key_alice" "1" "0")
                             exampleServer).1)).
Proof.
  apply (get_logs_usernames envOther (logsRequest "key_alice" "1" "0") exampleServer
           2%N alice).
  - discriminate.
  - reflexivity.
  - reflexivity.
Defined.

End LogPageRuns.

Section PageRuns.
#[local] Existing Instances Ref.number Ref.host RefBrowser.browser.

(** The admin chooses the filter "today". *)
Lemma dashboard_date_filter_witness :
  loadUsers "today" 1718150400000
    (body (handle envOther (request GetAdminUsers (Some "key_admin") NoFile) exampleServer).1)
  = Some {| totalUsers := Z.of_nat (length (nonAdminUsers exampleStore));
            totalRequests := JNum (numOfZ 0);
            activeToday := 0;
            tableRows := [] |}.
Proof.
  destruct (dashboard_date_filter envOther
              (request GetAdminUsers (Some "key_admin") NoFile) exampleServer 1%N
              "today" 1718150400000) as [Hfilter _].
  - split; [discriminate|]. exists admin. split; reflexivity.
  - reflexivity.
  - apply Hfilter. discriminate.
Defined.

(** Alice's submission is answered with the UTR 123456789012, and the
    page shows N/A. *)
Lemma upload_page_transaction_id_witness :
  exists shownDate shownAmount shownEdited,
    uploadOutput (handle envOther (request PostProcessImage (Some "key_alice") (File "image"))
                    exampleServer).1
    = Fields [("Date: "%string, shownDate);
              ("Transaction ID: "%string, JStr "N/A");
              ("Amount (INR): "%string, shownAmount);
              ("Is Edited: "%string, shownEdited)].
Proof.
  destruct (upload_page_transaction_id envOther
              (request PostProcessImage (Some "key_alice") (File "image")) exampleServer
              2%N "image" {[ 2%N := {| hits := 1; resetTime := 1718150460000 |} ]}
              "Paid to shop UPI Ref 412345678901 Txn 123456789012 Rs 2500.00" answerOther
              (default ∅ (parseAnswer answerOther)))
    as (shownDate & shownAmount & shownEdited & Hout & _).
  - split; [discriminate|]. split; [reflexivity|]. split; [|reflexivity].
    exists alice, (Some 19). split; reflexivity.
  - reflexivity.
  - reflexivity.
  - reflexivity.
  - reflexivity.
  - reflexivity.
  - exists shownDate, shownAmount, shownEdited. exact Hout.
Defined.

(** The same answer on the page, line by line. *)
Example uploadOutput_ex :
  uploadOutput (handle envOther (request PostProcessImage (Some "key_alice") (File "image"))
                  exampleServer).1
  = Fields [("Date: "%string, JStr "12 Jun 2024");
            ("Transaction ID: "%string, JStr "N/A");
            ("Amount (INR): "%string, JStr "2500.00");
            ("Is Edited: "%string, JBool false)]
  ∧ match body (handle envOther (request PostProcessImage (Some "key_alice") (File "image"))
                  exampleServer).1 with
    | BProcessed data _ _ => prop "utr" data = JStr "123456789012"
    | _ => False
    end.
Proof. split; reflexivity. Qed.

End PageRuns.
